(** * network-traffic-graphs: log normalisation and the two chart reports

    A shallow embedding of [pie_chart.py] and [line_chart.py].

    The Python code is written against pandas and matplotlib.  The part of
    pandas the two files use is modelled in [Module pd] (cells, labelled
    series, data frames and the column operations the source calls), the
    matplotlib calls are recorded as a trace of [event]s, and the three
    functions of the repository are transcribed statement by statement on
    top of that.  The definitions come first: the model of the libraries,
    the two source files, then the vocabulary of the properties; the
    properties follow.

    Scope of the model:
    - a cell is missing ([NaN], which also stands for [NaT] and [None]), an
      integer, a text, a timestamp in nanoseconds since the epoch or a list
      of texts; fractional numbers and the IEEE special values are not
      represented;
    - numbers are added in [Z].  pandas adds in int64 or in float64, by
      the type of the column, and both give the integer sum as long as
      it stays within 2^53 in magnitude; a numeral in a text cell is read
      when it is a plain integer numeral.  The properties that compute
      with the cells of a file (byte counts, event counts, seconds) are
      stated for cells within these limits;
    - how pandas reads a frequency such as ["30S"] depends on its
      version; [to_offset] holds the fixed widths, and the properties that
      depend on the width are stated for the spellings of [fixed_width],
      which every version reads alike, and for timestamps that leave
      room for the bin edges and span at most a million buckets;
    - [pd.to_datetime] is taken to return: a number of seconds that
      datetime64 does not hold becomes [NaT].  The properties that say a
      file is normalised are stated for [ts] cells that are missing or
      whole seconds datetime64 holds ([readable_ts]);
    - [str] prints a number in decimal, as Python prints an int; the
      properties of the [service] column are stated for cells that are
      texts or missing;
    - a call of matplotlib is recorded in the trace and taken to return;
      what is drawn is stated on the calls made;
    - texts are byte strings and the Python string methods are modelled on
      ASCII;
    - a frame is what [pd.read_csv] returned: the CSV reader itself is an
      external collaborator. *)

From Stdlib Require Import ZArith String Ascii List Lia.
From stdpp Require Import base option list gmap strings pretty sorting.

Open Scope string_scope.
Open Scope Z_scope.

(** ** Python strings *)

Module py.

(** [str.isspace] on one ASCII character: TAB..CR, FS..US and the space. *)
Definition isspace (a : ascii) : bool :=
  let n := N_of_ascii a in
  (N.leb 9 n && N.leb n 13) || (N.leb 28 n && N.leb n 32).

Fixpoint lstrip (s : string) : string :=
  match s with
  | EmptyString => EmptyString
  | String a s' => if isspace a then lstrip s' else s
  end.

Fixpoint rstrip (s : string) : string :=
  match s with
  | EmptyString => EmptyString
  | String a s' =>
      match rstrip s' with
      | EmptyString => if isspace a then EmptyString else String a EmptyString
      | t => String a t
      end
  end.

(** [s.strip()] *)
Definition strip (s : string) : string := rstrip (lstrip s).

Definition lower_ascii (a : ascii) : ascii :=
  let n := N_of_ascii a in
  if N.leb 65 n && N.leb n 90 then ascii_of_N (n + 32) else a.

(** [s.lower()] *)
Fixpoint lower (s : string) : string :=
  match s with
  | EmptyString => EmptyString
  | String a s' => String (lower_ascii a) (lower s')
  end.

(** [s.split(sep)] for a one-character separator: the pieces between the
    separators, empty pieces included, so never an empty list. *)
Fixpoint split (sep : ascii) (s : string) : list string :=
  match s with
  | EmptyString => [EmptyString]
  | String a s' =>
      if Ascii.eqb a sep then EmptyString :: split sep s'
      else match split sep s' with
           | h :: t => String a h :: t
           | [] => [String a EmptyString]
           end
  end.

(** [s.replace(old, new)]: every occurrence of [old], left to right and
    without overlap.  [skip] counts the characters of a match still to drop. *)
Fixpoint replace_from (skip : nat) (old new s : string) : string :=
  match s with
  | EmptyString => EmptyString
  | String a s' =>
      match skip with
      | S k => replace_from k old new s'
      | O =>
          if String.prefix old s
          then new +:+ replace_from (Nat.pred (String.length old)) old new s'
          else String a (replace_from O old new s')
      end
  end.

Definition replace (old new s : string) : string :=
  match old with
  | EmptyString => s
  | _ => replace_from O old new s
  end.

Definition digit (a : ascii) : option Z :=
  let n := N_of_ascii a in
  if N.leb 48 n && N.leb n 57 then Some (Z.of_N (n - 48)) else None.

Fixpoint digits (acc : Z) (s : string) : option Z :=
  match s with
  | EmptyString => Some acc
  | String a s' =>
      match digit a with
      | Some d => digits (10 * acc + d) s'
      | None => None
      end
  end.

(** An integer numeral: an optional sign and at least one digit. *)
Definition parse_int (s : string) : option Z :=
  match s with
  | EmptyString => None
  | String "-" (String _ _ as s') => Z.opp <$> digits 0 s'
  | String "+" (String _ _ as s') => digits 0 s'
  | String "-" EmptyString | String "+" EmptyString => None
  | _ => digits 0 s
  end.

(** The leading digits of a text and what follows them. *)
Fixpoint span_digits (s : string) : string * string :=
  match s with
  | EmptyString => (EmptyString, EmptyString)
  | String a s' =>
      match digit a with
      | Some _ => let '(d, r) := span_digits s' in (String a d, r)
      | None => (EmptyString, s)
      end
  end.

(** Exceptions the modelled library calls raise. *)
Inductive exn :=
| KeyError (key : string)
| TypeError (msg : string)
| ValueError (msg : string)
| AttributeError (msg : string).

(** [str(e)] *)
Definition exn_str (e : exn) : string :=
  match e with
  | KeyError k => "'" +:+ k +:+ "'"
  | TypeError m | ValueError m | AttributeError m => m
  end.

(** The outcome of an expression that may raise. *)
Inductive result (A : Type) :=
| Ok (a : A)
| Raise (e : exn).
Arguments Ok {A} a.
Arguments Raise {A} e.

#[export] Instance result_ret : MRet result := fun A a => Ok a.
#[export] Instance result_bind : MBind result := fun A B f m =>
  match m with
  | Ok a => f a
  | Raise e => Raise e
  end.
#[export] Instance result_fmap : FMap result := fun A B f m =>
  match m with
  | Ok a => Ok (f a)
  | Raise e => Raise e
  end.

End py.
Export py.

(** ** The part of pandas the repository uses *)

Module pd.

(** A cell of a frame or a series. *)
Inductive value :=
| NaN                      (* missing: NaN, NaT, None *)
| Num (n : Z)
| Str (s : string)
| Timestamp (ns : Z)       (* datetime64[ns] *)
| PyList (l : list string).

#[export] Instance value_eq_dec : EqDecision value.
Proof. solve_decision. Defined.

(** A series pairs every cell with its index label; a frame keeps, for every
    row, the index label and the cells by column name. *)
Abbreviation Series := (list (value * value)).

Record DataFrame := mkDataFrame {
  columns : list string;
  rows : list (value * gmap string value)
}.

Definition cell (r : gmap string value) (c : string) : value :=
  default NaN (r !! c).

Definition is_nan (v : value) : bool :=
  match v with NaN => true | _ => false end.

(** [s.index], [s.values], [len(s)] *)
Definition index (s : Series) : list value := s.*1.
Definition values (s : Series) : list value := s.*2.
Definition smap (f : value -> value) (s : Series) : Series :=
  (fun p => (p.1, f p.2)) <$> s.

(** [c in df.columns] *)
Definition has_column (df : DataFrame) (c : string) : bool :=
  bool_decide (c ∈ columns df).

(** [df.empty]: no row (or no column). *)
Definition empty (df : DataFrame) : bool :=
  match rows df, columns df with
  | [], _ | _, [] => true
  | _, _ => false
  end.

(** [df[c]] *)
Definition getitem (df : DataFrame) (c : string) : result Series :=
  if has_column df c
  then Ok ((fun p => (p.1, cell p.2 c)) <$> rows df)
  else Raise (KeyError c).

Definition add_column (c : string) (cols : list string) : list string :=
  if bool_decide (c ∈ cols) then cols else cols ++ [c].

(** [df[c] = v] for a scalar [v]: the column is created or replaced. *)
Definition setitem_scalar (df : DataFrame) (c : string) (v : value) : DataFrame :=
  {| columns := add_column c (columns df);
     rows := (fun p => (p.1, <[c := v]> p.2)) <$> rows df |}.

(** The cell of [s] at label [i]. *)
Definition at_label (s : Series) (i : value) : value :=
  match list_find (fun p => p.1 = i) s with
  | Some (_, p) => p.2
  | None => NaN
  end.

(** [df[c] = s] for a series [s]: cell by cell when [s] has the index of the
    frame; otherwise [s] is reindexed to the frame, which fails on
    duplicate labels. *)
Definition setitem (df : DataFrame) (c : string) (s : Series) : result DataFrame :=
  if decide (index s = (rows df).*1) then
    Ok {| columns := add_column c (columns df);
          rows := zip_with (fun p v => (p.1, <[c := v]> p.2)) (rows df) (values s) |}
  else if decide (NoDup (index s)) then
    Ok {| columns := add_column c (columns df);
          rows := (fun p => (p.1, <[c := at_label s p.1]> p.2)) <$> rows df |}
  else Raise (ValueError "cannot reindex on an axis with duplicate labels").

(** [s.fillna(v)] *)
Definition fillna (v : value) (s : Series) : Series :=
  smap (fun x => if is_nan x then v else x) s.

Definition to_numeric1 (v : value) : value :=
  match v with
  | Num n => Num n
  | Str s => match parse_int s with Some n => Num n | None => NaN end
  | Timestamp t => Num t
  | NaN | PyList _ => NaN
  end.

(** [pd.to_numeric(s, errors="coerce")] *)
Definition to_numeric (s : Series) : Series := smap to_numeric1 s.

(** The timestamps datetime64[ns] can hold; the least int64 is NaT. *)
Definition in_bounds (ns : Z) : bool :=
  (- (2 ^ 63 - 1) <=? ns) && (ns <=? 2 ^ 63 - 1).

Definition to_datetime_s1 (v : value) : value :=
  match v with
  | Num n => if in_bounds (n * 10 ^ 9) then Timestamp (n * 10 ^ 9) else NaN
  | Timestamp t => Timestamp t
  | _ => NaN
  end.

(** [pd.to_datetime(s, unit="s", errors="coerce")] on a numeric series. *)
Definition to_datetime_s (s : Series) : Series := smap to_datetime_s1 s.

(** [pd.to_datetime(s, errors="coerce")]: a number counts nanoseconds, a
    text is read by the date parser [parse], which the model takes as a
    parameter. *)
Definition to_datetime1 (parse : string -> option Z) (v : value) : value :=
  match v with
  | Timestamp t => Timestamp t
  | Num n => if in_bounds n then Timestamp n else NaN
  | Str s => match parse s with
             | Some t => if in_bounds t then Timestamp t else NaN
             | None => NaN
             end
  | NaN | PyList _ => NaN
  end.

Definition to_datetime (parse : string -> option Z) (s : Series) : Series :=
  smap (to_datetime1 parse) s.

(** [str(x)] of a cell; an integer prints in decimal. *)
Definition str (v : value) : string :=
  match v with
  | NaN => "nan"
  | Num n => pretty n
  | Str s => s
  | Timestamp t => pretty t
  | PyList l => "[" +:+ String.concat ", " l +:+ "]"
  end.

(** [s.apply(f)] *)
Definition apply (f : value -> value) (s : Series) : Series := smap f s.

(** Whether [.str] accepts the series: it needs the object dtype, which a
    series has when it is empty or holds a cell that is no number. *)
Definition is_object_dtype (s : Series) : bool :=
  match s with
  | [] => true
  | _ => existsb (fun v => match v with Num _ | NaN => false | _ => true end)
           (values s)
  end.

(** [s.str.lower()]: cells that are no text become NaN. *)
Definition str_lower (s : Series) : result Series :=
  if is_object_dtype s
  then Ok (smap (fun v => match v with Str x => Str (py.lower x) | _ => NaN end) s)
  else Raise (AttributeError "Can only use .str accessor with string values!").

Definition add_value (a b : value) : value :=
  match a, b with
  | Num x, Num y => Num (x + y)
  | _, _ => NaN
  end.

(** [a + b] for two columns of one frame: their indexes are equal, so the
    sum is taken cell by cell. *)
Definition add (a b : Series) : Series :=
  zip_with (fun p q => (p.1, add_value p.2 q.2)) a b.

(** [df.explode(c)]: a row whose cell is a list becomes one row per entry,
    with the label of the row repeated; an empty list leaves one row with
    a missing cell. *)
Definition explode_row (c : string) (p : value * gmap string value)
  : list (value * gmap string value) :=
  match p.2 !! c with
  | Some (PyList []) => [(p.1, <[c := NaN]> p.2)]
  | Some (PyList l) => (fun x => (p.1, <[c := Str x]> p.2)) <$> l
  | _ => [p]
  end.

Definition explode (df : DataFrame) (c : string) : result DataFrame :=
  if has_column df c
  then Ok {| columns := columns df; rows := rows df ≫= explode_row c |}
  else Raise (KeyError c).

(** [df[[c1, ..., cn]]] *)
Definition select_row (cols : list string) (r : gmap string value)
  : gmap string value :=
  foldr (fun c m => <[c := cell r c]> m) ∅ cols.

Definition select (df : DataFrame) (cols : list string) : result DataFrame :=
  match list_find (fun c => c ∉ columns df) cols with
  | Some (_, c) => Raise (KeyError c)
  | None => Ok {| columns := cols;
                  rows := (fun p => (p.1, select_row cols p.2)) <$> rows df |}
  end.

(** [s.isin(xs)], [s.notna()] and [~m]: boolean masks, by position. *)
Definition isin (s : Series) (xs : list string) : list bool :=
  (fun v => match v with Str x => bool_decide (x ∈ xs) | _ => false end)
    <$> values s.

Definition notna (s : Series) : list bool := (fun v => negb (is_nan v)) <$> values s.

Definition invert (m : list bool) : list bool := negb <$> m.

(** [df[m]] for a boolean mask [m]: a new frame with the rows kept. *)
Definition getitem_mask (df : DataFrame) (m : list bool) : DataFrame :=
  {| columns := columns df;
     rows := omap (fun bp : bool * (value * gmap string value) =>
                    if bp.1 then Some bp.2 else None) (zip m (rows df)) |}.

(** What [sum] makes of one cell: missing cells are skipped. *)
Definition summand (v : value) : result Z :=
  match v with
  | Num n => Ok n
  | NaN => Ok 0
  | _ => Raise (TypeError "unsupported operand type(s) for +")
  end.

Fixpoint sum_cells (l : list value) : result Z :=
  match l with
  | [] => Ok 0
  | v :: l' => n ← summand v; m ← sum_cells l'; Ok (n + m)
  end.

(** [s.sum()] *)
Definition sum (s : Series) : result value := Num <$> sum_cells (values s).

(** The order of index labels: numbers, texts and timestamps among
    themselves, missing labels last. *)
Definition value_leb (a b : value) : bool :=
  match a, b with
  | _, NaN => true
  | NaN, _ => false
  | Num x, Num y | Timestamp x, Timestamp y => x <=? y
  | Str x, Str y => String.leb x y
  | _, _ => true
  end.

(** [df.groupby(key, dropna=False)[col].sum()]: one entry per distinct key,
    the keys in order, each with the sum of its rows. *)
Definition group_keys (df : DataFrame) (key : string) : list value :=
  merge_sort (fun a b => value_leb a b)
    (remove_dups ((fun p => cell p.2 key) <$> rows df)).

Definition group_cells (df : DataFrame) (key col : string) (k : value) : list value :=
  (fun p => cell p.2 col) <$> filter (fun p => cell p.2 key = k) (rows df).

Fixpoint group_sums (df : DataFrame) (key col : string) (ks : list value)
  : result Series :=
  match ks with
  | [] => Ok []
  | k :: ks' =>
      n ← sum_cells (group_cells df key col k);
      s ← group_sums df key col ks';
      Ok ((k, Num n) :: s)
  end.

Definition groupby_sum (df : DataFrame) (key col : string) : result Series :=
  if negb (has_column df key) then Raise (KeyError key)
  else if negb (has_column df col)
  then Raise (KeyError ("Column not found: " +:+ col))
  else group_sums df key col (group_keys df key).

(** The number a cell of sums stands for. *)
Definition as_num (v : value) : Z :=
  match v with Num n => n | _ => 0 end.

(** [s.sort_values(ascending=False)] on a series of sums.  pandas leaves
    the order of equal values to the sorting routine. *)
Definition value_ge (a b : value * value) : Prop := as_num b.2 ≤ as_num a.2.

#[export] Instance value_ge_dec a b : Decision (value_ge a b).
Proof. unfold value_ge. apply _. Defined.

Definition sort_values_desc (s : Series) : Series := merge_sort value_ge s.

(** [s.iloc[:n]], [s.iloc[n:]], [pd.Series({k: v})], [pd.concat([a, b])] *)
Definition iloc_to (n : nat) (s : Series) : Series := take n s.
Definition iloc_from (n : nat) (s : Series) : Series := drop n s.
Definition Series_of (k : string) (v : value) : Series := [(Str k, v)].
Definition concat (a b : Series) : Series := a ++ b.

(** [df.set_index(c)]: the column becomes the index. *)
Definition set_index (df : DataFrame) (c : string) : result DataFrame :=
  if has_column df c
  then Ok {| columns := filter (fun x => x ≠ c) (columns df);
             rows := (fun p => (cell p.2 c, delete c p.2)) <$> rows df |}
  else Raise (KeyError c).

(** [df.sort_index()] *)
Definition sort_index (df : DataFrame) : DataFrame :=
  {| columns := columns df;
     rows := merge_sort (fun p q => value_leb p.1 q.1) (rows df) |}.

(** *** Resampling *)

Definition unit_nanos (u : string) : option Z :=
  if decide (u = "N" ∨ u = "ns") then Some 1
  else if decide (u = "U" ∨ u = "us") then Some (10 ^ 3)
  else if decide (u = "L" ∨ u = "ms") then Some (10 ^ 6)
  else if decide (u = "S" ∨ u = "s") then Some (10 ^ 9)
  else if decide (u = "T" ∨ u = "min") then Some (60 * 10 ^ 9)
  else if decide (u = "H" ∨ u = "h") then Some (3600 * 10 ^ 9)
  else if decide (u = "D") then Some (86400 * 10 ^ 9)
  else None.

(** The width in nanoseconds of a fixed-width frequency such as ["30S"].
    Calendar frequencies are not modelled. *)
Definition to_offset (freq : string) : result Z :=
  let '(d, u) := span_digits freq in
  let n := match d with EmptyString => Some 1 | _ => digits 0 d end in
  match n, unit_nanos u with
  | Some n, Some k =>
      if 0 <? n then Ok (n * k)
      else Raise (ValueError ("Invalid frequency: " +:+ freq))
  | _, _ => Raise (ValueError ("Invalid frequency: " +:+ freq))
  end.

(** The index as timestamps; resampling needs a DatetimeIndex. *)
Fixpoint datetime_index (l : list value) : result (list Z) :=
  match l with
  | [] => Ok []
  | Timestamp t :: l' => ts ← datetime_index l'; Ok (t :: ts)
  | _ :: _ => Raise (TypeError "Only valid with DatetimeIndex")
  end.

Definition DAY : Z := 86400 * 10 ^ 9.

(** The first bin edge and the edge after the last bin, for bins closed on
    the left and anchored at the midnight before the first timestamp. *)
Definition timestamp_range_edges (first last w : Z) : Z * Z :=
  let origin := first / DAY * DAY in
  let foffset := (first - origin) mod w in
  let loffset := (last - origin) mod w in
  let fresult := if 0 <? foffset then first - foffset else first in
  let lresult := if 0 <? loffset then last + (w - loffset) else last + w in
  (fresult, lresult).

(** The labels of the bins: every edge but the last. *)
Definition bin_labels (fresult lresult w : Z) : list Z :=
  (fun k => fresult + Z.of_nat k * w) <$> seq 0 (Z.to_nat ((lresult - fresult) / w)).

(** The cells of the bin [[b, b + w)]. *)
Definition bin_cells (w : Z) (ts : list Z) (vs : list value) (b : Z) : list value :=
  snd <$> filter (fun tv => b ≤ tv.1 < b + w) (zip ts vs).

Fixpoint bin_sums (w : Z) (ts : list Z) (vs : list value) (bs : list Z)
  : result Series :=
  match bs with
  | [] => Ok []
  | b :: bs' =>
      n ← sum_cells (bin_cells w ts vs b);
      s ← bin_sums w ts vs bs';
      Ok ((Timestamp b, Num n) :: s)
  end.

(** [s.resample(freq).sum()]: every bin from the first to the last, the
    empty ones too. *)
Definition resample_sum (s : Series) (freq : string) : result Series :=
  w ← to_offset freq;
  ts ← datetime_index (index s);
  match ts with
  | [] => Ok []
  | t :: ts' =>
      let first := foldr Z.min t ts' in
      let last := foldr Z.max t ts' in
      let '(fresult, lresult) := timestamp_range_edges first last w in
      bin_sums w ts (values s) (bin_labels fresult lresult w)
  end.

(** A frame as [pd.read_csv] builds it from a header and the cells of each
    line, with the labels 0, 1, ... *)
Definition make_row (cols : list string) (cells : list value) : gmap string value :=
  list_to_map (zip cols cells).

Definition frame (cols : list string) (data : list (list value)) : DataFrame :=
  {| columns := cols;
     rows := zip_with (fun i cells => (Num (Z.of_nat i), make_row cols cells))
               (seq 0 (length data)) data |}.

End pd.
Export pd.

(** ** Effects: references to frames, the console and matplotlib *)

Module io.

(** What a run prints and draws, in order. *)
Inductive event :=
| print (s : string)
| plt_figure (figsize : Z * Z)
| plt_pie (x labels : list value) (autopct : string) (startangle : Z) (colors : string)
| plt_plot (x y : list value) (color label : string)
| plt_xlabel (s : string)
| plt_ylabel (s : string)
| plt_title (s : string)
| plt_legend (loc : string)
| plt_tight_layout
| plt_savefig (fname : string) (dpi : Z)
| plt_show.

(** Frames are objects: a variable holds a reference, and assigning to a
    column changes the object every holder of the reference sees. *)
Record World := mkWorld {
  heap : gmap nat DataFrame;
  trace : list event
}.

Definition M (A : Type) : Type := World -> result A * World.

#[export] Instance M_ret : MRet M := fun A a w => (Ok a, w).
#[export] Instance M_bind : MBind M := fun A B f m w =>
  match m w with
  | (Ok a, w') => f a w'
  | (Raise e, w') => (Raise e, w')
  end.

Definition lift {A} (r : result A) : M A := fun w => (r, w).

Definition emit (e : event) : M unit :=
  fun w => (Ok tt, {| heap := heap w; trace := trace w ++ [e] |}).

(** [try: m except Exception as e: ...]: the outcome of [m] as a value. *)
Definition try {A} (m : M A) : M (result A) :=
  fun w => let '(r, w') := m w in (Ok r, w').

(** A new object. *)
Definition new (df : DataFrame) : M nat :=
  fun w => let l := fresh (dom (heap w)) in
           (Ok l, {| heap := <[l := df]> (heap w); trace := trace w |}).

(** Reading through a reference.  A reference that names no object cannot
    arise in Python; the model raises there. *)
Definition deref (l : nat) : M DataFrame :=
  fun w => match heap w !! l with
           | Some df => (Ok df, w)
           | None => (Raise (ValueError "no such object"), w)
           end.

Definition store (l : nat) (df : DataFrame) : M unit :=
  fun w => (Ok tt, {| heap := <[l := df]> (heap w); trace := trace w |}).

(** [df.copy()] *)
Definition copy (l : nat) : M nat := df ← deref l; new df.

(** [df[c]] *)
Definition getitem_ref (l : nat) (c : string) : M Series :=
  df ← deref l; lift (getitem df c).

(** [df[c] = s]: in place. *)
Definition setitem_ref (l : nat) (c : string) (s : Series) : M unit :=
  df ← deref l; df' ← lift (setitem df c s); store l df'.

(** [df[m]]: a new object. *)
Definition getitem_mask_ref (l : nat) (m : list bool) : M nat :=
  df ← deref l; new (getitem_mask df m).

(** [df.empty] *)
Definition empty_ref (l : nat) : M bool := df ← deref l; mret (empty df).

(** [df.set_index(c)] and [df.sort_index()]: new objects. *)
Definition set_index_ref (l : nat) (c : string) : M nat :=
  df ← deref l; df' ← lift (set_index df c); new df'.

Definition sort_index_ref (l : nat) : M nat :=
  df ← deref l; new (sort_index df).

End io.
Export io.

(** ** pie_chart.py *)

Module pie_chart.

(** A path with what [pd.read_csv] makes of the file behind it: the parsed
    frame, or the exception of an unreadable or malformed file. *)
Record Path := mkPath {
  name : string;
  read_csv : result DataFrame
}.

(** [for x in xs: s = body(s, x)] *)
Fixpoint for_each {A S} (xs : list A) (body : S -> A -> result S) (s : S) : result S :=
  match xs with
  | [] => Ok s
  | x :: xs' => s' ← body s x; for_each xs' body s'
  end.

(** Truth of a text: non-empty. *)
Definition truthy (s : string) : bool :=
  match s with EmptyString => false | _ => true end.

(** Loads a single CSV, standardizes columns, and infers protocol if
    needed.  [None] is the [except] branch: the error is printed and the
    function returns [None]. *)
Definition load_and_standardize_log (csv_path : Path) : option DataFrame :=
  let file_name := name csv_path in
  let log_type := py.replace ".log.csv" "" file_name in
  let body : result DataFrame :=
    df ← read_csv csv_path;
    let df := setitem_scalar df "event_count" (Num 1) in
    df ← (if has_column df "ts" then
            ts ← getitem df "ts";
            df ← setitem df "ts" (to_numeric ts);
            ts ← getitem df "ts";
            setitem df "datetime" (to_datetime_s ts)
          else Ok (setitem_scalar df "datetime" NaN));
    df ← (if bool_decide (file_name = "conn.log.csv") && has_column df "service" then
            s ← getitem df "service";
            df ← setitem df "unified_protocol" (fillna (Str "unknown_service") s);
            s ← getitem df "unified_protocol";
            df ← setitem df "unified_protocol"
                   (apply (fun x => PyList ((fun s => py.lower (py.strip s))
                                              <$> py.split "," (str x))) s);
            explode df "unified_protocol"
          else if has_column df "proto" then
            s ← getitem df "proto";
            s ← str_lower (fillna (Str "unknown_protocol") s);
            setitem df "unified_protocol" s
          else if truthy log_type then
            Ok (setitem_scalar df "unified_protocol" (Str (py.lower log_type)))
          else
            Ok (setitem_scalar df "unified_protocol" (Str "unknown_log_type")));
    let df := setitem_scalar df "total_bytes" (Num 0) in
    df ← (if has_column df "orig_bytes" && has_column df "resp_bytes" then
            df ← for_each ["orig_bytes"; "resp_bytes"]
                   (fun df col => s ← getitem df col; setitem df col (to_numeric s)) df;
            a ← getitem df "orig_bytes";
            b ← getitem df "resp_bytes";
            setitem df "total_bytes" (add (fillna (Num 0) a) (fillna (Num 0) b))
          else if has_column df "response_body_len" then
            s ← getitem df "response_body_len";
            setitem df "total_bytes" (fillna (Num 0) (to_numeric s))
          else if bool_decide (file_name = "files.log.csv") && has_column df "total_bytes" then
            s ← getitem df "total_bytes";
            setitem df "total_bytes" (fillna (Num 0) (to_numeric s))
          else Ok df);
    select df ["datetime"; "unified_protocol"; "total_bytes"; "event_count"] in
  match body with
  | Ok df => Some df
  | Raise e => None
  end.

(** [pd.concat(dfs, ignore_index=True)] for frames with the same columns:
    the rows in order, labelled 0, 1, ... *)
Definition concat_frames (dfs : list DataFrame) : DataFrame :=
  let rs := dfs ≫= rows in
  {| columns := remove_dups (dfs ≫= columns);
     rows := zip_with (fun i p => (Num (Z.of_nat i), p.2)) (seq 0 (length rs)) rs |}.

(** Loads and combines all CSV files from a directory; [csv_dir] lists the
    files the directory holds that match [*.csv]. *)
Definition load_all_csvs (parse : string -> option Z) (csv_dir : list Path)
  : result DataFrame :=
  let all_dfs := omap load_and_standardize_log csv_dir in
  match all_dfs with
  | [] => Ok {| columns := ["datetime"; "unified_protocol"; "total_bytes"; "event_count"];
                rows := [] |}
  | _ =>
      let combined_df := concat_frames all_dfs in
      s ← getitem combined_df "datetime";
      combined_df ← setitem combined_df "datetime" (to_datetime parse s);
      s ← getitem combined_df "total_bytes";
      setitem combined_df "total_bytes" (fillna (Num 0) (to_numeric s))
  end.

Definition transport_protocols_to_exclude : list string :=
  ["tcp"; "udp"; "unknown_transport"; "icmp"; "arp"; "unknown_protocol";
   "unknown_service"; "unknown_log_type"].

Definition top_n : nat := 8.

(** Plot protocol share pie by event count, excluding transport protocols.
    The frame is only read. *)
Definition plot_protocol_pie (df : DataFrame) (out_path : option string) : M unit :=
  s ← lift (getitem df "unified_protocol");
  let filtered_df := getitem_mask df (invert (isin s transport_protocols_to_exclude)) in
  agg ← lift (groupby_sum filtered_df "unified_protocol" "event_count");
  let agg := sort_values_desc agg in
  let label := "Application Protocol share by event count" in
  agg ← (if decide (top_n < length agg)%nat then
           let top := iloc_to top_n agg in
           v ← lift (sum (iloc_from top_n agg));
           let other := Series_of "other" v in
           mret (concat top other)
         else mret agg);
  emit (plt_figure (8, 8));;
  emit (plt_pie (values agg) (index agg) "%1.1f%%" 90 "tab20");;
  emit (plt_title label);;
  emit plt_tight_layout;;
  match out_path with
  | Some p => emit (plt_savefig p 150)
  | None => mret tt
  end;;
  emit plt_show.

End pie_chart.

(** ** line_chart.py *)

Module line_chart.

(** Plot count of connections (events) over time at the given interval.
    [df] is a reference to the caller's frame. *)
Definition plot_connections_over_time (parse : string -> option Z)
  (df : nat) (freq : string) (out_path : option string) : M unit :=
  df ← copy df;
  s ← getitem_ref df "datetime";
  setitem_ref df "datetime" (to_datetime parse s);;
  s ← getitem_ref df "datetime";
  df ← getitem_mask_ref df (notna s);
  e ← empty_ref df;
  if e : bool then emit (print "No valid timestamps found for line chart.")
  else
    series_df ← set_index_ref df "datetime";
    series_df ← sort_index_ref series_df;
    r ← try (s ← getitem_ref series_df "event_count"; lift (resample_sum s freq));
    match r : result Series with
    | Raise e => emit (print ("Resample failed: " +:+ exn_str e))
    | Ok connections =>
        match connections with
        | [] => emit (print "No data after resampling for the selected frequency.")
        | _ =>
            emit (plt_figure (12, 5));;
            emit (plt_plot (index connections) (values connections) "tab:blue" "Connections");;
            emit (plt_xlabel "Time");;
            emit (plt_ylabel "Connections (count)");;
            emit (plt_title ("Connections over time (bin=" +:+ freq +:+ ")"));;
            emit (plt_legend "upper left");;
            emit plt_tight_layout;;
            match out_path with
            | Some p => emit (plt_savefig p 150)
            | None => mret tt
            end;;
            emit plt_show
        end
    end.

End line_chart.

(** * The vocabulary of the properties

    Definitions the statements below are written in: the rule chain of one
    row, the series and the events a chart is drawn from, and the datasets
    of the examples. *)

Import pie_chart line_chart.

(** ** Rows and columns *)

(** The series holding [g] of every row. *)
Definition column_of (g : gmap string value -> value)
  (rs : list (value * gmap string value)) : Series :=
  (fun p => (p.1, g p.2)) <$> rs.

(** The rows with [F] applied to the cells of each. *)
Definition map_rows (F : gmap string value -> gmap string value)
  (rs : list (value * gmap string value))
  : list (value * gmap string value) :=
  (fun p => (p.1, F p.2)) <$> rs.

(** ** The rule chain of one row *)

(** The cells of a row after the datetime step (lines 23-27). *)
Definition with_datetime (cols : list string) (r : gmap string value)
  : gmap string value :=
  if bool_decide ("ts" ∈ cols)
  then <["datetime" := to_datetime_s1 (to_numeric1 (cell r "ts"))]>
         (<["ts" := to_numeric1 (cell r "ts")]> r)
  else <["datetime" := NaN]> r.

(** [fillna] on one cell. *)
Definition fill (d v : value) : value := if is_nan v then d else v.

(** The entries of a service cell (line 35). *)
Definition service_entries (v : value) : list string :=
  (fun s => py.lower (py.strip s)) <$> py.split "," (str v).

(** The protocol labels of a row: the first case that applies (lines
    30-45). *)
Definition protocol_rule (file_name : string) (cols : list string)
  (r : gmap string value) : list value :=
  if bool_decide (file_name = "conn.log.csv") && bool_decide ("service" ∈ cols) then
    Str <$> service_entries (fill (Str "unknown_service") (cell r "service"))
  else if bool_decide ("proto" ∈ cols) then
    [match fill (Str "unknown_protocol") (cell r "proto") with
     | Str x => Str (py.lower x)
     | _ => NaN
     end]
  else if truthy (py.replace ".log.csv" "" file_name) then
    [Str (py.lower (py.replace ".log.csv" "" file_name))]
  else [Str "unknown_log_type"].

(** Whether [.str] raises on line 40: the [proto] branch is taken and the
    column has no object dtype. *)
Definition proto_fails (file_name : string) (df : DataFrame) : bool :=
  negb (bool_decide (file_name = "conn.log.csv") && has_column df "service")
  && has_column df "proto"
  && negb (is_object_dtype
             (fillna (Str "unknown_protocol")
                (column_of (fun r => cell r "proto") (rows df)))).

(** The cells of a row after the total_bytes step (lines 50-58), which
    runs after line 48 has set the column to 0. *)
Definition with_total_bytes (file_name : string) (cols : list string)
  (r : gmap string value) : gmap string value :=
  if bool_decide ("orig_bytes" ∈ cols) && bool_decide ("resp_bytes" ∈ cols) then
    <["total_bytes" := add_value (fill (Num 0) (to_numeric1 (cell r "orig_bytes")))
                                 (fill (Num 0) (to_numeric1 (cell r "resp_bytes")))]>
      (<["resp_bytes" := to_numeric1 (cell r "resp_bytes")]>
         (<["orig_bytes" := to_numeric1 (cell r "orig_bytes")]> r))
  else if bool_decide ("response_body_len" ∈ cols) then
    <["total_bytes" := fill (Num 0) (to_numeric1 (cell r "response_body_len"))]> r
  else if bool_decide (file_name = "files.log.csv") && bool_decide ("total_bytes" ∈ cols) then
    <["total_bytes" := fill (Num 0) (to_numeric1 (cell r "total_bytes"))]> r
  else r.

(** The datetime of the records of a row. *)
Definition datetime_rule (cols : list string) (r : gmap string value) : value :=
  if bool_decide ("ts" ∈ cols) then to_datetime_s1 (to_numeric1 (cell r "ts")) else NaN.

(** The total_bytes of the records of a row. *)
Definition total_bytes_rule (cols : list string) (r : gmap string value) : value :=
  if bool_decide ("orig_bytes" ∈ cols) && bool_decide ("resp_bytes" ∈ cols) then
    add_value (fill (Num 0) (to_numeric1 (cell r "orig_bytes")))
              (fill (Num 0) (to_numeric1 (cell r "resp_bytes")))
  else if bool_decide ("response_body_len" ∈ cols) then
    fill (Num 0) (to_numeric1 (cell r "response_body_len"))
  else Num 0.

(** A normalised record. *)
Definition record (d u t : value) : gmap string value :=
  <["datetime" := d]> (<["unified_protocol" := u]>
    (<["total_bytes" := t]> (<["event_count" := Num 1]> ∅))).

(** The records of one row. *)
Definition normalize_row (file_name : string) (cols : list string)
  (p : value * gmap string value) : list (value * gmap string value) :=
  (fun u => (p.1, record (datetime_rule cols p.2) u (total_bytes_rule cols p.2)))
    <$> protocol_rule file_name cols p.2.

(** The number a byte cell stands for: 0 when the cell is missing or is no
    number. *)
Definition bytes_of (v : value) : Z := as_num (to_numeric1 v).

(** How often a character occurs in a text. *)
Fixpoint count_char (c : ascii) (s : string) : nat :=
  match s with
  | EmptyString => O
  | String a s' => (if Ascii.eqb a c then 1 else 0) + count_char c s'
  end%nat.

(** ** The pie chart *)

(** The calls that draw the series [agg]. *)
Definition chart (agg : Series) (out_path : option string) : list event :=
  [plt_figure (8, 8);
   plt_pie (values agg) (index agg) "%1.1f%%" 90 "tab20";
   plt_title "Application Protocol share by event count";
   plt_tight_layout]
  ++ match out_path with Some p => [plt_savefig p 150] | None => [] end
  ++ [plt_show].

(** The series after the top categories are kept. *)
Definition plotted (agg : Series) : result Series :=
  let agg := sort_values_desc agg in
  if decide (top_n < length agg)%nat then
    v ← sum (iloc_from top_n agg);
    Ok (concat (iloc_to top_n agg) (Series_of "other" v))
  else Ok agg.

(** The series [plot_protocol_pie] draws (lines 95-106). *)
Definition pie_series (df : DataFrame) : result Series :=
  s ← getitem df "unified_protocol";
  agg ← groupby_sum
          (getitem_mask df (invert (isin s transport_protocols_to_exclude)))
          "unified_protocol" "event_count";
  plotted agg.

(** Whether a protocol label is one of the excluded ones. *)
Definition is_excluded (v : value) : bool :=
  match v with
  | Str x => bool_decide (x ∈ transport_protocols_to_exclude)
  | _ => false
  end.

(** The records the chart counts. *)
Definition kept (df : DataFrame) : list (value * gmap string value) :=
  filter (fun p => is_excluded (cell p.2 "unified_protocol") = false) (rows df).

(** The dataset without the excluded records. *)
Definition drop_excluded (df : DataFrame) : DataFrame :=
  {| columns := columns df; rows := kept df |}.

(** A cell [sum] accepts, and the sum of such cells. *)
Definition numeric (v : value) : Prop :=
  match v with Num _ | NaN => True | _ => False end.

(** The sum of cells, a cell that is no number counting as 0. *)
Definition total (l : list value) : Z := foldr (fun v acc => as_num v + acc) 0 l.

(** The distinct protocols of the counted records and the summed
    event_count of each. *)
Definition protocols (df : DataFrame) : list value :=
  remove_dups ((fun p => cell p.2 "unified_protocol") <$> kept df).

(** The summed event_count of the counted records with protocol [k]. *)
Definition event_count (df : DataFrame) (k : value) : Z :=
  total ((fun p => cell p.2 "event_count")
           <$> filter (fun p => cell p.2 "unified_protocol" = k) (kept df)).

(** The groups: every protocol with its count. *)
Definition grouped (df : DataFrame) : Series :=
  (fun k => (k, Num (event_count df k))) <$> protocols df.

(** The grouped series as pandas orders it, by label. *)
Definition agg_of (df : DataFrame) : Series :=
  (fun k => (k, Num (event_count df k)))
    <$> merge_sort (fun a b => value_leb a b) (protocols df).

(** Twelve protocols with 50, 40, 30, 25, 20, 15, 10, 8, 6, 4, 3 and 1
    records. *)
Definition twelve_protocols : DataFrame :=
  frame ["unified_protocol"; "event_count"]
    ([("irc", 1); ("http", 50); ("snmp", 3); ("ssl", 30); ("dns", 40);
      ("rdp", 4); ("ssh", 25); ("smb", 6); ("ftp", 20); ("ntp", 8);
      ("smtp", 15); ("dhcp", 10)]%nat
       ≫= fun kn => replicate kn.2 [Str kn.1; Num 1]).

#[local] Instance numeric_dec v : Decision (numeric v).
Proof. destruct v; cbn; apply _. Defined.

(** ** The line chart *)

(** The copy of the caller's frame after the datetime column is coerced
    (line 11). *)
Definition coerced (parse : string -> option Z) (df : DataFrame) : DataFrame :=
  {| columns := columns df;
     rows := map_rows
               (fun r => <["datetime" := to_datetime1 parse (cell r "datetime")]> r)
               (rows df) |}.

(** The frame after the rows without a timestamp are dropped (line 12). *)
Definition valid_frame (parse : string -> option Z) (df : DataFrame) : DataFrame :=
  getitem_mask (coerced parse df)
    (notna (column_of (fun r => cell r "datetime") (rows (coerced parse df)))).

(** The frame indexed by time and sorted (line 17). *)
Definition indexed (parse : string -> option Z) (df : DataFrame) : DataFrame :=
  sort_index
    {| columns := filter (fun x => x ≠ "datetime") (columns df);
       rows := (fun p => (cell p.2 "datetime", delete "datetime" p.2))
                 <$> rows (valid_frame parse df) |}.

(** The calls that draw the series [connections]. *)
Definition line_chart (connections : Series) (freq : string)
  (out_path : option string) : list event :=
  [plt_figure (12, 5);
   plt_plot (index connections) (values connections) "tab:blue" "Connections";
   plt_xlabel "Time";
   plt_ylabel "Connections (count)";
   plt_title ("Connections over time (bin=" +:+ freq +:+ ")");
   plt_legend "upper left";
   plt_tight_layout]
  ++ match out_path with Some p => [plt_savefig p 150] | None => [] end
  ++ [plt_show].

(** What [plot_connections_over_time] prints and draws for the frame [df]
    (lines 13-39). *)
Definition line_events (parse : string -> option Z) (df : DataFrame)
  (freq : string) (out_path : option string) : list event :=
  if empty (valid_frame parse df)
  then [print "No valid timestamps found for line chart."]
  else
    match (s ← getitem (indexed parse df) "event_count"; resample_sum s freq) with
    | Raise e => [print ("Resample failed: " +:+ exn_str e)]
    | Ok [] => [print "No data after resampling for the selected frequency."]
    | Ok connections => line_chart connections freq out_path
    end.

(** A record with a timestamp. *)
Definition has_timestamp (parse : string -> option Z)
  (p : value * gmap string value) : Prop :=
  is_nan (to_datetime1 parse (cell p.2 "datetime")) = false.

#[local] Instance has_timestamp_dec parse p : Decision (has_timestamp parse p).
Proof. unfold has_timestamp. apply _. Defined.

(** The dataset without the records that have none. *)
Definition drop_null (parse : string -> option Z) (df : DataFrame) : DataFrame :=
  {| columns := columns df; rows := filter (has_timestamp parse) (rows df) |}.

(** Two records, one without a timestamp and one with an unreadable one. *)
Definition no_timestamps : DataFrame :=
  frame ["datetime"; "event_count"] [[NaN; Num 1]; [Str "-"; Num 1]].

(** The timestamp of a record, if it has one. *)
Definition stamp (parse : string -> option Z) (p : value * gmap string value)
  : option Z :=
  match to_datetime1 parse (cell p.2 "datetime") with
  | Timestamp t => Some t
  | _ => None
  end.

(** The events of a dataset: the timestamp and the event_count cell of
    every record that has a timestamp. *)
Definition events (parse : string -> option Z) (df : DataFrame) : list (Z * value) :=
  omap (fun p => t ← stamp parse p; Some (t, cell p.2 "event_count")) (rows df).

(** The summed event_count of the events in [[b, b + w)]. *)
Definition bucket_total (w : Z) (evs : list (Z * value)) (b : Z) : Z :=
  total (snd <$> filter (fun tv => b ≤ tv.1 < b + w) evs).

(** The series of events, indexed by their timestamps. *)
Definition stamped (evs : list (Z * value)) : Series :=
  (fun tv => (Timestamp tv.1, tv.2)) <$> evs.

(** The buckets of the events [evs]: [n] consecutive ones from [x0]. *)
Definition buckets (w : Z) (evs : list (Z * value)) (x0 : Z) (n : nat) : Series :=
  (fun k => (Timestamp (x0 + Z.of_nat k * w),
             Num (bucket_total w evs (x0 + Z.of_nat k * w)))) <$> seq 0 n.

(** Where the first bucket starts: at a whole number of widths after the
    midnight before the earliest event [t]. *)
Definition first_edge (w t : Z) : Z := t - (t - t / DAY * DAY) mod w.


(** Events at 00:00:05 and 00:01:35: the two buckets between are empty. *)
Definition two_events_apart : DataFrame :=
  frame ["datetime"; "event_count"]
    [[Timestamp 1641600095000000000; Num 1];
     [Str "-"; Num 1];
     [Timestamp 1641600005000000000; Num 1]].

(** ** What is drawn *)

(** The calls of [plt.pie] in a trace, each with its values and its
    labels, and the calls of [plt.plot], each with its x and its y. *)
Definition pies (es : list event) : list (list value * list value) :=
  es ≫= fun e => match e with
                 | plt_pie x labels _ _ _ => [(x, labels)]
                 | _ => []
                 end.

Definition plots (es : list event) : list (list value * list value) :=
  es ≫= fun e => match e with
                 | plt_plot x y _ _ => [(x, y)]
                 | _ => []
                 end.

(** ** Cells within the limits of the model *)

(** The numbers of a list of cells, taken together without their signs:
    a bound on every partial sum. *)
Definition magnitude (l : list value) : Z :=
  foldr (fun v acc => Z.abs (as_num v) + acc) 0 l.

(** A text with no digit and no letter n: it is no numeral in any
    notation, and none of the words [inf], [infinity] and [nan]. *)
Fixpoint no_numeral (s : string) : bool :=
  match s with
  | EmptyString => true
  | String a s' =>
      match digit a with
      | Some _ => false
      | None => negb (bool_decide (a ∈ ["n"; "N"]%char)) && no_numeral s'
      end
  end.

(** A cell of a numeric column as [pd.read_csv] leaves it, missing or a
    whole number, or a text that is no numeral. *)
Definition plain_cell (v : value) : Prop :=
  match v with
  | NaN | Num _ => True
  | Str s => no_numeral s = true
  | _ => False
  end.

(** A plain cell whose number lies between [lo] and [hi]; a cell that
    holds no number counts as 0. *)
Definition byte_cell (lo hi : Z) (v : value) : Prop :=
  plain_cell v /\ lo ≤ as_num v ≤ hi.

(** A [ts] cell that is missing or a whole number of seconds that
    datetime64 holds. *)
Definition readable_ts (v : value) : Prop :=
  match v with
  | NaN => True
  | Num n => in_bounds (n * 10 ^ 9) = true
  | _ => False
  end.

(** The units of whole seconds that every version of pandas reads alike,
    whatever the resolution of the index, and the width of a frequency
    written as a count of one of them. *)
Definition portable_unit (u : string) : option Z :=
  if decide (u = "s") then Some (10 ^ 9)
  else if decide (u = "min") then Some (60 * 10 ^ 9)
  else if decide (u = "h") then Some (3600 * 10 ^ 9)
  else None.

Definition fixed_width (freq : string) : option Z :=
  let '(d, u) := span_digits freq in
  n ← match d with EmptyString => Some 1 | _ => digits 0 d end;
  k ← portable_unit u;
  if (0 <? n) && (n <=? 10 ^ 9) && (n * k <? 2 ^ 62) then Some (n * k) else None.

(** A timestamp within 2^62 nanoseconds of the epoch (the years 1824 to
    2116), two buckets of the given width after it included: the bin
    edges pandas computes around it stay far from the ends of
    datetime64. *)
Definition fits (width t : Z) : Prop :=
  - 2 ^ 62 ≤ t /\ t + 2 * width ≤ 2 ^ 62.

(** The time between the earliest and the latest of the timestamps. *)
Definition span (ts : list Z) : Z :=
  match ts with
  | [] => 0
  | t :: _ => foldr Z.max t ts - foldr Z.min t ts
  end.

#[local] Instance plain_cell_dec v : Decision (plain_cell v).
Proof. destruct v; cbn; apply _. Defined.

#[local] Instance byte_cell_dec lo hi v : Decision (byte_cell lo hi v).
Proof. unfold byte_cell. apply _. Defined.

#[local] Instance readable_ts_dec v : Decision (readable_ts v).
Proof. destruct v; cbn; apply _. Defined.

#[local] Instance fits_dec width t : Decision (fits width t).
Proof. unfold fits. apply _. Defined.

(** * Properties *)

(** ** Python strings *)

Example split_two : py.split "," "gssapi,dce_rpc" = ["gssapi"; "dce_rpc"].
Proof. reflexivity. Qed.

Example replace_suffix : py.replace ".log.csv" "" "conn.log.csv" = "conn".
Proof. reflexivity. Qed.

Example strip_lower : py.lower (py.strip "  HTTP ") = "http".
Proof. reflexivity. Qed.

Example parse_int_neg : py.parse_int "-12" = Some (-12).
Proof. reflexivity. Qed.

(** ** Columns computed row by row

    Every series the source assigns to a column is computed from columns of
    the same frame, so each assignment rewrites the rows one by one. *)

Section rowwise.

Implicit Types (df : DataFrame) (r : gmap string value).
Implicit Types (p : value * gmap string value) (rs : list (value * gmap string value)).

Lemma index_column_of g rs : index (column_of g rs) = rs.*1.
Proof.
  unfold index, column_of. induction rs as [|p rs IH]; [done|].
  cbn. by rewrite IH.
Qed.

Lemma values_column_of g rs : values (column_of g rs) = (fun p => g p.2) <$> rs.
Proof.
  unfold values, column_of. induction rs as [|p rs IH]; [done|].
  cbn. by rewrite IH.
Qed.

Lemma smap_column_of f g rs :
  smap f (column_of g rs) = column_of (fun r => f (g r)) rs.
Proof.
  unfold smap, column_of. induction rs as [|p rs IH]; [done|].
  cbn. by rewrite IH.
Qed.

Lemma add_column_of g h rs :
  add (column_of g rs) (column_of h rs)
  = column_of (fun r => add_value (g r) (h r)) rs.
Proof.
  unfold add, column_of. induction rs as [|p rs IH]; [done|].
  cbn. by rewrite IH.
Qed.

Lemma column_of_map_rows g F rs :
  column_of g (map_rows F rs) = column_of (fun r => g (F r)) rs.
Proof.
  unfold column_of, map_rows. induction rs as [|p rs IH]; [done|].
  cbn. by rewrite IH.
Qed.

Lemma map_rows_map_rows F G rs :
  map_rows F (map_rows G rs) = map_rows (fun r => F (G r)) rs.
Proof.
  unfold map_rows. induction rs as [|p rs IH]; [done|].
  cbn. by rewrite IH.
Qed.

Lemma column_of_ext g h rs :
  (forall p, p ∈ rs -> g p.2 = h p.2) -> column_of g rs = column_of h rs.
Proof.
  intros E. unfold column_of. apply list_fmap_ext.
  intros i p Hp. rewrite (E p); [done|]. by eapply list_elem_of_lookup_2.
Qed.

Lemma getitem_column df c :
  c ∈ columns df -> getitem df c = Ok (column_of (fun r => cell r c) (rows df)).
Proof.
  intros Hc. unfold getitem, has_column. by rewrite bool_decide_eq_true_2.
Qed.

Lemma getitem_missing df c :
  c ∉ columns df -> getitem df c = Raise (KeyError c).
Proof.
  intros Hc. unfold getitem, has_column. by rewrite bool_decide_eq_false_2.
Qed.

Lemma setitem_column df c g :
  setitem df c (column_of g (rows df))
  = Ok {| columns := add_column c (columns df);
          rows := map_rows (fun r => <[c := g r]> r) (rows df) |}.
Proof.
  unfold setitem. rewrite decide_True by apply index_column_of.
  do 2 f_equal. rewrite values_column_of. unfold map_rows.
  induction (rows df) as [|p rs IH]; [done|]. cbn. by rewrite IH.
Qed.

Lemma elem_of_add_column c c' cs :
  c ∈ add_column c' cs <-> c = c' \/ c ∈ cs.
Proof.
  unfold add_column. case_bool_decide as H.
  - split; [by right|]. by intros [->|].
  - rewrite elem_of_app, list_elem_of_singleton. tauto.
Qed.

Lemma add_column_elem c cs : c ∈ cs -> add_column c cs = cs.
Proof. intros H. unfold add_column. by rewrite bool_decide_eq_true_2. Qed.

Lemma cell_insert_eq r c v : cell (<[c := v]> r) c = v.
Proof. unfold cell. by rewrite lookup_insert_eq. Qed.

Lemma cell_insert_ne r c c' v : c' ≠ c -> cell (<[c' := v]> r) c = cell r c.
Proof. intros H. unfold cell. by rewrite lookup_insert_ne. Qed.

End rowwise.

(** ** Normalisation, row by row

    [load_and_standardize_log] works column by column.  Seen from one input
    row it is a chain of rules, one per output field, each taking the first
    case that applies; [load_spec] below proves the two descriptions equal. *)

Lemma bind_Ok {A B} (a : A) (f : A -> result B) : (Ok a ≫= f) = f a.
Proof. reflexivity. Qed.

Lemma stage_datetime df :
  (if has_column df "ts" then
     ts ← getitem df "ts";
     df ← setitem df "ts" (to_numeric ts);
     ts ← getitem df "ts";
     setitem df "datetime" (to_datetime_s ts)
   else Ok (setitem_scalar df "datetime" NaN))
  = Ok {| columns := add_column "datetime" (columns df);
          rows := map_rows (with_datetime (columns df)) (rows df) |}.
Proof.
  unfold has_column, with_datetime. case_bool_decide as Hts.
  - rewrite (getitem_column df "ts") by done. rewrite bind_Ok.
    unfold to_numeric. rewrite smap_column_of, setitem_column, bind_Ok.
    rewrite add_column_elem by done.
    rewrite getitem_column by done. rewrite bind_Ok.
    unfold to_datetime_s. rewrite smap_column_of, setitem_column.
    cbn [rows columns]. rewrite map_rows_map_rows.
    do 2 f_equal. unfold map_rows. apply list_fmap_ext. intros _ p _.
    by rewrite cell_insert_eq.
  - reflexivity.
Qed.

Lemma split_nonempty c s : py.split c s ≠ [].
Proof.
  destruct s as [|a s]; [done|]. cbn.
  destruct (Ascii.eqb a c); [done|]. by destruct (py.split c s).
Qed.

Lemma service_entries_nonempty v : service_entries v ≠ [].
Proof.
  unfold service_entries. pose proof (split_nonempty "," (str v)) as H.
  by destruct (py.split "," (str v)).
Qed.

Lemma bind_map_rows {B} F (g : value * gmap string value -> list B) rs :
  map_rows F rs ≫= g = rs ≫= (fun p => g (p.1, F p.2)).
Proof. unfold map_rows. by rewrite list_fmap_bind. Qed.

Lemma map_rows_as_bind F (rs : list (value * gmap string value)) :
  map_rows F rs = rs ≫= (fun p => [(p.1, F p.2)]).
Proof.
  unfold map_rows. induction rs as [|p rs IH]; [done|]. cbn. by rewrite IH.
Qed.

Lemma setitem_scalar_rows df c v :
  setitem_scalar df c v
  = {| columns := add_column c (columns df);
       rows := map_rows (fun r => <[c := v]> r) (rows df) |}.
Proof. reflexivity. Qed.

Lemma stage_protocol file_name df :
  (if bool_decide (file_name = "conn.log.csv") && has_column df "service" then
     s ← getitem df "service";
     df ← setitem df "unified_protocol" (fillna (Str "unknown_service") s);
     s ← getitem df "unified_protocol";
     df ← setitem df "unified_protocol"
            (apply (fun x => PyList ((fun s => py.lower (py.strip s))
                                       <$> py.split "," (str x))) s);
     explode df "unified_protocol"
   else if has_column df "proto" then
     s ← getitem df "proto";
     s ← str_lower (fillna (Str "unknown_protocol") s);
     setitem df "unified_protocol" s
   else if truthy (py.replace ".log.csv" "" file_name) then
     Ok (setitem_scalar df "unified_protocol"
           (Str (py.lower (py.replace ".log.csv" "" file_name))))
   else
     Ok (setitem_scalar df "unified_protocol" (Str "unknown_log_type")))
  = if proto_fails file_name df
    then Raise (AttributeError "Can only use .str accessor with string values!")
    else Ok {| columns := add_column "unified_protocol" (columns df);
               rows := rows df ≫= (fun p =>
                 (fun u => (p.1, <["unified_protocol" := u]> p.2))
                   <$> protocol_rule file_name (columns df) p.2) |}.
Proof.
  unfold proto_fails, protocol_rule, has_column.
  destruct (bool_decide (file_name = "conn.log.csv") && bool_decide ("service" ∈ columns df)) eqn:Hconn.
  - apply andb_prop in Hconn as [_ Hs%bool_decide_eq_true_1]. cbn [negb andb].
    rewrite getitem_column, bind_Ok by done.
    unfold fillna. rewrite smap_column_of, setitem_column, bind_Ok.
    rewrite getitem_column, bind_Ok by (apply elem_of_add_column; by left).
    unfold apply. rewrite smap_column_of, setitem_column.
    rewrite bind_Ok. unfold explode, has_column. cbn [rows columns].
    rewrite bool_decide_eq_true_2 by (apply elem_of_add_column; by left).
    rewrite (add_column_elem "unified_protocol" (add_column _ _))
      by (apply elem_of_add_column; by left).
    do 2 f_equal. rewrite map_rows_map_rows, bind_map_rows.
    apply list_bind_ext; [|done]. intros p. unfold explode_row. cbn [fst snd].
    rewrite lookup_insert_eq, cell_insert_eq.
    fold (fill (Str "unknown_service") (cell p.2 "service")).
    fold (service_entries (fill (Str "unknown_service") (cell p.2 "service"))).
    pose proof (service_entries_nonempty (fill (Str "unknown_service") (cell p.2 "service"))) as Hne.
    destruct (service_entries _) as [|e es]; [done|].
    rewrite <- list_fmap_compose. apply list_fmap_ext. intros _ x _. cbn.
    by rewrite !insert_insert_eq.
  - cbn [negb andb]. destruct (bool_decide ("proto" ∈ columns df)) eqn:Hp.
    + apply bool_decide_eq_true_1 in Hp.
      rewrite getitem_column, bind_Ok by done. unfold str_lower.
      cbn [andb]. destruct (is_object_dtype _); cbn [negb]; [|done].
      rewrite bind_Ok. unfold fillna. rewrite !smap_column_of, setitem_column.
      by rewrite map_rows_as_bind.
    + cbn [andb]. rewrite !setitem_scalar_rows.
      destruct (truthy _); by rewrite map_rows_as_bind.
Qed.

Lemma map_rows_id rs : map_rows (fun r => r) rs = rs.
Proof.
  unfold map_rows. induction rs as [|[i r] rs IH]; [done|]. cbn. by rewrite IH.
Qed.

Lemma map_rows_ext F G rs :
  (forall r, F r = G r) -> map_rows F rs = map_rows G rs.
Proof.
  intros E. unfold map_rows. apply list_fmap_ext. intros _ p _. by rewrite E.
Qed.

Lemma stage_total_bytes file_name df :
  "total_bytes" ∈ columns df ->
  (if has_column df "orig_bytes" && has_column df "resp_bytes" then
     df ← for_each ["orig_bytes"; "resp_bytes"]
            (fun df col => s ← getitem df col; setitem df col (to_numeric s)) df;
     a ← getitem df "orig_bytes";
     b ← getitem df "resp_bytes";
     setitem df "total_bytes" (add (fillna (Num 0) a) (fillna (Num 0) b))
   else if has_column df "response_body_len" then
     s ← getitem df "response_body_len";
     setitem df "total_bytes" (fillna (Num 0) (to_numeric s))
   else if bool_decide (file_name = "files.log.csv") && has_column df "total_bytes" then
     s ← getitem df "total_bytes";
     setitem df "total_bytes" (fillna (Num 0) (to_numeric s))
   else Ok df)
  = Ok {| columns := columns df;
          rows := map_rows (with_total_bytes file_name (columns df)) (rows df) |}.
Proof.
  intros Htb. unfold with_total_bytes, has_column, fillna, to_numeric.
  destruct (bool_decide ("orig_bytes" ∈ columns df) && bool_decide ("resp_bytes" ∈ columns df)) eqn:Hb.
  - apply andb_prop in Hb as [Ho%bool_decide_eq_true_1 Hr%bool_decide_eq_true_1].
    cbn [for_each].
    rewrite getitem_column, bind_Ok by done.
    rewrite smap_column_of, setitem_column, bind_Ok, add_column_elem by done.
    rewrite getitem_column, bind_Ok by done.
    rewrite smap_column_of, setitem_column, !bind_Ok, add_column_elem by done.
    rewrite (getitem_column _ "orig_bytes"), bind_Ok by done.
    rewrite (getitem_column _ "resp_bytes"), bind_Ok by done.
    rewrite !smap_column_of, add_column_of, setitem_column, add_column_elem by done.
    cbn [rows columns]. rewrite !map_rows_map_rows. do 2 f_equal.
    apply map_rows_ext. intros r.
    rewrite (cell_insert_ne _ "orig_bytes" "resp_bytes") by done.
    rewrite !cell_insert_eq.
    by rewrite (cell_insert_ne _ "resp_bytes" "orig_bytes") by done.
  - destruct (bool_decide ("response_body_len" ∈ columns df)) eqn:Hl.
    + apply bool_decide_eq_true_1 in Hl.
      rewrite getitem_column, bind_Ok by done.
      by rewrite !smap_column_of, setitem_column, add_column_elem by done.
    + destruct (bool_decide (file_name = "files.log.csv") && bool_decide ("total_bytes" ∈ columns df)) eqn:Hf.
      * rewrite getitem_column, bind_Ok by done.
        by rewrite !smap_column_of, setitem_column, add_column_elem by done.
      * destruct df as [cs rs]. cbn [rows columns]. by rewrite map_rows_id.
Qed.

Lemma bool_decide_add_column_ne c c' cs :
  c ≠ c' -> bool_decide (c ∈ add_column c' cs) = bool_decide (c ∈ cs).
Proof.
  intros H. apply bool_decide_ext. rewrite elem_of_add_column.
  split; [by intros [?|?]|by right].
Qed.

Lemma bool_decide_add_column_eq c cs : bool_decide (c ∈ add_column c cs) = true.
Proof. apply bool_decide_eq_true_2, elem_of_add_column. by left. Qed.

Lemma map_rows_bind {A} F (g : A -> list (value * gmap string value)) (l : list A) :
  map_rows F (l ≫= g) = l ≫= (fun x => map_rows F (g x)).
Proof.
  unfold map_rows. induction l as [|x l IH]; [done|].
  cbn. by rewrite fmap_app, IH.
Qed.

Lemma select_ok df cols :
  Forall (fun c => c ∈ columns df) cols ->
  select df cols = Ok {| columns := cols; rows := map_rows (select_row cols) (rows df) |}.
Proof.
  intros H. unfold select.
  assert (list_find (fun c => c ∉ columns df) cols = None) as ->; [|done].
  apply list_find_None. eapply Forall_impl; [exact H|]. naive_solver.
Qed.

Ltac cells :=
  repeat first [ rewrite cell_insert_eq | rewrite cell_insert_ne by done ].

Ltac columns_simpl :=
  rewrite ?setitem_scalar_rows; cbn [columns rows];
  repeat first [ rewrite bool_decide_add_column_eq
               | rewrite bool_decide_add_column_ne by done ].

Lemma cell_with_datetime cols r c :
  c ≠ "datetime" -> c ≠ "ts" -> cell (with_datetime cols r) c = cell r c.
Proof.
  intros H1 H2. unfold with_datetime.
  destruct (bool_decide _); by rewrite !cell_insert_ne by done.
Qed.

Lemma load_spec file_name df :
  load_and_standardize_log (mkPath file_name (Ok df))
  = if proto_fails file_name df then None
    else Some {| columns := ["datetime"; "unified_protocol"; "total_bytes"; "event_count"];
                 rows := rows df ≫= normalize_row file_name (columns df) |}.
Proof.
  unfold load_and_standardize_log. cbn [name read_csv]. cbv zeta.
  rewrite bind_Ok. rewrite stage_datetime, bind_Ok. rewrite stage_protocol.
  match goal with |- context [proto_fails file_name ?d] =>
    assert (proto_fails file_name d = proto_fails file_name df) as ->
  end.
  { unfold proto_fails, has_column. columns_simpl.
    rewrite !column_of_map_rows. do 3 f_equal. unfold fillna. f_equal.
    apply column_of_ext. intros p _.
    rewrite cell_with_datetime by done. by cells. }
  destruct (proto_fails file_name df); [done|].
  rewrite bind_Ok. rewrite stage_total_bytes by (columns_simpl; apply elem_of_add_column; by left).
  rewrite bind_Ok.
  rewrite select_ok.
  2:{ columns_simpl. repeat apply Forall_cons_2; [..|apply Forall_nil_2];
      repeat (apply elem_of_add_column; first [by left | right]). }
  f_equal. f_equal. rewrite ?setitem_scalar_rows. cbn [rows columns].
  rewrite !map_rows_map_rows, bind_map_rows, map_rows_bind.
  apply list_bind_ext; [|done]. intros [i r]. cbn [fst snd].
  unfold normalize_row, map_rows. cbn [fst snd]. rewrite <- list_fmap_compose.
  assert (protocol_rule file_name
            (add_column "datetime" (add_column "event_count" (columns df)))
            (with_datetime (add_column "event_count" (columns df))
               (<["event_count" := Num 1]> r))
          = protocol_rule file_name (columns df) r) as ->.
  { unfold protocol_rule. columns_simpl.
    rewrite !cell_with_datetime by done. by cells. }
  apply list_fmap_ext. intros _ u _. cbn [fst snd compose]. f_equal.
  unfold select_row, record, datetime_rule, total_bytes_rule. cbn [foldr].
  unfold with_total_bytes, with_datetime. columns_simpl.
  destruct (bool_decide ("ts" ∈ columns df)),
    (bool_decide ("orig_bytes" ∈ columns df)),
    (bool_decide ("resp_bytes" ∈ columns df)),
    (bool_decide ("response_body_len" ∈ columns df)),
    (bool_decide (file_name = "files.log.csv"));
    cbn [andb]; cells; reflexivity.
Qed.

(** ** Normalised records *)

Lemma length_split c s : length (py.split c s) = S (count_char c s).
Proof.
  induction s as [|a s IH]; [done|]. cbn.
  destruct (Ascii.eqb a c); cbn; [by rewrite IH|].
  pose proof (split_nonempty c s). destruct (py.split c s); [done|].
  cbn in *. lia.
Qed.

Lemma fill_numeric v : fill (Num 0) (to_numeric1 v) = Num (bytes_of v).
Proof.
  unfold bytes_of. destruct v as [|n|s|t|l]; try done.
  cbn. by destruct (parse_int s).
Qed.

Lemma cell_record d u t :
  cell (record d u t) "datetime" = d /\
  cell (record d u t) "unified_protocol" = u /\
  cell (record d u t) "total_bytes" = t /\
  cell (record d u t) "event_count" = Num 1.
Proof. unfold record. repeat split; by cells. Qed.

Lemma load_conn_service df :
  "service" ∈ columns df ->
  load_and_standardize_log (mkPath "conn.log.csv" (Ok df))
  = Some {| columns := ["datetime"; "unified_protocol"; "total_bytes"; "event_count"];
            rows := rows df ≫= normalize_row "conn.log.csv" (columns df) |}.
Proof.
  intros Hs. rewrite load_spec. unfold proto_fails, has_column.
  by rewrite (bool_decide_eq_true_2 _ Hs).
Qed.

Lemma load_rows file_name df out :
  load_and_standardize_log (mkPath file_name (Ok df)) = Some out ->
  rows out = rows df ≫= normalize_row file_name (columns df).
Proof.
  rewrite load_spec. destruct (proto_fails _ _); [done|]. by intros [= <-].
Qed.

Lemma protocol_rule_conn cols r :
  "service" ∈ cols ->
  protocol_rule "conn.log.csv" cols r
  = Str <$> service_entries (fill (Str "unknown_service") (cell r "service")).
Proof.
  intros Hs. unfold protocol_rule.
  by rewrite (bool_decide_eq_true_2 _ Hs), (bool_decide_eq_true_2 _ eq_refl).
Qed.

Lemma fmap_bind {A B C} (h : B -> C) (g : A -> list B) (l : list A) :
  h <$> (l ≫= g) = l ≫= (fun x => h <$> g x).
Proof.
  induction l as [|x l IH]; [done|]. cbn. by rewrite fmap_app, IH.
Qed.

Lemma project_normalize_row cols p :
  "service" ∈ cols ->
  cell p.2 "service" = NaN \/ (exists s, cell p.2 "service" = Str s) ->
  (fun q => (q.1, cell q.2 "unified_protocol", cell q.2 "event_count"))
    <$> normalize_row "conn.log.csv" cols p
  = (fun e => (p.1, Str (py.lower (py.strip e)), Num 1))
      <$> py.split "," (match cell p.2 "service" with
                        | Str s => s
                        | _ => "unknown_service"
                        end).
Proof.
  intros Hs Hcell. unfold normalize_row. rewrite protocol_rule_conn by done.
  unfold service_entries. rewrite <- !list_fmap_compose.
  assert (str (fill (Str "unknown_service") (cell p.2 "service"))
          = match cell p.2 "service" with
            | Str s => s
            | _ => "unknown_service"
            end) as ->
    by (by destruct Hcell as [->|[s ->]]).
  apply list_fmap_ext. intros _ e _. cbn [compose fst snd].
  by destruct (cell_record (datetime_rule cols p.2) (Str (py.lower (py.strip e)))
                 (total_bytes_rule cols p.2)) as (_ & -> & _ & ->).
Qed.

(** C2.  For the connection log [conn.log.csv] with a [service] column
    whose cells are texts or missing (and whose [ts] cells, if it has the
    column, are missing or seconds that datetime64 holds), normalisation
    succeeds and gives, row after row and under the label of the row, one
    record per piece of the service text split at the commas, each with
    [event_count = 1] and with the piece, stripped of the white space at
    both ends and in lower case, as its [unified_protocol]; a missing
    cell counts as the text [unknown_service].  A text with N - 1 commas
    has N pieces.  The row with service ["gssapi,dce_rpc"] gives exactly
    the two records gssapi and dce_rpc; the rows [" HTTP , Ssl  "] and a
    missing cell give http, ssl and unknown_service. *)
Theorem conn_service_row_explodes :
  (forall df,
     "service" ∈ columns df ->
     (forall p, p ∈ rows df ->
        ("ts" ∈ columns df -> readable_ts (cell p.2 "ts")) /\
        (cell p.2 "service" = NaN \/ exists s, cell p.2 "service" = Str s)) ->
     exists out,
       load_and_standardize_log (mkPath "conn.log.csv" (Ok df)) = Some out /\
       (fun q => (q.1, cell q.2 "unified_protocol", cell q.2 "event_count"))
         <$> rows out
       = rows df ≫= (fun p =>
           (fun e => (p.1, Str (py.lower (py.strip e)), Num 1))
             <$> py.split "," (match cell p.2 "service" with
                               | Str s => s
                               | _ => "unknown_service"
                               end)))
  /\ (forall s, length (py.split "," s) = S (count_char "," s))
  /\ load_and_standardize_log
       (mkPath "conn.log.csv" (Ok (frame ["service"] [[Str "gssapi,dce_rpc"]])))
     = Some {| columns := ["datetime"; "unified_protocol"; "total_bytes"; "event_count"];
               rows := [(Num 0, record NaN (Str "gssapi") (Num 0));
                        (Num 0, record NaN (Str "dce_rpc") (Num 0))] |}
  /\ load_and_standardize_log
       (mkPath "conn.log.csv"
          (Ok (frame ["ts"; "service"]
                 [[Num 1641600005; Str " HTTP , Ssl  "]; [NaN; NaN]])))
     = Some {| columns := ["datetime"; "unified_protocol"; "total_bytes"; "event_count"];
               rows := [(Num 0, record (Timestamp 1641600005000000000) (Str "http")
                                  (Num 0));
                        (Num 0, record (Timestamp 1641600005000000000) (Str "ssl")
                                  (Num 0));
                        (Num 1, record NaN (Str "unknown_service") (Num 0))] |}.
Proof.
  split; [|split; [apply length_split|split; vm_compute; reflexivity]].
  intros df Hs Hcells. eexists. split; [by apply load_conn_service|].
  cbn [rows]. rewrite fmap_bind.
  apply Forall_bind_ext, Forall_forall. intros p Hp.
  apply project_normalize_row; [done|]. by apply Hcells.
Qed.

Lemma conn_service_row_explodes_witness :
  exists out,
    load_and_standardize_log
      (mkPath "conn.log.csv"
         (Ok (frame ["ts"; "service"] [[Num 5; Str "HTTP, ssl"]; [NaN; NaN]])))
    = Some out /\
    (fun q => (q.1, cell q.2 "unified_protocol", cell q.2 "event_count"))
      <$> rows out
    = rows (frame ["ts"; "service"] [[Num 5; Str "HTTP, ssl"]; [NaN; NaN]])
        ≫= (fun p =>
              (fun e => (p.1, Str (py.lower (py.strip e)), Num 1))
                <$> py.split "," (match cell p.2 "service" with
                                  | Str s => s
                                  | _ => "unknown_service"
                                  end)).
Proof.
  apply (proj1 conn_service_row_explodes
           (frame ["ts"; "service"] [[Num 5; Str "HTTP, ssl"]; [NaN; NaN]])).
  - apply (bool_decide_unpack _). vm_compute. exact I.
  - apply Forall_forall, Forall_cons_2; [|apply Forall_cons_2; [|apply Forall_nil_2]].
    + split; [intros _; vm_compute; reflexivity|]. right. by exists "HTTP, ssl".
    + split; [intros _; exact I|]. by left.
Defined.


Lemma total_bytes_rule_default cols r :
  ~ ("orig_bytes" ∈ cols /\ "resp_bytes" ∈ cols) ->
  "response_body_len" ∉ cols ->
  total_bytes_rule cols r = Num 0.
Proof.
  intros Hb Hl. unfold total_bytes_rule.
  rewrite (bool_decide_eq_false_2 _ Hl).
  destruct (bool_decide ("orig_bytes" ∈ cols)) eqn:Ho,
           (bool_decide ("resp_bytes" ∈ cols)) eqn:Hr; try done.
  apply bool_decide_eq_true_1 in Ho, Hr. tauto.
Qed.

Lemma elem_of_normalize_row file_name cols p q :
  q ∈ normalize_row file_name cols p ->
  q.1 = p.1 /\
  cell q.2 "datetime" = datetime_rule cols p.2 /\
  cell q.2 "unified_protocol" ∈ protocol_rule file_name cols p.2 /\
  cell q.2 "total_bytes" = total_bytes_rule cols p.2 /\
  cell q.2 "event_count" = Num 1.
Proof.
  unfold normalize_row. intros (u & -> & Hu)%list_elem_of_fmap. cbn [fst snd].
  destruct (cell_record (datetime_rule cols p.2) u (total_bytes_rule cols p.2))
    as (-> & -> & -> & ->).
  done.
Qed.




Lemma elem_of_load_rows file_name content out q :
  load_and_standardize_log (mkPath file_name content) = Some out ->
  q ∈ rows out ->
  exists df p, content = Ok df /\ p ∈ rows df /\
    q ∈ normalize_row file_name (columns df) p.
Proof.
  destruct content as [df|e]; [|done]. intros Hout Hq.
  rewrite (load_rows _ _ _ Hout) in Hq.
  apply list_elem_of_bind in Hq as (p & Hq & Hp). by exists df, p.
Qed.



Lemma total_bytes_rule_numeric cols r :
  exists n, total_bytes_rule cols r = Num n /\
    (0 ≤ bytes_of (cell r "orig_bytes") ->
     0 ≤ bytes_of (cell r "resp_bytes") ->
     0 ≤ bytes_of (cell r "response_body_len") -> 0 ≤ n).
Proof.
  unfold total_bytes_rule.
  destruct (bool_decide ("orig_bytes" ∈ cols) && bool_decide ("resp_bytes" ∈ cols)).
  - rewrite !fill_numeric. eexists. split; [done|]. lia.
  - destruct (bool_decide ("response_body_len" ∈ cols)).
    + rewrite fill_numeric. eexists. split; [done|]. lia.
    + exists 0. split; [done|]. lia.
Qed.




(** C1, as the code behaves.  The file-transfer log [files.log.csv] whose
    only byte column is [total_bytes], with the value 500, is normalised to
    a record with [total_bytes = 0]: line 48 assigns 0 to the column before
    line 58 reads it, so the value of the file never reaches the output. *)
Theorem files_total_bytes_column_is_lost :
  load_and_standardize_log
    (mkPath "files.log.csv" (Ok (frame ["total_bytes"] [[Num 500]])))
  = Some {| columns := ["datetime"; "unified_protocol"; "total_bytes"; "event_count"];
            rows := [(Num 0, record NaN (Str "files") (Num 0))] |}.
Proof. (vm_compute; reflexivity). Qed.

(** The same for every file-transfer log without the other byte columns. *)
Lemma files_total_bytes_always_zero df out :
  load_and_standardize_log (mkPath "files.log.csv" (Ok df)) = Some out ->
  ~ ("orig_bytes" ∈ columns df /\ "resp_bytes" ∈ columns df) ->
  "response_body_len" ∉ columns df ->
  "total_bytes" ∈ columns df ->
  forall q, q ∈ rows out -> cell q.2 "total_bytes" = Num 0.
Proof.
  intros Hout Hb Hl _ q Hq. rewrite (load_rows _ _ _ Hout) in Hq.
  apply list_elem_of_bind in Hq as (p & Hq & _).
  apply elem_of_normalize_row in Hq as (_ & _ & _ & -> & _).
  by apply total_bytes_rule_default.
Qed.

(** ** The pie chart *)

Lemma run_emit_bind {A} e (k : unit -> M A) w :
  (emit e ≫= k) w = k tt {| heap := heap w; trace := trace w ++ [e] |}.
Proof. reflexivity. Qed.

Lemma run_mret_bind {A B} (a : A) (k : A -> M B) w : (mret a ≫= k) w = k a w.
Proof. reflexivity. Qed.

Lemma run_emit e w :
  emit e w = (Ok tt, {| heap := heap w; trace := trace w ++ [e] |}).
Proof. reflexivity. Qed.

Lemma run_lift_Ok {A B} (a : A) (k : A -> M B) w : (lift (Ok a) ≫= k) w = k a w.
Proof. reflexivity. Qed.

Lemma run_lift_Raise {A B} e (k : A -> M B) w :
  (lift (Raise e) ≫= k) w = (Raise e, w).
Proof. reflexivity. Qed.

Ltac run_emits :=
  repeat first [ rewrite run_emit_bind | rewrite run_mret_bind | rewrite run_emit ];
  cbn [heap trace]; rewrite <- ?app_assoc; cbn [app].

Lemma plot_protocol_pie_run df out_path w :
  plot_protocol_pie df out_path w
  = match pie_series df with
    | Ok agg => (Ok tt, {| heap := heap w; trace := trace w ++ chart agg out_path |})
    | Raise e => (Raise e, w)
    end.
Proof.
  unfold plot_protocol_pie, pie_series, plotted, chart.
  destruct (getitem df "unified_protocol") as [s|e];
    [rewrite run_lift_Ok, bind_Ok|by rewrite run_lift_Raise].
  destruct (groupby_sum _ _ _) as [agg|e];
    [rewrite run_lift_Ok, bind_Ok|by rewrite run_lift_Raise].
  cbv zeta.
  destruct (decide (top_n < length (sort_values_desc agg))%nat).
  - destruct (sum _) as [v|e]; [rewrite bind_Ok|reflexivity].
    destruct out_path; cbv [mbind M_bind mret M_ret emit lift heap trace];
      by rewrite <- !app_assoc.
  - destruct out_path; cbv [mbind M_bind mret M_ret emit lift heap trace];
      by rewrite <- !app_assoc.
Qed.

Lemma mask_filter {A} (f : A -> bool) (l : list A) :
  omap (fun bp : bool * A => if bp.1 then Some bp.2 else None) (zip (f <$> l) l)
  = filter (fun x => f x = true) l.
Proof.
  induction l as [|x l IH]; [done|].
  cbn [fmap list_fmap zip zip_with omap list_omap fst snd].
  rewrite filter_cons, IH. destruct (f x); by simplify_option_eq.
Qed.

Lemma filtered_frame df :
  getitem_mask df
    (invert (isin (column_of (fun r => cell r "unified_protocol") (rows df))
               transport_protocols_to_exclude))
  = drop_excluded df.
Proof.
  unfold getitem_mask, drop_excluded, kept, invert, isin. f_equal.
  rewrite values_column_of, <- !list_fmap_compose.
  rewrite mask_filter.
  apply list_filter_iff. intros p. unfold compose. cbn [snd].
  fold (is_excluded (cell p.2 "unified_protocol")). by destruct (is_excluded _).
Qed.

Lemma kept_drop_excluded df : kept (drop_excluded df) = kept df.
Proof.
  unfold kept at 1. cbn [rows drop_excluded]. unfold kept.
  rewrite list_filter_filter. apply list_filter_iff. tauto.
Qed.

Lemma sum_cells_numeric l : Forall numeric l -> sum_cells l = Ok (total l).
Proof.
  induction 1 as [|v l Hv _ IH]; [done|]. cbn [sum_cells total foldr].
  rewrite IH. by destruct v.
Qed.

#[local] Instance value_ge_total : Total value_ge.
Proof. intros a b. unfold value_ge. lia. Qed.

#[local] Instance value_ge_trans : Transitive value_ge.
Proof. intros a b c. unfold value_ge. lia. Qed.

Lemma sorted_top_dominates n a b (s : Series) :
  a ∈ take n (sort_values_desc s) -> b ∈ drop n (sort_values_desc s) ->
  as_num b.2 ≤ as_num a.2.
Proof.
  intros Ha Hb. unfold sort_values_desc in *.
  pose proof (StronglySorted_merge_sort value_ge s) as Hs.
  rewrite <- (take_drop n (merge_sort value_ge s)) in Hs.
  exact (StronglySorted_app_1_elem_of _ _ _ _ _ Hs Ha Hb).
Qed.

Lemma group_sums_numeric df key col ks :
  Forall numeric ((fun p => cell p.2 col) <$> rows df) ->
  group_sums df key col ks
  = Ok ((fun k => (k, Num (total (group_cells df key col k)))) <$> ks).
Proof.
  intros Hnum. induction ks as [|k ks IH]; [done|]. cbn [group_sums].
  rewrite sum_cells_numeric, bind_Ok, IH; [done|].
  unfold group_cells. rewrite Forall_fmap, Forall_forall in *.
  intros p [_ Hp]%list_elem_of_filter. by apply Hnum.
Qed.

Lemma agg_of_grouped df : agg_of df ≡ₚ grouped df.
Proof. unfold agg_of, grouped. by rewrite merge_sort_Permutation. Qed.

Lemma groupby_sum_kept df :
  "unified_protocol" ∈ columns df -> "event_count" ∈ columns df ->
  Forall numeric ((fun p => cell p.2 "event_count") <$> kept df) ->
  groupby_sum (drop_excluded df) "unified_protocol" "event_count" = Ok (agg_of df).
Proof.
  intros Hp He Hnum. unfold groupby_sum, has_column. cbn [columns drop_excluded].
  rewrite !bool_decide_eq_true_2 by done. cbn [negb].
  by rewrite group_sums_numeric.
Qed.

Lemma pie_series_drop_excluded df :
  pie_series df
  = (if has_column df "unified_protocol"
     then agg ← groupby_sum (drop_excluded df) "unified_protocol" "event_count";
          plotted agg
     else Raise (KeyError "unified_protocol")).
Proof.
  unfold pie_series, has_column. case_bool_decide as Hc.
  - by rewrite getitem_column, bind_Ok, filtered_frame.
  - by rewrite getitem_missing.
Qed.

Lemma group_sums_index df key col ks s :
  group_sums df key col ks = Ok s -> index s = ks.
Proof.
  revert s. induction ks as [|k ks IH]; intros s; cbn [group_sums].
  - by intros [= <-].
  - destruct (sum_cells _) as [n|e]; [rewrite bind_Ok|done].
    destruct (group_sums df key col ks) as [s'|e]; [rewrite bind_Ok|done].
    intros [= <-]. cbn. f_equal. by apply IH.
Qed.

Lemma groupby_sum_labels df s v :
  groupby_sum (drop_excluded df) "unified_protocol" "event_count" = Ok s ->
  v ∈ index s -> is_excluded v = false.
Proof.
  unfold groupby_sum. destruct (negb _); [done|]. destruct (negb _); [done|].
  intros Hs%group_sums_index. rewrite Hs. unfold group_keys.
  rewrite merge_sort_Permutation, elem_of_remove_dups.
  cbn [rows drop_excluded]. intros (p & -> & Hp)%list_elem_of_fmap.
  unfold kept in Hp. by apply list_elem_of_filter in Hp as [Hp _].
Qed.

Lemma Ok_inj {A} (a b : A) : Ok a = Ok b -> a = b.
Proof. congruence. Qed.

Lemma plotted_labels s s' v :
  plotted s = Ok s' -> v ∈ index s' -> v = Str "other" \/ v ∈ index s.
Proof.
  unfold plotted. cbv zeta.
  assert (forall u, u ∈ index (sort_values_desc s) -> u ∈ index s) as Hsort.
  { intros u. unfold index, sort_values_desc. by rewrite merge_sort_Permutation. }
  destruct (decide _).
  - destruct (sum _) as [t|e]; [rewrite bind_Ok|done]. intros <-%Ok_inj.
    unfold index, concat, Series_of, iloc_to. rewrite fmap_app, elem_of_app.
    intros [Hv|Hv].
    + right. apply Hsort. unfold index. rewrite fmap_take in Hv.
      by eapply subseteq_take.
    + left. by apply list_elem_of_singleton in Hv.
  - intros [= <-]. right. by apply Hsort.
Qed.

Lemma pie_series_labels df s v :
  pie_series df = Ok s -> v ∈ index s -> is_excluded v = false.
Proof.
  rewrite pie_series_drop_excluded. destruct (has_column _ _); [|done].
  destruct (groupby_sum _ _ _) as [agg|e] eqn:Hagg; [rewrite bind_Ok|done].
  intros Hs Hv. destruct (plotted_labels _ _ _ Hs Hv) as [->|Hv']; [done|].
  by eapply groupby_sum_labels.
Qed.

(** C5.  The excluded records have no part in the chart, whatever their
    number: [plot_protocol_pie] does the same on a dataset and on the
    dataset without its excluded records, no label it draws is an excluded
    one, and the excluded labels are tcp, udp, icmp, arp, unknown_transport,
    unknown_protocol, unknown_service and unknown_log_type. *)
Theorem excluded_protocols_are_not_counted df out_path w :
  plot_protocol_pie df out_path w = plot_protocol_pie (drop_excluded df) out_path w
  /\ (exists new : list event,
        trace (plot_protocol_pie df out_path w).2 = (trace w ++ new)%list /\
        forall x labels autopct startangle colors v,
          plt_pie x labels autopct startangle colors ∈ new ->
          v ∈ labels -> is_excluded v = false)
  /\ (forall x, is_excluded (Str x) = true <->
        x ∈ ["tcp"; "udp"; "icmp"; "arp"; "unknown_transport";
             "unknown_protocol"; "unknown_service"; "unknown_log_type"]).
Proof.
  split; [|split].
  - rewrite !plot_protocol_pie_run, !pie_series_drop_excluded.
    unfold has_column. cbn [columns drop_excluded].
    assert (drop_excluded (drop_excluded df) = drop_excluded df) as ->; [|done].
    unfold drop_excluded at 1. cbn [columns drop_excluded].
    by rewrite kept_drop_excluded.
  - rewrite plot_protocol_pie_run.
    destruct (pie_series df) as [agg|e] eqn:Hagg; cbn [snd trace].
    + exists (chart agg out_path). split; [done|].
      intros x labels autopct startangle colors v Hin Hv.
      assert (labels = index agg) as ->.
      { unfold chart in Hin. destruct out_path; cbn [app] in Hin;
          repeat (apply elem_of_cons in Hin as [Hin|Hin];
                  [try discriminate Hin; by inversion Hin|]);
          by apply elem_of_nil in Hin. }
      by eapply pie_series_labels.
    + exists []. split; [by rewrite app_nil_r|].
      by intros ?????? ?%elem_of_nil.
  - intros x. cbn [is_excluded]. rewrite bool_decide_eq_true.
    unfold transport_protocols_to_exclude. rewrite !elem_of_cons, !elem_of_nil.
    tauto.
Qed.

Lemma sort_values_desc_perm s : sort_values_desc s ≡ₚ s.
Proof. apply merge_sort_Permutation. Qed.

Lemma agg_of_values_numeric df : Forall (fun p => numeric p.2) (agg_of df).
Proof. unfold agg_of. by apply Forall_fmap, Forall_true. Qed.

Lemma length_agg_of df : length (agg_of df) = length (protocols df).
Proof.
  unfold agg_of. rewrite length_fmap.
  apply Permutation_length, merge_sort_Permutation.
Qed.

Lemma pies_chart agg out_path : pies (chart agg out_path) = [(agg.*2, agg.*1)].
Proof. by destruct out_path. Qed.

Lemma plot_protocol_pie_pies df out_path w agg :
  pie_series df = Ok agg ->
  exists new : list event,
    trace (plot_protocol_pie df out_path w).2 = (trace w ++ new)%list /\
    pies new = [(agg.*2, agg.*1)].
Proof.
  intros Hagg. exists (chart agg out_path).
  rewrite plot_protocol_pie_run, Hagg. split; [done|]. apply pies_chart.
Qed.

Lemma numeric_kept df :
  (forall p, p ∈ rows df -> numeric (cell p.2 "event_count")) ->
  Forall numeric ((fun p => cell p.2 "event_count") <$> kept df).
Proof.
  intros H. apply Forall_fmap, Forall_forall. intros p Hp. apply H.
  unfold kept in Hp. by apply list_elem_of_filter in Hp as [_ ?].
Qed.

Lemma numeric_events parse df :
  (forall p, p ∈ rows df -> numeric (cell p.2 "event_count")) ->
  Forall (fun tv => numeric tv.2) (events parse df).
Proof.
  intros H. apply Forall_forall. intros tv Htv. unfold events in Htv.
  apply list_elem_of_omap in Htv as (p & Hp & Heq).
  destruct (stamp parse p); [|done]. cbn in Heq. injection Heq as <-.
  cbn. by apply H.
Qed.

Lemma pie_series_many df :
  "unified_protocol" ∈ columns df -> "event_count" ∈ columns df ->
  Forall numeric ((fun p => cell p.2 "event_count") <$> kept df) ->
  (8 < length (protocols df))%nat ->
  pie_series df
  = Ok (take 8 (sort_values_desc (agg_of df))
        ++ [(Str "other",
             Num (total (drop 8 (sort_values_desc (agg_of df))).*2))])%list.
Proof.
  intros Hp He Hnum Hlen.
  assert (length (sort_values_desc (agg_of df)) = length (protocols df)) as Hl.
  { rewrite <- length_agg_of. apply Permutation_length, sort_values_desc_perm. }
  rewrite pie_series_drop_excluded.
  unfold has_column. rewrite bool_decide_eq_true_2 by done.
  rewrite groupby_sum_kept, bind_Ok by done.
  unfold plotted. cbv zeta. rewrite decide_True by (unfold top_n; lia).
  unfold sum. rewrite sum_cells_numeric; [done|].
  unfold values, iloc_from. apply Forall_fmap, Forall_drop.
  rewrite sort_values_desc_perm. apply agg_of_values_numeric.
Qed.

(** C4.  For a dataset with the two columns and more than 8 distinct
    protocols among its counted records, whose [event_count] cells are
    missing or whole numbers, those of the counted records of at most
    2^53 in magnitude together,
    [plt.pie] is called once, with the values and the labels of [top]
    followed by one entry labelled ["other"]: [top] holds 8 of the groups
    (protocol, summed event_count), [rest] the remaining ones, no group
    of [rest] is larger than a group of [top], and the value of ["other"]
    is the sum of the groups of [rest].  With 12 protocols counting 50,
    40, 30, 25, 20, 15, 10, 8, 6, 4, 3 and 1 records the pie has 9
    slices: http 50, dns 40, ssl 30, ssh 25, ftp 20, smtp 15, dhcp 10, ntp
    8 and, last, other with 14. *)
Theorem top_eight_and_other :
  (forall df out_path w,
     "unified_protocol" ∈ columns df -> "event_count" ∈ columns df ->
     (forall p, p ∈ rows df -> numeric (cell p.2 "event_count")) ->
     magnitude ((fun p => cell p.2 "event_count") <$> kept df) ≤ 2 ^ 53 ->
     (8 < length (protocols df))%nat ->
     exists (top rest : Series) (new : list event),
       length top = 8%nat /\
       (top ++ rest)%list ≡ₚ grouped df /\
       (forall a b, a ∈ top -> b ∈ rest -> as_num b.2 ≤ as_num a.2) /\
       trace (plot_protocol_pie df out_path w).2 = (trace w ++ new)%list /\
       pies new
       = [((top.*2 ++ [Num (total rest.*2)])%list, (top.*1 ++ [Str "other"])%list)])
  /\ pies (trace (plot_protocol_pie twelve_protocols None (mkWorld ∅ [])).2)
     = [([Num 50; Num 40; Num 30; Num 25; Num 20; Num 15; Num 10; Num 8; Num 14],
         [Str "http"; Str "dns"; Str "ssl"; Str "ssh"; Str "ftp"; Str "smtp";
          Str "dhcp"; Str "ntp"; Str "other"])].
Proof.
  split; [|vm_compute; reflexivity].
  intros df out_path w Hp He Hnum%numeric_kept _ Hlen.
  exists (take 8 (sort_values_desc (agg_of df))),
         (drop 8 (sort_values_desc (agg_of df))).
  assert (length (sort_values_desc (agg_of df)) = length (protocols df)) as Hl.
  { rewrite <- length_agg_of. apply Permutation_length, sort_values_desc_perm. }
  destruct (plot_protocol_pie_pies df out_path w _ (pie_series_many df Hp He Hnum Hlen))
    as (new & Htrace & Hpies).
  exists new.
  split; [rewrite length_take_le; lia|].
  split; [by rewrite take_drop, sort_values_desc_perm, agg_of_grouped|].
  split; [intros a b; apply sorted_top_dominates|].
  split; [done|]. by rewrite Hpies, !fmap_app.
Qed.

Lemma top_eight_and_other_witness :
  exists (top rest : Series) (new : list event),
    length top = 8%nat /\
    (top ++ rest)%list ≡ₚ grouped twelve_protocols /\
    (forall a b, a ∈ top -> b ∈ rest -> as_num b.2 ≤ as_num a.2) /\
    trace (plot_protocol_pie twelve_protocols None (mkWorld ∅ [])).2
    = ([] ++ new)%list /\
    pies new
    = [((top.*2 ++ [Num (total rest.*2)])%list, (top.*1 ++ [Str "other"])%list)].
Proof.
  apply (proj1 top_eight_and_other twelve_protocols None (mkWorld ∅ [])).
  - apply (bool_decide_unpack _). vm_compute. exact I.
  - apply (bool_decide_unpack _). vm_compute. exact I.
  - apply Forall_forall. apply (bool_decide_unpack _). vm_compute. exact I.
  - vm_compute. discriminate.
  - apply (bool_decide_unpack _). vm_compute. exact I.
Defined.

(** With nothing left to plot the figure is drawn and saved all the same. *)
Lemma empty_series_is_drawn df out_path w :
  pie_series df = Ok [] ->
  plot_protocol_pie df out_path w
  = (Ok tt, {| heap := heap w; trace := (trace w ++ chart [] out_path)%list |}).
Proof. intros H. by rewrite plot_protocol_pie_run, H. Qed.

(** C3, as the code behaves.  For a dataset whose records are all excluded,
    and for the empty dataset of a directory without CSV files, the series
    is empty and [plot_protocol_pie] still opens the figure, draws a pie
    without slices, saves it to the file and shows it. *)
Theorem pie_is_drawn_without_data :
  plot_protocol_pie
    (frame ["datetime"; "unified_protocol"; "total_bytes"; "event_count"]
       [[NaN; Str "tcp"; Num 0; Num 1]; [NaN; Str "udp"; Num 0; Num 1]])
    (Some "outputs/pie.png") (mkWorld ∅ [])
  = (Ok tt,
     mkWorld ∅
       [plt_figure (8, 8); plt_pie [] [] "%1.1f%%" 90 "tab20";
        plt_title "Application Protocol share by event count";
        plt_tight_layout; plt_savefig "outputs/pie.png" 150; plt_show])
  /\ (df ← lift (load_all_csvs (fun _ => None) []);
      plot_protocol_pie df (Some "outputs/pie.png")) (mkWorld ∅ [])
     = (Ok tt,
        mkWorld ∅
          [plt_figure (8, 8); plt_pie [] [] "%1.1f%%" 90 "tab20";
           plt_title "Application Protocol share by event count";
           plt_tight_layout; plt_savefig "outputs/pie.png" 150; plt_show]).
Proof. split; vm_compute; reflexivity. Qed.

(** ** The line chart *)

(** *** One step of a run *)

Lemma run_copy l (df : DataFrame) {A} (k : nat -> M A) w :
  heap w !! l = Some df ->
  (copy l ≫= k) w
  = k (fresh (dom (heap w)))
      {| heap := <[fresh (dom (heap w)) := df]> (heap w); trace := trace w |}.
Proof.
  intros H. unfold copy, deref, new, mbind, M_bind. by rewrite H.
Qed.

Lemma run_getitem_ref l (df : DataFrame) c {A} (k : Series -> M A) w :
  heap w !! l = Some df ->
  (getitem_ref l c ≫= k) w
  = match getitem df c with
    | Ok s => k s w
    | Raise e => (Raise e, w)
    end.
Proof.
  intros H. unfold getitem_ref, deref, lift, mbind, M_bind. rewrite H.
  by destruct (getitem df c).
Qed.

Lemma run_setitem_ref l (df : DataFrame) c s {A} (k : unit -> M A) w :
  heap w !! l = Some df ->
  (setitem_ref l c s ≫= k) w
  = match setitem df c s with
    | Ok df' => k tt {| heap := <[l := df']> (heap w); trace := trace w |}
    | Raise e => (Raise e, w)
    end.
Proof.
  intros H. unfold setitem_ref, deref, lift, store, mbind, M_bind. rewrite H.
  by destruct (setitem df c s).
Qed.

Lemma run_getitem_mask_ref l (df : DataFrame) m {A} (k : nat -> M A) w :
  heap w !! l = Some df ->
  (getitem_mask_ref l m ≫= k) w
  = k (fresh (dom (heap w)))
      {| heap := <[fresh (dom (heap w)) := getitem_mask df m]> (heap w);
         trace := trace w |}.
Proof.
  intros H. unfold getitem_mask_ref, deref, new, mbind, M_bind. by rewrite H.
Qed.

Lemma run_empty_ref l (df : DataFrame) {A} (k : bool -> M A) w :
  heap w !! l = Some df -> (empty_ref l ≫= k) w = k (empty df) w.
Proof.
  intros H. unfold empty_ref, deref, mbind, M_bind, mret, M_ret. by rewrite H.
Qed.

Lemma run_set_index_ref l (df : DataFrame) c {A} (k : nat -> M A) w :
  heap w !! l = Some df ->
  (set_index_ref l c ≫= k) w
  = match set_index df c with
    | Ok df' => k (fresh (dom (heap w)))
                  {| heap := <[fresh (dom (heap w)) := df']> (heap w);
                     trace := trace w |}
    | Raise e => (Raise e, w)
    end.
Proof.
  intros H. unfold set_index_ref, deref, lift, new, mbind, M_bind. rewrite H.
  by destruct (set_index df c).
Qed.

Lemma run_sort_index_ref l (df : DataFrame) {A} (k : nat -> M A) w :
  heap w !! l = Some df ->
  (sort_index_ref l ≫= k) w
  = k (fresh (dom (heap w)))
      {| heap := <[fresh (dom (heap w)) := sort_index df]> (heap w);
         trace := trace w |}.
Proof.
  intros H. unfold sort_index_ref, deref, new, mbind, M_bind. by rewrite H.
Qed.

Lemma run_try {A B} (m : M A) (k : result A -> M B) w :
  (try m ≫= k) w = k (m w).1 (m w).2.
Proof. unfold try, mbind, M_bind. by destruct (m w). Qed.

Lemma run_deref_missing l {A} (k : DataFrame -> M A) w :
  heap w !! l = None -> (deref l ≫= k) w = (Raise (ValueError "no such object"), w).
Proof. intros H. unfold deref, mbind, M_bind. by rewrite H. Qed.

(** *** What the function draws *)

Lemma insert_fresh_subseteq (h h' : gmap nat DataFrame) df :
  h ⊆ h' -> h ⊆ <[fresh (dom h') := df]> h'.
Proof.
  intros H. etrans; [exact H|]. apply insert_subseteq.
  apply not_elem_of_dom, is_fresh.
Qed.

Lemma run_try_getitem l (df : DataFrame) c {A B} (f : Series -> result A)
  (k : result A -> M B) w :
  heap w !! l = Some df ->
  (try (getitem_ref l c ≫= fun s => lift (f s)) ≫= k) w
  = k (s ← getitem df c; f s) w.
Proof.
  intros H. rewrite run_try, (run_getitem_ref l df) by done.
  by destruct (getitem df c).
Qed.

Lemma set_index_valid_frame parse df :
  "datetime" ∈ columns df ->
  set_index (valid_frame parse df) "datetime"
  = Ok {| columns := filter (fun x => x ≠ "datetime") (columns df);
          rows := (fun p => (cell p.2 "datetime", delete "datetime" p.2))
                    <$> rows (valid_frame parse df) |}.
Proof.
  intros Hc. unfold set_index, has_column. cbn [columns valid_frame getitem_mask coerced].
  by rewrite bool_decide_eq_true_2.
Qed.

Lemma plot_connections_over_time_run parse l freq out_path w df :
  heap w !! l = Some df -> "datetime" ∈ columns df ->
  exists h',
    heap w ⊆ h' /\
    plot_connections_over_time parse l freq out_path w
    = (Ok tt, {| heap := h';
                 trace := (trace w ++ line_events parse df freq out_path)%list |}).
Proof.
  intros Hl Hc. unfold plot_connections_over_time.
  rewrite (run_copy l df) by done.
  set (l1 := fresh (dom (heap w))).
  assert (heap w !! l1 = None) as Hl1 by apply not_elem_of_dom, is_fresh.
  rewrite (run_getitem_ref l1 df) by apply lookup_insert_eq.
  rewrite getitem_column by done.
  rewrite (run_setitem_ref l1 df) by apply lookup_insert_eq.
  unfold to_datetime. rewrite smap_column_of, setitem_column.
  rewrite add_column_elem by done. fold (coerced parse df). cbn [heap trace].
  rewrite insert_insert_eq.
  rewrite (run_getitem_ref l1 (coerced parse df)) by apply lookup_insert_eq.
  rewrite getitem_column by done.
  rewrite (run_getitem_mask_ref l1 (coerced parse df)) by apply lookup_insert_eq.
  fold (valid_frame parse df). cbn [heap trace].
  set (h1 := <[l1 := coerced parse df]> (heap w)).
  assert (heap w ⊆ h1) as H1 by by apply insert_subseteq.
  set (l2 := fresh (dom h1)). set (h2 := <[l2 := valid_frame parse df]> h1).
  assert (heap w ⊆ h2) as H2 by by apply insert_fresh_subseteq.
  rewrite (run_empty_ref l2 (valid_frame parse df)) by apply lookup_insert_eq.
  unfold line_events. destruct (empty (valid_frame parse df)) eqn:He.
  { exists h2. split; [done|]. by rewrite run_emit. }
  rewrite (run_set_index_ref l2 (valid_frame parse df)) by apply lookup_insert_eq.
  rewrite set_index_valid_frame by done. cbn [heap trace].
  set (l3 := fresh (dom h2)). set (h3 := <[l3 := _]> h2).
  assert (heap w ⊆ h3) as H3 by by apply insert_fresh_subseteq.
  erewrite (run_sort_index_ref l3) by apply lookup_insert_eq.
  fold (indexed parse df). cbn [heap trace].
  set (l4 := fresh (dom h3)). set (h4 := <[l4 := indexed parse df]> h3).
  assert (heap w ⊆ h4) as H4 by by apply insert_fresh_subseteq.
  rewrite (run_try_getitem l4 (indexed parse df)) by apply lookup_insert_eq.
  exists h4. split; [done|].
  destruct (getitem (indexed parse df) "event_count" ≫= _) as [[|c cs]|e].
  - by rewrite run_emit.
  - unfold line_chart.
    destruct out_path; cbv [mbind M_bind mret M_ret emit lift heap trace];
      by rewrite <- !app_assoc.
  - by rewrite run_emit.
Qed.

Lemma run_copy_missing l {A} (k : nat -> M A) w :
  heap w !! l = None ->
  (copy l ≫= k) w = (Raise (ValueError "no such object"), w).
Proof. intros H. unfold copy, deref, new, mbind, M_bind. by rewrite H. Qed.

Lemma plot_connections_over_time_heap parse l freq out_path w :
  heap w ⊆ heap (plot_connections_over_time parse l freq out_path w).2.
Proof.
  destruct (heap w !! l) as [df|] eqn:Hl.
  - destruct (decide ("datetime" ∈ columns df)) as [Hc|Hc].
    + destruct (plot_connections_over_time_run parse l freq out_path w df Hl Hc)
        as (h' & Hh & ->). done.
    + unfold plot_connections_over_time. rewrite (run_copy l df) by done.
      rewrite (run_getitem_ref _ df) by apply lookup_insert_eq.
      rewrite getitem_missing by done. cbn [snd heap].
      apply insert_subseteq, not_elem_of_dom, is_fresh.
  - unfold plot_connections_over_time. by rewrite run_copy_missing.
Qed.

(** C10.  [plot_connections_over_time] changes no object that existed
    before the call: every frame of the caller's store, the one passed in
    included, is the same afterwards.  The assignment to the datetime
    column goes to the copy made on line 10. *)
Theorem caller_frame_is_not_mutated parse l freq out_path w :
  heap w ⊆ heap (plot_connections_over_time parse l freq out_path w).2
  /\ heap (plot_connections_over_time parse l freq out_path w).2 !! l = heap w !! l.
Proof.
  pose proof (plot_connections_over_time_heap parse l freq out_path w) as H.
  split; [done|]. destruct (heap w !! l) as [df|] eqn:Hl.
  - by eapply lookup_weaken.
  - unfold plot_connections_over_time. by rewrite run_copy_missing.
Qed.

(** Assigning to a column through a reference does change the object: the
    copy is what keeps the caller's frame as it was. *)
Example setitem_ref_mutates :
  let df := frame ["datetime"] [[Str "x"]] in
  let w := mkWorld {[ 0%nat := df ]} [] in
  heap (setitem_ref 0%nat "datetime" [(Num 0, NaN)] w).2 !! 0%nat
  = Some (frame ["datetime"] [[NaN]]).
Proof. vm_compute. reflexivity. Qed.

Lemma filter_map_rows F (P : value * gmap string value -> Prop)
  `{forall p, Decision (P p)} rs :
  filter P (map_rows F rs) = map_rows F (filter (fun p => P (p.1, F p.2)) rs).
Proof.
  unfold map_rows. induction rs as [|p rs IH]; [done|].
  cbn [fmap list_fmap]. rewrite !filter_cons, IH. cbn [fst snd].
  by destruct (decide (P (p.1, F p.2))).
Qed.

Lemma rows_valid_frame parse df :
  rows (valid_frame parse df)
  = map_rows (fun r => <["datetime" := to_datetime1 parse (cell r "datetime")]> r)
      (filter (has_timestamp parse) (rows df)).
Proof.
  unfold valid_frame, getitem_mask, notna. cbn [rows coerced].
  rewrite values_column_of, <- list_fmap_compose, mask_filter.
  rewrite filter_map_rows. f_equal. apply list_filter_iff. intros p.
  unfold has_timestamp, compose. cbn [fst snd]. rewrite cell_insert_eq.
  by destruct (is_nan _).
Qed.

Lemma valid_frame_drop_null parse df :
  valid_frame parse (drop_null parse df) = valid_frame parse df.
Proof.
  assert (forall a b : DataFrame, columns a = columns b -> rows a = rows b -> a = b)
    as Heq by (intros [] []; cbn; congruence).
  apply Heq; [done|]. rewrite !rows_valid_frame. cbn [rows drop_null].
  f_equal. rewrite list_filter_filter. apply list_filter_iff. tauto.
Qed.

Lemma line_events_drop_null parse df freq out_path :
  line_events parse (drop_null parse df) freq out_path
  = line_events parse df freq out_path.
Proof.
  unfold line_events, indexed. by rewrite valid_frame_drop_null.
Qed.

Lemma filter_none {A} (P : A -> Prop) `{forall x, Decision (P x)} (l : list A) :
  (forall x, x ∈ l -> ~ P x) -> filter P l = [].
Proof.
  induction l as [|x l IH]; [done|]. intros Hl.
  rewrite filter_cons, decide_False by (apply Hl; by left).
  apply IH. intros y Hy. apply Hl. by right.
Qed.

Lemma line_events_no_timestamp parse df freq out_path :
  (forall p, p ∈ rows df -> to_datetime1 parse (cell p.2 "datetime") = NaN) ->
  line_events parse df freq out_path
  = [print "No valid timestamps found for line chart."].
Proof.
  intros Hnull. unfold line_events, empty. rewrite rows_valid_frame.
  rewrite filter_none; [done|].
  intros p Hp. unfold has_timestamp. by rewrite (Hnull p Hp).
Qed.

(** C8.  For a dataset with a datetime column, the records whose datetime
    is missing or unreadable do not count: the run on the dataset and the
    run on the dataset without them return normally and print and draw the
    same.  When no record has a timestamp, the function returns normally,
    prints the message and draws nothing. *)
Theorem null_timestamps_are_dropped :
  (forall parse l l' freq out_path w w' df,
     heap w !! l = Some df -> heap w' !! l' = Some (drop_null parse df) ->
     "datetime" ∈ columns df ->
     exists new : list event,
       (plot_connections_over_time parse l freq out_path w).1 = Ok tt /\
       trace (plot_connections_over_time parse l freq out_path w).2
       = (trace w ++ new)%list /\
       (plot_connections_over_time parse l' freq out_path w').1 = Ok tt /\
       trace (plot_connections_over_time parse l' freq out_path w').2
       = (trace w' ++ new)%list)
  /\ (forall parse l freq out_path w df,
        heap w !! l = Some df -> "datetime" ∈ columns df ->
        (forall p, p ∈ rows df ->
           to_datetime1 parse (cell p.2 "datetime") = NaN) ->
        (plot_connections_over_time parse l freq out_path w).1 = Ok tt /\
        trace (plot_connections_over_time parse l freq out_path w).2
        = (trace w ++ [print "No valid timestamps found for line chart."])%list).
Proof.
  split.
  - intros parse l l' freq out_path w w' df Hl Hl' Hc.
    destruct (plot_connections_over_time_run parse l freq out_path w df Hl Hc)
      as (h & _ & ->).
    destruct (plot_connections_over_time_run parse l' freq out_path w'
                (drop_null parse df) Hl' Hc) as (h' & _ & ->).
    exists (line_events parse df freq out_path). cbn [fst snd trace].
    by rewrite line_events_drop_null.
  - intros parse l freq out_path w df Hl Hc Hnull.
    destruct (plot_connections_over_time_run parse l freq out_path w df Hl Hc)
      as (h & _ & ->).
    cbn [fst snd trace]. by rewrite line_events_no_timestamp.
Qed.

Lemma null_timestamps_are_dropped_witness :
  (plot_connections_over_time (fun _ => None) 0%nat "30S" None
     (mkWorld {[ 0%nat := no_timestamps ]} [])).1 = Ok tt /\
  trace (plot_connections_over_time (fun _ => None) 0%nat "30S" None
           (mkWorld {[ 0%nat := no_timestamps ]} [])).2
  = [print "No valid timestamps found for line chart."].
Proof.
  apply (proj2 null_timestamps_are_dropped (fun _ => None) 0%nat "30S" None
           (mkWorld {[ 0%nat := no_timestamps ]} []) no_timestamps).
  - vm_compute. reflexivity.
  - apply (bool_decide_unpack _). vm_compute. exact I.
  - apply Forall_forall. apply (bool_decide_unpack _). vm_compute. exact I.
Defined.

(** *** Buckets *)

Lemma total_Permutation l1 l2 : l1 ≡ₚ l2 -> total l1 = total l2.
Proof.
  unfold total.
  induction 1 as [|x l1 l2 _ IH|x y l|l1 l2 l3 _ IH1 _ IH2]; cbn; lia.
Qed.

Lemma bucket_total_Permutation w evs1 evs2 b :
  evs1 ≡ₚ evs2 -> bucket_total w evs1 b = bucket_total w evs2 b.
Proof.
  intros H. unfold bucket_total. apply total_Permutation. by rewrite H.
Qed.


Lemma datetime_index_stamped evs :
  datetime_index (index (stamped evs)) = Ok evs.*1.
Proof.
  unfold index, stamped. induction evs as [|[t v] evs IH]; [done|].
  cbn. cbn in IH. by rewrite IH.
Qed.

Lemma values_stamped evs : values (stamped evs) = evs.*2.
Proof.
  unfold values, stamped. by rewrite <- list_fmap_compose.
Qed.

Lemma bin_sums_numeric w (evs : list (Z * value)) bs :
  Forall (fun tv => numeric tv.2) evs ->
  bin_sums w evs.*1 evs.*2 bs
  = Ok ((fun b => (Timestamp b, Num (bucket_total w evs b))) <$> bs).
Proof.
  intros Hnum. induction bs as [|b bs IH]; [done|]. cbn [bin_sums].
  unfold bin_cells. rewrite zip_fst_snd.
  rewrite sum_cells_numeric, bind_Ok, IH; [done|].
  rewrite Forall_fmap, Forall_forall in *.
  intros tv [_ Htv]%list_elem_of_filter. by apply Hnum.
Qed.

Lemma foldr_min_le t ts x : x ∈ t :: ts -> foldr Z.min t ts ≤ x.
Proof.
  induction ts as [|y ts IH]; cbn.
  - intros ->%list_elem_of_singleton. lia.
  - rewrite !elem_of_cons. intros [->|[->|Hx]].
    + specialize (IH ltac:(by left)). lia.
    + lia.
    + specialize (IH ltac:(by right)). lia.
Qed.

Lemma foldr_max_ge t ts x : x ∈ t :: ts -> x ≤ foldr Z.max t ts.
Proof.
  induction ts as [|y ts IH]; cbn.
  - intros ->%list_elem_of_singleton. lia.
  - rewrite !elem_of_cons. intros [->|[->|Hx]].
    + specialize (IH ltac:(by left)). lia.
    + lia.
    + specialize (IH ltac:(by right)). lia.
Qed.

Lemma foldr_min_elem t ts : foldr Z.min t ts ∈ t :: ts.
Proof.
  induction ts as [|y ts IH]; cbn; [by left|].
  destruct (Z.min_spec y (foldr Z.min t ts)) as [[_ ->]|[_ ->]].
  - by right; left.
  - apply elem_of_cons in IH as [->|IH]; [by left|by do 2 right].
Qed.

Lemma foldr_max_elem t ts : foldr Z.max t ts ∈ t :: ts.
Proof.
  induction ts as [|y ts IH]; cbn; [by left|].
  destruct (Z.max_spec y (foldr Z.max t ts)) as [[_ ->]|[_ ->]].
  - apply elem_of_cons in IH as [->|IH]; [by left|by do 2 right].
  - by right; left.
Qed.

Lemma unit_nanos_pos u k : unit_nanos u = Some k -> 0 < k.
Proof.
  unfold unit_nanos. repeat case_decide; intros [= <-]; lia.
Qed.

Lemma to_offset_pos freq w : to_offset freq = Ok w -> 0 < w.
Proof.
  unfold to_offset. destruct (span_digits freq) as [d u].
  destruct (match d with EmptyString => Some 1 | _ => digits 0 d end) as [n|];
    [|done].
  destruct (unit_nanos u) as [k|] eqn:Hk; [|done].
  apply unit_nanos_pos in Hk. destruct (0 <? n) eqn:Hn; [|done].
  intros [= <-]. apply Z.ltb_lt in Hn. lia.
Qed.

Lemma timestamp_range_edges_spec first last w :
  0 < w -> first ≤ last ->
  exists (n : nat),
    let x0 := first - (first - first / DAY * DAY) mod w in
    (0 < n)%nat /\
    timestamp_range_edges first last w = (x0, x0 + Z.of_nat n * w) /\
    bin_labels x0 (x0 + Z.of_nat n * w) w
    = (fun k => x0 + Z.of_nat k * w) <$> seq 0 n /\
    x0 ≤ first < x0 + w /\
    x0 + (Z.of_nat n - 1) * w ≤ last < x0 + Z.of_nat n * w.
Proof.
  intros Hw Hle. set (origin := first / DAY * DAY).
  set (a := first - origin). set (b := last - origin).
  assert (a ≤ b) as Hab by (unfold a, b; lia).
  pose proof (Z.div_le_mono a b w Hw Hab) as Hq.
  pose proof (Z.div_mod a w ltac:(lia)) as Ha.
  pose proof (Z.div_mod b w ltac:(lia)) as Hb.
  pose proof (Z.mod_pos_bound a w Hw) as Hma.
  pose proof (Z.mod_pos_bound b w Hw) as Hmb.
  exists (Z.to_nat (b / w - a / w + 1)). cbv zeta.
  rewrite Z2Nat.id by lia.
  assert (timestamp_range_edges first last w
          = (first - a mod w, first - a mod w + (b / w - a / w + 1) * w)) as Hedges.
  { unfold timestamp_range_edges. fold origin. fold a. fold b. cbv zeta.
    f_equal.
    - destruct (0 <? a mod w) eqn:E; [done|]. apply Z.ltb_ge in E. lia.
    - destruct (0 <? b mod w) eqn:E; [|apply Z.ltb_ge in E]; unfold a, b in *; nia. }
  split; [lia|]. split; [exact Hedges|]. split.
  - unfold bin_labels. do 2 f_equal.
    replace (first - a mod w + (b / w - a / w + 1) * w - (first - a mod w))
      with ((b / w - a / w + 1) * w) by lia.
    by rewrite Z.div_mul by lia.
  - split; [lia|]. unfold a, b in *. nia.
Qed.

Lemma resample_sum_stamped evs freq w :
  to_offset freq = Ok w ->
  Forall (fun tv => numeric tv.2) evs -> evs ≠ [] ->
  exists tmin (n : nat),
    (0 < n)%nat /\
    (exists v, (tmin, v) ∈ evs) /\
    (forall tv, tv ∈ evs -> tmin ≤ tv.1) /\
    resample_sum (stamped evs) freq = Ok (buckets w evs (first_edge w tmin) n) /\
    (forall tv, tv ∈ evs ->
       first_edge w tmin ≤ tv.1 < first_edge w tmin + Z.of_nat n * w) /\
    (exists tv, tv ∈ evs /\ first_edge w tmin + (Z.of_nat n - 1) * w ≤ tv.1).
Proof.
  intros Hfreq Hnum Hne. pose proof (to_offset_pos _ _ Hfreq) as Hw.
  destruct evs as [|[t v] evs]; [done|]. clear Hne.
  set (all := (t, v) :: evs) in *.
  set (first := foldr Z.min t evs.*1). set (last := foldr Z.max t evs.*1).
  assert (forall tv, tv ∈ all -> first ≤ tv.1 ≤ last) as Hbounds.
  { intros tv Htv.
    assert (tv.1 ∈ t :: evs.*1) as Hin.
    { change (t :: evs.*1) with (all.*1). apply list_elem_of_fmap. eauto. }
    split; [by apply foldr_min_le|by apply foldr_max_ge]. }
  assert (exists v', (first, v') ∈ all) as [vf Hfirst].
  { pose proof (foldr_min_elem t evs.*1) as Hin.
    change (t :: evs.*1) with (all.*1) in Hin.
    apply list_elem_of_fmap in Hin as ([t' v'] & Heq & Hin). cbn in Heq.
    exists v'. fold first in Heq. by rewrite Heq. }
  assert (exists v', (last, v') ∈ all) as [vl Hlast].
  { pose proof (foldr_max_elem t evs.*1) as Hin.
    change (t :: evs.*1) with (all.*1) in Hin.
    apply list_elem_of_fmap in Hin as ([t' v'] & Heq & Hin). cbn in Heq.
    exists v'. fold last in Heq. by rewrite Heq. }
  assert (first ≤ last) as Hfl by (destruct (Hbounds _ Hfirst); cbn in *; lia).
  destruct (timestamp_range_edges_spec first last w Hw Hfl)
    as (n & Hn & Hedges & Hlabels & Hx0 & Hx1).
  cbv zeta in *. fold (first_edge w first) in *.
  exists first, n. split; [done|]. split; [eauto|].
  split; [intros tv Htv; by apply Hbounds|]. split.
  - unfold resample_sum. rewrite Hfreq, bind_Ok, datetime_index_stamped, bind_Ok.
    change (all.*1) with (t :: evs.*1). cbv beta iota zeta. fold first. fold last.
    rewrite Hedges, Hlabels, values_stamped.
    change (t :: evs.*1) with (all.*1).
    rewrite bin_sums_numeric by done. unfold buckets.
    by rewrite <- list_fmap_compose.
  - split.
    + intros tv Htv. destruct (Hbounds tv Htv). lia.
    + exists (last, vl). split; [done|]. cbn. lia.
Qed.

Lemma to_datetime1_cases parse v :
  to_datetime1 parse v = NaN \/ exists t, to_datetime1 parse v = Timestamp t.
Proof.
  destruct v as [|n|s|t|l]; cbn; eauto.
  - destruct (in_bounds n); eauto.
  - destruct (parse s) as [t|]; [|by left]. destruct (in_bounds t); eauto.
Qed.

Lemma cell_delete_ne (r : gmap string value) c c' :
  c' ≠ c -> cell (delete c' r) c = cell r c.
Proof. intros H. unfold cell. by rewrite lookup_delete_ne. Qed.

Lemma indexed_unsorted_series parse df :
  column_of (fun r => cell r "event_count")
    ((fun p => (cell p.2 "datetime", delete "datetime" p.2))
       <$> rows (valid_frame parse df))
  = stamped (events parse df).
Proof.
  rewrite rows_valid_frame. unfold column_of, map_rows, stamped, events.
  rewrite <- !list_fmap_compose.
  induction (rows df) as [|p rs IH]; [done|].
  rewrite filter_cons. cbn [omap list_omap]. unfold stamp at 1.
  destruct (decide (has_timestamp parse p)) as [Hp|Hp]; unfold has_timestamp in Hp;
    destruct (to_datetime1_cases parse (cell p.2 "datetime")) as [E|[t E]];
    rewrite E in Hp |- *; try done.
  cbn. rewrite <- IH. f_equal.
  rewrite cell_insert_eq, E, cell_delete_ne, cell_insert_ne by done. done.
Qed.

Lemma indexed_series parse df :
  "event_count" ∈ columns df ->
  exists evs,
    events parse df ≡ₚ evs /\
    getitem (indexed parse df) "event_count" = Ok (stamped evs).
Proof.
  intros He. rewrite getitem_column.
  2:{ unfold indexed, sort_index. cbn [columns]. by apply list_elem_of_filter. }
  unfold indexed, sort_index. cbn [rows].
  assert (column_of (fun r => cell r "event_count")
            (merge_sort (fun p q => value_leb p.1 q.1)
               ((fun p => (cell p.2 "datetime", delete "datetime" p.2))
                  <$> rows (valid_frame parse df)))
          ≡ₚ stamped (events parse df)) as Hperm.
  { rewrite <- indexed_unsorted_series. unfold column_of.
    by rewrite merge_sort_Permutation. }
  apply Permutation_map_inv in Hperm as (evs & Heq & Hperm).
  exists evs. split; [done|]. by rewrite Heq.
Qed.

Lemma length_rows_valid_frame parse df :
  length (rows (valid_frame parse df)) = length (events parse df).
Proof.
  pose proof (f_equal length (indexed_unsorted_series parse df)) as H.
  unfold column_of, stamped in H. by rewrite !length_fmap in H.
Qed.

Lemma buckets_Permutation w evs1 evs2 x0 n :
  evs1 ≡ₚ evs2 -> buckets w evs1 x0 n = buckets w evs2 x0 n.
Proof.
  intros H. unfold buckets. apply list_fmap_ext. intros _ k _.
  by rewrite (bucket_total_Permutation _ _ _ _ H).
Qed.

Lemma line_events_buckets parse df freq out_path width :
  "datetime" ∈ columns df -> "event_count" ∈ columns df ->
  to_offset freq = Ok width ->
  Forall (fun tv => numeric tv.2) (events parse df) -> events parse df ≠ [] ->
  exists tmin (n : nat),
    (0 < n)%nat /\
    (exists v, (tmin, v) ∈ events parse df) /\
    (forall tv, tv ∈ events parse df -> tmin ≤ tv.1) /\
    line_events parse df freq out_path
    = line_chart (buckets width (events parse df) (first_edge width tmin) n)
        freq out_path /\
    (forall tv, tv ∈ events parse df ->
       first_edge width tmin ≤ tv.1
       < first_edge width tmin + Z.of_nat n * width) /\
    (exists tv, tv ∈ events parse df /\
       first_edge width tmin + (Z.of_nat n - 1) * width ≤ tv.1).
Proof.
  intros Hc He Hfreq Hnum Hne.
  destruct (indexed_series parse df He) as (evs & Hperm & Hs).
  destruct (resample_sum_stamped evs freq width Hfreq) as
    (tmin & n & Hn & [v Hmin] & Hle & Hres & Hcover & [tl [Htl Hlast]]).
  { by rewrite <- Hperm. }
  { intros ->. by apply Permutation_nil_r in Hperm. }
  exists tmin, n. split; [done|].
  split; [exists v; by rewrite Hperm|].
  split; [intros tv Htv; apply Hle; by rewrite <- Hperm|].
  split.
  - unfold line_events.
    assert (empty (valid_frame parse df) = false) as ->.
    { unfold empty. pose proof (length_rows_valid_frame parse df) as Hlen.
      destruct (rows (valid_frame parse df)) as [|p rs].
      - destruct (events parse df); [done|]. done.
      - cbn [columns valid_frame getitem_mask coerced].
        destruct (columns df); [by apply elem_of_nil in Hc|done]. }
    rewrite Hs, bind_Ok, Hres, (buckets_Permutation _ _ _ _ _ Hperm).
    unfold buckets. destruct n as [|n]; [lia|]. done.
  - split.
    + intros tv Htv. apply Hcover. by rewrite <- Hperm.
    + exists tl. split; [by rewrite Hperm|done].
Qed.

Lemma portable_unit_nanos u k : portable_unit u = Some k -> unit_nanos u = Some k.
Proof.
  unfold portable_unit. repeat case_decide; subst; by intros [= <-].
Qed.

Lemma fixed_width_to_offset freq width :
  fixed_width freq = Some width -> to_offset freq = Ok width.
Proof.
  unfold fixed_width, to_offset. destruct (span_digits freq) as [d u].
  destruct (match d with EmptyString => Some 1 | _ => digits 0 d end) as [n|];
    [|done].
  cbn. destruct (portable_unit u) as [k|] eqn:Hk; [|done].
  rewrite (portable_unit_nanos _ _ Hk). cbn.
  destruct (0 <? n); [|done]. cbn. destruct (n <=? 10 ^ 9); [|done]. cbn.
  destruct (n * k <? 2 ^ 62); [|done].
  by intros [= <-].
Qed.

Lemma plots_line_chart (s : Series) freq out_path :
  plots (line_chart s freq out_path) = [(s.*1, s.*2)].
Proof. by destruct out_path. Qed.

Lemma buckets_fst width evs x0 n :
  (buckets width evs x0 n).*1
  = (fun k => Timestamp (x0 + Z.of_nat k * width)) <$> seq 0 n.
Proof. unfold buckets. by rewrite <- list_fmap_compose. Qed.

Lemma buckets_snd width evs x0 n :
  (buckets width evs x0 n).*2
  = (fun k => Num (bucket_total width evs (x0 + Z.of_nat k * width))) <$> seq 0 n.
Proof. unfold buckets. by rewrite <- list_fmap_compose. Qed.

Lemma plot_connections_over_time_plots parse l freq out_path w df width :
  heap w !! l = Some df ->
  "datetime" ∈ columns df -> "event_count" ∈ columns df ->
  to_offset freq = Ok width ->
  Forall (fun tv => numeric tv.2) (events parse df) -> events parse df ≠ [] ->
  exists tmin (n : nat) (new : list event),
    (0 < n)%nat /\
    (exists v, (tmin, v) ∈ events parse df) /\
    (forall tv, tv ∈ events parse df -> tmin ≤ tv.1) /\
    trace (plot_connections_over_time parse l freq out_path w).2
    = (trace w ++ new)%list /\
    plots new
    = [((fun k => Timestamp (first_edge width tmin + Z.of_nat k * width))
          <$> seq 0 n,
        (fun k => Num (bucket_total width (events parse df)
                         (first_edge width tmin + Z.of_nat k * width)))
          <$> seq 0 n)] /\
    (forall tv, tv ∈ events parse df ->
       first_edge width tmin ≤ tv.1
       < first_edge width tmin + Z.of_nat n * width) /\
    (exists tv, tv ∈ events parse df /\
       first_edge width tmin + (Z.of_nat n - 1) * width ≤ tv.1).
Proof.
  intros Hl Hc He Hfreq Hnum Hne.
  destruct (line_events_buckets parse df freq out_path width Hc He Hfreq Hnum Hne)
    as (tmin & n & Hn & Hmin & Hle & Hev & Hcover & Hlast).
  destruct (plot_connections_over_time_run parse l freq out_path w df Hl Hc)
    as (h & _ & ->).
  exists tmin, n, (line_events parse df freq out_path). cbn [snd trace].
  split; [done|]. split; [done|]. split; [done|]. split; [done|].
  split; [|done]. by rewrite Hev, plots_line_chart, buckets_fst, buckets_snd.
Qed.



(** Events at 00:00:05 and 00:01:35: the two buckets between them are
    drawn with 0. *)
Example two_events_apart_buckets :
  plots (trace (plot_connections_over_time (fun _ => None) 0%nat "30s" None
                  (mkWorld {[ 0%nat := two_events_apart ]} [])).2)
  = [([Timestamp 1641600000000000000; Timestamp 1641600030000000000;
       Timestamp 1641600060000000000; Timestamp 1641600090000000000],
      [Num 1; Num 0; Num 0; Num 1])].
Proof. vm_compute. reflexivity. Qed.

(** ** Further properties of normalisation *)

Lemma load_unreadable file_name e :
  load_and_standardize_log (mkPath file_name (Raise e)) = None.
Proof. reflexivity. Qed.

Lemma load_some file_name content out :
  load_and_standardize_log (mkPath file_name content) = Some out ->
  exists df,
    content = Ok df /\ proto_fails file_name df = false /\
    columns out = ["datetime"; "unified_protocol"; "total_bytes"; "event_count"] /\
    rows out = rows df ≫= normalize_row file_name (columns df).
Proof.
  destruct content as [df|e]; [|by rewrite load_unreadable].
  rewrite load_spec. destruct (proto_fails file_name df) eqn:Hf; [done|].
  intros Hout. apply (inj Some) in Hout as <-. exists df.
  split; [done|]. split; [done|]. split; reflexivity.
Qed.

Lemma lookup_record d u t c :
  is_Some (record d u t !! c)
  <-> c ∈ ["datetime"; "unified_protocol"; "total_bytes"; "event_count"].
Proof.
  unfold record. rewrite !lookup_insert_is_Some, lookup_empty, is_Some_alt.
  rewrite !elem_of_cons, elem_of_nil. intuition congruence.
Qed.

Lemma datetime_rule_cases cols r :
  datetime_rule cols r = NaN \/
  exists t, datetime_rule cols r = Timestamp t /\ in_bounds t = true.
Proof.
  unfold datetime_rule. destruct (bool_decide _); [|by left].
  destruct (to_numeric1 (cell r "ts")) as [|n|s|t|l] eqn:E; cbn; try by left.
  - destruct (in_bounds (n * 10 ^ 9)) eqn:Hb; [right; eauto|by left].
  - destruct (cell r "ts") as [|?|s'|?|?]; try done. cbn in E.
    by destruct (parse_int s').
Qed.

Lemma load_record_shape file_name content out q :
  load_and_standardize_log (mkPath file_name content) = Some out ->
  q ∈ rows out ->
  exists d u t,
    q.2 = record d u t /\
    (d = NaN \/ exists ts, d = Timestamp ts /\ in_bounds ts = true) /\
    (exists n, t = Num n).
Proof.
  intros Hout Hq.
  destruct (elem_of_load_rows _ _ _ _ Hout Hq) as (df & p & _ & _ & Hqp).
  unfold normalize_row in Hqp. apply list_elem_of_fmap in Hqp as (u & -> & _).
  exists (datetime_rule (columns df) p.2), u, (total_bytes_rule (columns df) p.2).
  split; [done|]. split; [apply datetime_rule_cases|].
  destruct (total_bytes_rule_numeric (columns df) p.2) as (n & -> & _). eauto.
Qed.

(** X1. Every record that normalisation returns has the four standard
    fields and no other, whatever columns the file had; its datetime is
    NaT or a timestamp, and its [event_count] is 1. *)
Theorem normalized_records_have_four_fields file_name content out :
  load_and_standardize_log (mkPath file_name content) = Some out ->
  columns out = ["datetime"; "unified_protocol"; "total_bytes"; "event_count"]
  /\ forall q, q ∈ rows out ->
       (forall c, is_Some (q.2 !! c)
                  <-> c ∈ ["datetime"; "unified_protocol"; "total_bytes";
                           "event_count"])
       /\ (cell q.2 "datetime" = NaN \/ exists t, cell q.2 "datetime" = Timestamp t)
       /\ cell q.2 "event_count" = Num 1.
Proof.
  intros Hout. split; [by apply load_some in Hout as (df & _ & _ & Hc & _)|].
  intros q Hq.
  destruct (load_record_shape _ _ _ _ Hout Hq) as (d & u & t & -> & Hd & _).
  split; [intros c; apply lookup_record|].
  destruct (cell_record d u t) as (-> & _ & _ & ->).
  split; [|done]. destruct Hd as [->|(t0 & -> & _)]; eauto.
Qed.

Lemma normalized_records_have_four_fields_witness :
  columns {| columns := ["datetime"; "unified_protocol"; "total_bytes"; "event_count"];
             rows := [(Num 0, record (Timestamp 5000000000) (Str "udp") (Num 0))] |}
  = ["datetime"; "unified_protocol"; "total_bytes"; "event_count"]
  /\ forall q,
       q ∈ rows {| columns := ["datetime"; "unified_protocol"; "total_bytes";
                               "event_count"];
                   rows := [(Num 0, record (Timestamp 5000000000) (Str "udp")
                                      (Num 0))] |} ->
       (forall c, is_Some (q.2 !! c)
                  <-> c ∈ ["datetime"; "unified_protocol"; "total_bytes";
                           "event_count"])
       /\ (cell q.2 "datetime" = NaN \/ exists t, cell q.2 "datetime" = Timestamp t)
       /\ cell q.2 "event_count" = Num 1.
Proof.
  apply (normalized_records_have_four_fields "dns.log.csv"
           (Ok (frame ["ts"; "proto"; "query"]
                  [[Num 5; Str "UDP"; Str "example.org"]]))).
  vm_compute. reflexivity.
Defined.

(** *** When normalisation fails *)

Lemma existsb_object_false (l : list value) :
  existsb (fun v => match v with Num _ | NaN => false | _ => true end) l = false
  <-> forall v, v ∈ l -> v = NaN \/ exists n, v = Num n.
Proof.
  induction l as [|v l IH]; cbn.
  - split; [by intros _ ? ?%elem_of_nil|done].
  - rewrite orb_false_iff, IH. split.
    + intros [Hv Hl] x [->|Hx]%elem_of_cons; [|by apply Hl].
      destruct v; try done; eauto.
    + intros H. split; [|intros x Hx; apply H; by right].
      destruct (H v) as [->|[n ->]]; [by left|done..].
Qed.

Lemma is_object_dtype_false (s : Series) :
  is_object_dtype s = false
  <-> s ≠ [] /\ forall p, p ∈ s -> p.2 = NaN \/ exists n, p.2 = Num n.
Proof.
  unfold is_object_dtype, values. destruct s as [|p0 s].
  { split; [done|by intros []]. }
  rewrite existsb_object_false. split.
  - intros H. split; [done|]. intros p Hp. apply H. by apply list_elem_of_fmap_2.
  - intros [_ H] v (p & -> & Hp)%list_elem_of_fmap. by apply H.
Qed.

Lemma proto_fails_iff file_name df :
  proto_fails file_name df = true
  <-> ~ (file_name = "conn.log.csv" /\ "service" ∈ columns df) /\
      "proto" ∈ columns df /\ rows df ≠ [] /\
      forall p, p ∈ rows df -> exists n, cell p.2 "proto" = Num n.
Proof.
  unfold proto_fails, has_column, fillna.
  rewrite !andb_true_iff, !negb_true_iff, andb_false_iff, !bool_decide_eq_false,
    bool_decide_eq_true, smap_column_of, is_object_dtype_false.
  unfold column_of. split.
  - intros [[Hc Hp] [Hne Hnum]]. split; [tauto|]. split; [done|].
    split; [by destruct (rows df)|].
    intros p Hp'. destruct (Hnum (p.1, if is_nan (cell p.2 "proto")
                                       then Str "unknown_protocol"
                                       else cell p.2 "proto")) as [E|[n E]].
    + apply list_elem_of_fmap. by exists p.
    + cbn in E. by destruct (cell p.2 "proto").
    + cbn in E. destruct (cell p.2 "proto"); try done. eauto.
  - intros (Hc & Hp & Hne & Hnum). split.
    + split; [|done].
      destruct (decide (file_name = "conn.log.csv")); [|by left].
      right. tauto.
    + split; [by destruct (rows df)|].
      intros q (p & -> & Hp')%list_elem_of_fmap. cbn.
      destruct (Hnum p Hp') as [n ->]. right. eauto.
Qed.

(** X2. On a file whose [ts] cells, if it has the column, are missing or
    whole numbers of seconds that datetime64 holds, normalisation gives up
    in exactly two cases: [pd.read_csv] cannot read the file, or the
    protocol comes from a [proto] column that holds nothing but numbers
    in at least one row, on which [.str.lower()] raises. *)
Theorem load_fails_iff file_name content :
  (forall df p, content = Ok df -> "ts" ∈ columns df -> p ∈ rows df ->
     readable_ts (cell p.2 "ts")) ->
  load_and_standardize_log (mkPath file_name content) = None
  <-> (exists e, content = Raise e) \/
      (exists df, content = Ok df /\
         ~ (file_name = "conn.log.csv" /\ "service" ∈ columns df) /\
         "proto" ∈ columns df /\ rows df ≠ [] /\
         forall p, p ∈ rows df -> exists n, cell p.2 "proto" = Num n).
Proof.
  intros _. destruct content as [df|e].
  - rewrite load_spec. split.
    + destruct (proto_fails file_name df) eqn:Hf; [|done].
      intros _. right. exists df. split; [done|]. by apply proto_fails_iff.
    + intros [[e [=]]|(df' & [= <-] & Hf)].
      apply proto_fails_iff in Hf. by rewrite Hf.
  - split; [intros _; left; eauto|done].
Qed.

Lemma load_fails_iff_witness :
  load_and_standardize_log
    (mkPath "dns.log.csv" (Ok (frame ["ts"; "proto"] [[Num 5; Num 17]]))) = None
  <-> (exists e, Ok (frame ["ts"; "proto"] [[Num 5; Num 17]]) = Raise e) \/
      (exists df, Ok (frame ["ts"; "proto"] [[Num 5; Num 17]]) = Ok df /\
         ~ ("dns.log.csv" = "conn.log.csv" /\ "service" ∈ columns df) /\
         "proto" ∈ columns df /\ rows df ≠ [] /\
         forall p, p ∈ rows df -> exists n, cell p.2 "proto" = Num n).
Proof.
  apply (load_fails_iff "dns.log.csv" (Ok (frame ["ts"; "proto"] [[Num 5; Num 17]]))).
  intros df p [= <-] _. revert p. apply Forall_forall.
  apply (bool_decide_unpack _). vm_compute. exact I.
Defined.

(** *** Rows and records *)

Lemma protocol_rule_nonempty file_name cols r :
  protocol_rule file_name cols r ≠ [].
Proof.
  unfold protocol_rule.
  destruct (_ && _).
  { pose proof (service_entries_nonempty
                  (fill (Str "unknown_service") (cell r "service"))) as H.
    by destruct (service_entries _). }
  destruct (bool_decide _); [done|]. by destruct (truthy _).
Qed.

Lemma normalize_row_labels file_name cols p :
  (normalize_row file_name cols p).*1
  = replicate (length (protocol_rule file_name cols p.2)) p.1.
Proof.
  unfold normalize_row. rewrite <- list_fmap_compose.
  induction (protocol_rule file_name cols p.2) as [|u us IH]; [done|].
  cbn. by rewrite IH.
Qed.

Lemma length_bind_ge {A B} (f : A -> list B) (l : list A) :
  (forall x, f x ≠ []) -> (length l ≤ length (l ≫= f))%nat.
Proof.
  intros Hf. induction l as [|x l IH]; [done|]. cbn. rewrite length_app.
  specialize (Hf x). destruct (f x); [done|]. cbn. lia.
Qed.

(** X3. Normalisation drops no row and invents none: every row of the file
    gives at least one record carrying its label, every record carries the
    label of a row of the file, and there are at least as many records as
    rows. So the result is empty exactly when the file has no rows. *)
Theorem no_row_is_dropped file_name content out :
  load_and_standardize_log (mkPath file_name content) = Some out ->
  exists df,
    content = Ok df /\
    (length (rows df) ≤ length (rows out))%nat /\
    (forall p, p ∈ rows df -> exists q, q ∈ rows out /\ q.1 = p.1) /\
    (forall q, q ∈ rows out -> exists p, p ∈ rows df /\ q.1 = p.1) /\
    (empty out = true <-> rows df = []).
Proof.
  intros (df & -> & _ & Hc & Hr)%load_some. exists df. split; [done|].
  assert (length (rows df) ≤ length (rows out))%nat as Hlen.
  { rewrite Hr. apply length_bind_ge. intros p. unfold normalize_row.
    pose proof (protocol_rule_nonempty file_name (columns df) p.2) as H.
    by destruct (protocol_rule _ _ _). }
  split; [done|]. split; [|split].
  - intros p Hp. rewrite Hr.
    pose proof (protocol_rule_nonempty file_name (columns df) p.2) as H.
    destruct (protocol_rule file_name (columns df) p.2) as [|u us] eqn:E; [done|].
    exists (p.1, record (datetime_rule (columns df) p.2) u
                   (total_bytes_rule (columns df) p.2)).
    split; [|done]. apply list_elem_of_bind. exists p. split; [|done].
    unfold normalize_row. rewrite E. by left.
  - rewrite Hr. intros q (p & Hq & Hp)%list_elem_of_bind. exists p. split; [done|].
    by apply elem_of_normalize_row in Hq as [-> _].
  - unfold empty. rewrite Hc. split.
    + intros He. destruct (rows out); [|done].
      destruct (rows df); [done|cbn in Hlen; lia].
    + intros Hnil. by rewrite Hr, Hnil.
Qed.

Lemma no_row_is_dropped_witness :
  exists df,
    Ok (frame ["service"] [[Str "gssapi,dce_rpc"]; [NaN]]) = Ok df /\
    (length (rows df)
     ≤ length (rows {| columns := ["datetime"; "unified_protocol"; "total_bytes";
                                   "event_count"];
                       rows := [(Num 0, record NaN (Str "gssapi") (Num 0));
                                (Num 0, record NaN (Str "dce_rpc") (Num 0));
                                (Num 1, record NaN (Str "unknown_service") (Num 0))] |}))%nat /\
    (forall p, p ∈ rows df ->
       exists q,
         q ∈ rows {| columns := ["datetime"; "unified_protocol"; "total_bytes";
                                 "event_count"];
                     rows := [(Num 0, record NaN (Str "gssapi") (Num 0));
                              (Num 0, record NaN (Str "dce_rpc") (Num 0));
                              (Num 1, record NaN (Str "unknown_service") (Num 0))] |}
         /\ q.1 = p.1) /\
    (forall q,
       q ∈ rows {| columns := ["datetime"; "unified_protocol"; "total_bytes";
                               "event_count"];
                   rows := [(Num 0, record NaN (Str "gssapi") (Num 0));
                            (Num 0, record NaN (Str "dce_rpc") (Num 0));
                            (Num 1, record NaN (Str "unknown_service") (Num 0))] |} ->
       exists p, p ∈ rows df /\ q.1 = p.1) /\
    (empty {| columns := ["datetime"; "unified_protocol"; "total_bytes";
                          "event_count"];
              rows := [(Num 0, record NaN (Str "gssapi") (Num 0));
                       (Num 0, record NaN (Str "dce_rpc") (Num 0));
                       (Num 1, record NaN (Str "unknown_service") (Num 0))] |} = true
     <-> rows df = []).
Proof.
  apply (no_row_is_dropped "conn.log.csv"
           (Ok (frame ["service"] [[Str "gssapi,dce_rpc"]; [NaN]]))).
  vm_compute. reflexivity.
Defined.

(** *** The protocol label *)

Lemma lower_ascii_idemp a : lower_ascii (lower_ascii a) = lower_ascii a.
Proof. destruct a as [[] [] [] [] [] [] [] []]; reflexivity. Qed.

Lemma lower_idemp s : py.lower (py.lower s) = py.lower s.
Proof.
  induction s as [|a s IH]; [done|]. cbn. by rewrite lower_ascii_idemp, IH.
Qed.

Lemma protocol_rule_lowercase file_name cols r u :
  u ∈ protocol_rule file_name cols r ->
  u = NaN \/ exists x, u = Str x /\ py.lower x = x.
Proof.
  unfold protocol_rule. destruct (_ && _).
  { unfold service_entries. rewrite <- list_fmap_compose.
    intros (e & -> & _)%list_elem_of_fmap. right. eexists. split; [done|].
    cbn. apply lower_idemp. }
  destruct (bool_decide _).
  { intros ->%list_elem_of_singleton.
    destruct (fill _ _); eauto using lower_idemp. }
  destruct (truthy _); intros ->%list_elem_of_singleton; right;
    eexists; (split; [done|]); [apply lower_idemp|reflexivity].
Qed.

(** X4. The protocol label of a record is never written with a capital
    letter: it is missing or a text that [lower] leaves as it is. The chart
    compares the labels with lowercase names only. *)
Theorem unified_protocol_is_lowercase file_name content out :
  load_and_standardize_log (mkPath file_name content) = Some out ->
  forall q, q ∈ rows out ->
    cell q.2 "unified_protocol" = NaN \/
    exists x, cell q.2 "unified_protocol" = Str x /\ py.lower x = x.
Proof.
  intros Hout q Hq.
  destruct (elem_of_load_rows _ _ _ _ Hout Hq) as (df & p & _ & _ & Hqp).
  apply elem_of_normalize_row in Hqp as (_ & _ & Hu & _).
  by eapply protocol_rule_lowercase.
Qed.

Lemma unified_protocol_is_lowercase_witness :
  cell (Num 0, record NaN (Str "tcp") (Num 0)).2 "unified_protocol" = NaN \/
  exists x,
    cell (Num 0, record NaN (Str "tcp") (Num 0)).2 "unified_protocol" = Str x
    /\ py.lower x = x.
Proof.
  apply (unified_protocol_is_lowercase "Weird.log.csv"
           (Ok (frame ["proto"] [[Str "TCP"]; [NaN]]))
           {| columns := ["datetime"; "unified_protocol"; "total_bytes";
                          "event_count"];
              rows := [(Num 0, record NaN (Str "tcp") (Num 0));
                       (Num 1, record NaN (Str "unknown_protocol") (Num 0))] |}).
  - vm_compute. reflexivity.
  - apply (bool_decide_unpack _). vm_compute. exact I.
Defined.

Lemma cell_normalize_row file_name cols p :
  (fun q => cell q.2 "unified_protocol") <$> normalize_row file_name cols p
  = protocol_rule file_name cols p.2.
Proof.
  unfold normalize_row. rewrite <- list_fmap_compose.
  induction (protocol_rule file_name cols p.2) as [|u us IH]; [done|].
  cbn [fmap list_fmap compose snd]. rewrite IH. f_equal; apply cell_record.
Qed.

Lemma protocol_rule_single file_name cols r :
  ~ (file_name = "conn.log.csv" /\ "service" ∈ cols) ->
  protocol_rule file_name cols r
  = [if bool_decide ("proto" ∈ cols) then
       match cell r "proto" with
       | NaN => Str "unknown_protocol"
       | Str x => Str (py.lower x)
       | _ => NaN
       end
     else if truthy (py.replace ".log.csv" "" file_name)
          then Str (py.lower (py.replace ".log.csv" "" file_name))
          else Str "unknown_log_type"].
Proof.
  intros Hc. unfold protocol_rule.
  destruct (bool_decide (file_name = "conn.log.csv") && bool_decide ("service" ∈ cols))
    eqn:E.
  { apply andb_prop in E as [?%bool_decide_eq_true_1 ?%bool_decide_eq_true_1].
    tauto. }
  destruct (bool_decide ("proto" ∈ cols)).
  - by destruct (cell r "proto").
  - by destruct (truthy _).
Qed.

Lemma fmap_bind_singleton {A B C} (h : B -> C) (g : A -> list B) (f : A -> C)
  (l : list A) :
  (forall x, x ∈ l -> h <$> g x = [f x]) -> h <$> (l ≫= g) = f <$> l.
Proof.
  induction l as [|x l IH]; [done|]. intros H. cbn.
  rewrite fmap_app, (H x) by (by left). cbn. f_equal.
  apply IH. intros y Hy. apply H. by right.
Qed.

(** X5. Apart from the connection log with a [service] column, a file gives
    one record per row, in order and under the label of the row. Its
    protocol comes from the [proto] column when there is one: the text in
    lower case, [unknown_protocol] for a missing cell, and a missing label
    for a cell that is no text. Without a [proto] column every record has
    the name of the file with each [.log.csv] taken out, in lower case, and
    [unknown_log_type] when nothing is left of the name. *)
Theorem protocol_falls_back_to_proto_then_file_name file_name df out :
  load_and_standardize_log (mkPath file_name (Ok df)) = Some out ->
  ~ (file_name = "conn.log.csv" /\ "service" ∈ columns df) ->
  (rows out).*1 = (rows df).*1 /\
  ("proto" ∈ columns df ->
   (fun q => cell q.2 "unified_protocol") <$> rows out
   = (fun p => match cell p.2 "proto" with
               | NaN => Str "unknown_protocol"
               | Str x => Str (py.lower x)
               | _ => NaN
               end) <$> rows df) /\
  ("proto" ∉ columns df ->
   (fun q => cell q.2 "unified_protocol") <$> rows out
   = (fun _ => Str (if truthy (py.replace ".log.csv" "" file_name)
                    then py.lower (py.replace ".log.csv" "" file_name)
                    else "unknown_log_type")) <$> rows df).
Proof.
  intros Hout Hc. rewrite (load_rows _ _ _ Hout). split; [|split].
  - apply fmap_bind_singleton. intros p _.
    by rewrite normalize_row_labels, protocol_rule_single.
  - intros Hp. apply fmap_bind_singleton. intros p _.
    rewrite cell_normalize_row, protocol_rule_single by done.
    by rewrite bool_decide_eq_true_2.
  - intros Hp. apply fmap_bind_singleton. intros p _.
    rewrite cell_normalize_row, protocol_rule_single by done.
    rewrite bool_decide_eq_false_2 by done. by destruct (truthy _).
Qed.

Lemma protocol_falls_back_to_proto_then_file_name_witness :
  (fun q => cell q.2 "unified_protocol")
    <$> rows {| columns := ["datetime"; "unified_protocol"; "total_bytes";
                            "event_count"];
                rows := [(Num 0, record NaN (Str "weird") (Num 0));
                         (Num 1, record NaN (Str "weird") (Num 0))] |}
  = (fun _ => Str (if truthy (py.replace ".log.csv" "" "Weird.log.csv")
                   then py.lower (py.replace ".log.csv" "" "Weird.log.csv")
                   else "unknown_log_type"))
      <$> rows (frame ["uid"; "service"] [[Str "C1"; Str "HTTP"]; [Str "C2"; NaN]]).
Proof.
  refine (proj2 (proj2 (protocol_falls_back_to_proto_then_file_name "Weird.log.csv"
                          (frame ["uid"; "service"]
                             [[Str "C1"; Str "HTTP"]; [Str "C2"; NaN]])
                          _ _ _)) _).
  - vm_compute. reflexivity.
  - intros [[=] _].
  - apply (bool_decide_unpack _). vm_compute. exact I.
Defined.

(** *** The byte count *)




(** *** The timestamp *)

(** X7. The [ts] column counts seconds since the epoch.  Every record
    has the label of a row of the file; when the [ts] cell of that row is
    the whole number [n] and datetime64 holds [n] seconds, the datetime
    of the record is [n] seconds after the epoch, in nanoseconds, and
    when the cell is missing it is NaT. *)
Theorem datetime_is_ts_in_nanoseconds file_name df out :
  load_and_standardize_log (mkPath file_name (Ok df)) = Some out ->
  "ts" ∈ columns df ->
  forall q, q ∈ rows out ->
    exists p, p ∈ rows df /\ q.1 = p.1 /\
      (cell p.2 "ts" = NaN -> cell q.2 "datetime" = NaN) /\
      (forall n, cell p.2 "ts" = Num n ->
         - (2 ^ 63 - 1) ≤ n * 10 ^ 9 ≤ 2 ^ 63 - 1 ->
         cell q.2 "datetime" = Timestamp (n * 10 ^ 9)).
Proof.
  intros Hout Hts q Hq.
  destruct (elem_of_load_rows _ _ _ _ Hout Hq) as (df' & p & [= <-] & Hp & Hqp).
  apply elem_of_normalize_row in Hqp as (Hlabel & -> & _).
  exists p. split; [done|]. split; [done|].
  unfold datetime_rule. rewrite bool_decide_eq_true_2 by done. split.
  - by intros ->.
  - intros n -> [H1%Z.leb_le H2%Z.leb_le]. cbn. unfold in_bounds.
    by rewrite H1, H2.
Qed.

Lemma datetime_is_ts_in_nanoseconds_witness :
  exists p,
    p ∈ rows (frame ["ts"] [[Num 1641600005]; [NaN]]) /\
    (Num 0, record (Timestamp 1641600005000000000) (Str "dns") (Num 0)).1 = p.1 /\
    (cell p.2 "ts" = NaN ->
     cell (Num 0, record (Timestamp 1641600005000000000) (Str "dns") (Num 0)).2
       "datetime" = NaN) /\
    (forall n, cell p.2 "ts" = Num n ->
       - (2 ^ 63 - 1) ≤ n * 10 ^ 9 ≤ 2 ^ 63 - 1 ->
       cell (Num 0, record (Timestamp 1641600005000000000) (Str "dns") (Num 0)).2
         "datetime" = Timestamp (n * 10 ^ 9)).
Proof.
  apply (datetime_is_ts_in_nanoseconds "dns.log.csv"
           (frame ["ts"] [[Num 1641600005]; [NaN]])
           {| columns := ["datetime"; "unified_protocol"; "total_bytes";
                          "event_count"];
              rows := [(Num 0, record (Timestamp 1641600005000000000) (Str "dns")
                                 (Num 0));
                       (Num 1, record NaN (Str "dns") (Num 0))] |}).
  - vm_compute. reflexivity.
  - apply (bool_decide_unpack _). vm_compute. exact I.
  - apply (bool_decide_unpack _). vm_compute. exact I.
Defined.

(** ** Combining the files of a directory *)

Lemma remove_dups_app_subseteq {A} `{EqDecision A} (l k : list A) :
  (forall x, x ∈ l -> x ∈ k) -> remove_dups (l ++ k) = remove_dups k.
Proof.
  induction l as [|x l IH]; [done|]. intros H. cbn.
  destruct (decide_rel _ _ _) as [_|Hn].
  - apply IH. intros y Hy. apply H. by right.
  - destruct Hn. apply elem_of_app. right. apply H. by left.
Qed.

Lemma remove_dups_NoDup {A} `{EqDecision A} (l : list A) :
  NoDup l -> remove_dups l = l.
Proof.
  induction 1 as [|x l Hx _ IH]; [done|]. cbn.
  destruct (decide_rel _ _ _); [done|]. by rewrite IH.
Qed.

Lemma columns_concat_frames (dfs : list DataFrame) cols :
  NoDup cols -> dfs ≠ [] -> Forall (fun d => columns d = cols) dfs ->
  columns (concat_frames dfs) = cols.
Proof.
  intros Hnd Hne Hall. unfold concat_frames. cbn [columns].
  induction Hall as [|d ds Hd Hds IH]; [done|]. cbn. rewrite Hd.
  destruct ds as [|d' ds].
  - cbn. rewrite app_nil_r. by apply remove_dups_NoDup.
  - rewrite remove_dups_app_subseteq; [by apply IH|].
    intros x Hx. cbn. apply elem_of_app. left.
    apply Forall_cons in Hds as [-> _]. done.
Qed.

Lemma relabel_fst {A B C} (g : nat -> C) (h : A -> B) (rs : list A) start :
  (zip_with (fun i p => (g i, h p)) (seq start (length rs)) rs).*1
  = g <$> seq start (length rs).
Proof.
  revert start. induction rs as [|p rs IH]; intros start; [done|].
  cbn. by rewrite IH.
Qed.

Lemma relabel_snd {A B C} (g : nat -> C) (h : A -> B) (rs : list A) start :
  (zip_with (fun i p => (g i, h p)) (seq start (length rs)) rs).*2 = h <$> rs.
Proof.
  revert start. induction rs as [|p rs IH]; intros start; [done|].
  cbn. by rewrite IH.
Qed.

Lemma map_rows_id_on F (rs : list (value * gmap string value)) :
  (forall r, r ∈ rs.*2 -> F r = r) -> map_rows F rs = rs.
Proof.
  intros H. unfold map_rows. induction rs as [|[i r] rs IH]; [done|].
  cbn. rewrite (H r) by (by left). f_equal. apply IH.
  intros r' Hr'. apply H. by right.
Qed.

Lemma elem_of_omap_load (csv_dir : list Path) out q :
  out ∈ omap load_and_standardize_log csv_dir -> q ∈ rows out ->
  exists d u t,
    q.2 = record d u t /\
    (d = NaN \/ exists ts, d = Timestamp ts /\ in_bounds ts = true) /\
    (exists n, t = Num n).
Proof.
  intros ([file_name content] & _ & Hout)%list_elem_of_omap Hq.
  by eapply load_record_shape.
Qed.

Lemma columns_omap_load (csv_dir : list Path) :
  Forall (fun d => columns d
                   = ["datetime"; "unified_protocol"; "total_bytes"; "event_count"])
    (omap load_and_standardize_log csv_dir).
Proof.
  apply Forall_forall. intros out ([file_name content] & _ & Hout)%list_elem_of_omap.
  by apply load_some in Hout as (df & _ & _ & Hc & _).
Qed.

Lemma record_datetime_again parse d u t :
  d = NaN \/ (exists ts, d = Timestamp ts /\ in_bounds ts = true) ->
  <["datetime" := to_datetime1 parse (cell (record d u t) "datetime")]> (record d u t)
  = record d u t.
Proof.
  intros Hd. destruct (cell_record d u t) as (-> & _).
  assert (to_datetime1 parse d = d) as -> by (by destruct Hd as [->|(ts & -> & _)]).
  unfold record. by rewrite insert_insert_eq.
Qed.

Lemma record_total_bytes_again d u n :
  <["total_bytes" := (if is_nan (to_numeric1 (cell (record d u (Num n)) "total_bytes"))
                      then Num 0
                      else to_numeric1 (cell (record d u (Num n)) "total_bytes"))]>
    (record d u (Num n))
  = record d u (Num n).
Proof.
  destruct (cell_record d u (Num n)) as (_ & _ & -> & _). cbn [to_numeric1 is_nan].
  apply insert_id. unfold record.
  by rewrite !lookup_insert_ne, lookup_insert_eq by done.
Qed.

Lemma concat_frames_records (csv_dir : list Path) r :
  r ∈ (rows (concat_frames (omap load_and_standardize_log csv_dir))).*2 ->
  exists d u t,
    r = record d u t /\
    (d = NaN \/ exists ts, d = Timestamp ts /\ in_bounds ts = true) /\
    (exists n, t = Num n).
Proof.
  unfold concat_frames. cbn [rows]. rewrite relabel_snd.
  intros (q & -> & Hq)%list_elem_of_fmap.
  apply list_elem_of_bind in Hq as (out & Hq & Hout).
  by eapply elem_of_omap_load.
Qed.

Lemma load_all_csvs_spec parse csv_dir :
  load_all_csvs parse csv_dir
  = Ok {| columns := ["datetime"; "unified_protocol"; "total_bytes"; "event_count"];
          rows := rows (concat_frames (omap load_and_standardize_log csv_dir)) |}.
Proof.
  unfold load_all_csvs. cbv zeta.
  pose proof (columns_omap_load csv_dir) as Hcols.
  pose proof (concat_frames_records csv_dir) as Hrec.
  destruct (omap load_and_standardize_log csv_dir) as [|d0 ds] eqn:E; [done|].
  set (combined := concat_frames (d0 :: ds)) in *.
  assert (columns combined
          = ["datetime"; "unified_protocol"; "total_bytes"; "event_count"]) as Hc.
  { apply columns_concat_frames; [|done..].
    apply (bool_decide_unpack _). vm_compute. exact I. }
  assert (forall rs, {| columns := columns combined; rows := rs |}
                     = {| columns := ["datetime"; "unified_protocol"; "total_bytes";
                                      "event_count"]; rows := rs |}) as Hfr
    by (intros rs; by rewrite Hc).
  rewrite getitem_column by (rewrite Hc; apply (bool_decide_unpack _); vm_compute; exact I).
  rewrite bind_Ok. unfold to_datetime. rewrite smap_column_of, setitem_column, bind_Ok.
  rewrite add_column_elem
    by (rewrite Hc; apply (bool_decide_unpack _); vm_compute; exact I).
  rewrite (map_rows_id_on _ (rows combined)).
  2:{ intros r (d & u & t & -> & Hd & _)%Hrec. by apply record_datetime_again. }
  rewrite getitem_column
    by (cbn [columns]; rewrite Hc; apply (bool_decide_unpack _); vm_compute; exact I).
  rewrite bind_Ok. unfold fillna, to_numeric.
  rewrite !smap_column_of, setitem_column. cbn [columns rows].
  rewrite add_column_elem
    by (rewrite Hc; apply (bool_decide_unpack _); vm_compute; exact I).
  rewrite (map_rows_id_on _ (rows combined)).
  2:{ intros r (d & u & t & -> & _ & [n ->])%Hrec. apply record_total_bytes_again. }
  by rewrite Hfr.
Qed.

(** X8. [load_all_csvs] never raises. Its result has the four standard
    columns, the labels 0, 1, 2, ... and, in the order of the directory, the
    records of every file that normalisation accepts; files it gives up on
    are left out. The two conversions after [pd.concat] change no record, so
    the date parser has no part in the result. *)
Theorem load_all_csvs_concatenates parse csv_dir :
  exists df,
    load_all_csvs parse csv_dir = Ok df /\
    columns df = ["datetime"; "unified_protocol"; "total_bytes"; "event_count"] /\
    (rows df).*1 = (fun i => Num (Z.of_nat i)) <$> seq 0 (length (rows df)) /\
    (rows df).*2 = (omap load_and_standardize_log csv_dir ≫= rows).*2.
Proof.
  eexists. split; [apply load_all_csvs_spec|]. split; [done|].
  cbn [rows concat_frames]. split.
  - rewrite relabel_fst. do 2 f_equal. rewrite length_zip_with, length_seq. lia.
  - apply relabel_snd.
Qed.

(** ** Further properties of the pie chart *)

Lemma length_plotted s s' : plotted s = Ok s' -> (length s' ≤ 9)%nat.
Proof.
  unfold plotted. cbv zeta. destruct (decide _) as [Hlen|Hlen].
  - destruct (sum _) as [v|e]; [rewrite bind_Ok|done]. intros <-%Ok_inj.
    unfold concat, iloc_to, Series_of, top_n.
    rewrite length_app, length_take. cbn [length]. lia.
  - intros <-%Ok_inj. unfold top_n in Hlen. lia.
Qed.

Lemma pie_series_length df s : pie_series df = Ok s -> (length s ≤ 9)%nat.
Proof.
  unfold pie_series. destruct (getitem _ _) as [c|e]; [rewrite bind_Ok|done].
  destruct (groupby_sum _ _ _) as [agg|e]; [rewrite bind_Ok|done].
  apply length_plotted.
Qed.

(** X9. Whatever the dataset, [plot_protocol_pie] calls [plt.pie] at most
    once, and with at most nine values (eight protocols and [other]) and
    as many labels as values. *)
Theorem pie_has_at_most_nine_slices df out_path w :
  exists new : list event,
    trace (plot_protocol_pie df out_path w).2 = (trace w ++ new)%list /\
    (length (pies new) ≤ 1)%nat /\
    forall x labels, (x, labels) ∈ pies new ->
      (length x ≤ 9)%nat /\ length labels = length x.
Proof.
  destruct (pie_series df) as [agg|e] eqn:E.
  - destruct (plot_protocol_pie_pies df out_path w agg E) as (new & Htrace & Hpies).
    exists new. split; [done|]. rewrite Hpies. split; [done|].
    intros x labels [= -> ->]%list_elem_of_singleton. rewrite !length_fmap.
    split; [by eapply pie_series_length|done].
  - exists []. rewrite plot_protocol_pie_run, E. cbn.
    split; [by rewrite app_nil_r|]. split; [lia|]. by intros x labels ?%elem_of_nil.
Qed.

Lemma groupby_sum_missing df key col :
  ~ (key ∈ columns df /\ col ∈ columns df) ->
  groupby_sum df key col
  = Raise (KeyError (if bool_decide (key ∈ columns df)
                     then "Column not found: " +:+ col else key)).
Proof.
  intros H. unfold groupby_sum, has_column.
  destruct (bool_decide (key ∈ columns df)) eqn:Hk; cbn [negb]; [|done].
  apply bool_decide_eq_true_1 in Hk.
  rewrite bool_decide_eq_false_2 by tauto. done.
Qed.

(** X10. The dataset must have the two columns the chart reads. Without one
    of them the call raises a [KeyError] before anything is drawn; for a
    missing [unified_protocol] it is the [KeyError] of that name, raised on
    line 95. *)
Theorem pie_needs_both_columns df out_path w :
  ~ ("unified_protocol" ∈ columns df /\ "event_count" ∈ columns df) ->
  exists key,
    plot_protocol_pie df out_path w = (Raise (KeyError key), w) /\
    ("unified_protocol" ∉ columns df -> key = "unified_protocol").
Proof.
  intros H. rewrite plot_protocol_pie_run, pie_series_drop_excluded.
  unfold has_column.
  destruct (bool_decide ("unified_protocol" ∈ columns df)) eqn:Hk.
  - rewrite groupby_sum_missing by done. eexists. split; [done|].
    intros Hn. by apply bool_decide_eq_true_1 in Hk.
  - by exists "unified_protocol".
Qed.

Lemma pie_needs_both_columns_witness :
  exists key,
    plot_protocol_pie (frame ["proto"; "event_count"] [[Str "tcp"; Num 1]])
      (Some "pie.png") (mkWorld ∅ [])
    = (Raise (KeyError key), mkWorld ∅ []) /\
    ("unified_protocol" ∉ columns (frame ["proto"; "event_count"] [[Str "tcp"; Num 1]])
     -> key = "unified_protocol").
Proof.
  apply (pie_needs_both_columns
           (frame ["proto"; "event_count"] [[Str "tcp"; Num 1]])).
  intros [H _]. revert H. apply (bool_decide_unpack _). vm_compute. exact I.
Defined.

(** *** Every counted event is in one slice *)

Lemma total_app l k : total (l ++ k) = total l + total k.
Proof. unfold total. induction l as [|v l IH]; cbn; lia. Qed.

Lemma total_zero {A} (l : list A) : total ((fun _ => Num 0) <$> l) = 0.
Proof. unfold total. induction l as [|x l IH]; cbn; lia. Qed.

Lemma total_add {A} (g h : A -> Z) (l : list A) :
  total ((fun k => Num (g k + h k)) <$> l)
  = total ((fun k => Num (g k)) <$> l) + total ((fun k => Num (h k)) <$> l).
Proof. unfold total. induction l as [|x l IH]; cbn in *; lia. Qed.

Lemma total_indicator (ks : list value) x c :
  NoDup ks ->
  total ((fun k => Num (if decide (x = k) then c else 0)) <$> ks)
  = if decide (x ∈ ks) then c else 0.
Proof.
  induction 1 as [|k ks Hk _ IH]; [done|].
  cbn [fmap list_fmap]. change (total (?v :: ?l)) with (as_num v + total l).
  rewrite IH. cbn [as_num].
  destruct (decide (x = k)) as [->|Hne].
  - rewrite decide_False by done. rewrite decide_True by (by left). lia.
  - destruct (decide (x ∈ ks)) as [Hin|Hin].
    + rewrite decide_True by (by right). lia.
    + rewrite decide_False; [lia|]. by intros [?|?]%elem_of_cons.
Qed.

Lemma total_by_key (key : value * gmap string value -> value)
  (f : value * gmap string value -> value)
  (rs : list (value * gmap string value)) (ks : list value) :
  NoDup ks -> (forall p, p ∈ rs -> key p ∈ ks) ->
  total ((fun k => Num (total (f <$> filter (fun p => key p = k) rs))) <$> ks)
  = total (f <$> rs).
Proof.
  intros Hnd. induction rs as [|p rs IH]; intros Hks.
  - cbn. apply total_zero.
  - transitivity
      (total ((fun k => Num ((if decide (key p = k) then as_num (f p) else 0)
                             + total (f <$> filter (fun p => key p = k) rs))) <$> ks)).
    { f_equal. apply list_fmap_ext. intros _ k _. f_equal.
      rewrite filter_cons. by destruct (decide (key p = k)). }
    rewrite total_add, total_indicator, IH by (try done; intros q Hq; apply Hks; by right).
    rewrite decide_True by (apply Hks; by left). done.
Qed.

Lemma total_grouped df :
  total (values (grouped df))
  = total ((fun p => cell p.2 "event_count") <$> kept df).
Proof.
  unfold grouped, values, protocols, event_count. rewrite <- list_fmap_compose.
  apply (total_by_key (fun p => cell p.2 "unified_protocol")
           (fun p => cell p.2 "event_count")).
  - apply NoDup_remove_dups.
  - intros p Hp. apply elem_of_remove_dups.
    by apply (list_elem_of_fmap_2 (fun p => cell p.2 "unified_protocol")).
Qed.

Lemma total_values_Permutation (s s' : Series) :
  s ≡ₚ s' -> total (values s) = total (values s').
Proof. intros H. apply total_Permutation. unfold values. by rewrite H. Qed.

Lemma plotted_numeric s :
  Forall (fun p => numeric p.2) s ->
  exists s', plotted s = Ok s' /\ total (values s') = total (values s).
Proof.
  intros Hnum. unfold plotted. cbv zeta.
  pose proof (sort_values_desc_perm s) as Hperm.
  destruct (decide _).
  - unfold sum. rewrite sum_cells_numeric.
    2:{ unfold values, iloc_from. apply Forall_fmap, Forall_drop.
        by rewrite Hperm. }
    eexists. split; [done|].
    rewrite <- (total_values_Permutation _ _ Hperm).
    generalize (sort_values_desc s). intros s'.
    pose proof (f_equal (fun l : Series => total (values l)) (take_drop top_n s')) as H.
    cbv beta in H. unfold concat, iloc_to, iloc_from, Series_of, values in *.
    rewrite fmap_app, total_app in H |- *.
    unfold total, top_n in *. cbn [fmap list_fmap foldr snd as_num]. lia.
  - eexists. split; [done|]. by apply total_values_Permutation.
Qed.

Lemma pie_series_numeric df :
  "unified_protocol" ∈ columns df -> "event_count" ∈ columns df ->
  Forall numeric ((fun p => cell p.2 "event_count") <$> kept df) ->
  exists agg,
    pie_series df = Ok agg /\
    total (values agg) = total ((fun p => cell p.2 "event_count") <$> kept df).
Proof.
  intros Hp He Hnum. rewrite pie_series_drop_excluded. unfold has_column.
  rewrite bool_decide_eq_true_2 by done.
  rewrite groupby_sum_kept, bind_Ok by done.
  destruct (plotted_numeric (agg_of df) (agg_of_values_numeric df)) as (s & -> & Hs).
  exists s. split; [done|].
  by rewrite Hs, (total_values_Permutation _ _ (agg_of_grouped df)), total_grouped.
Qed.

(** X11. The chart accounts for every counted event once: on a dataset
    with the two columns whose [event_count] cells are missing or whole
    numbers, those of the counted records of at most 2^53 in magnitude
    together, [plt.pie] is called once, and the values it is given,
    [other] included, add up to the summed [event_count] of the records
    that are not excluded. *)
Theorem pie_slices_add_up df out_path w :
  "unified_protocol" ∈ columns df -> "event_count" ∈ columns df ->
  (forall p, p ∈ rows df -> numeric (cell p.2 "event_count")) ->
  magnitude ((fun p => cell p.2 "event_count") <$> kept df) ≤ 2 ^ 53 ->
  exists (new : list event) (x labels : list value),
    trace (plot_protocol_pie df out_path w).2 = (trace w ++ new)%list /\
    pies new = [(x, labels)] /\
    total x = total ((fun p => cell p.2 "event_count") <$> kept df).
Proof.
  intros Hp He Hnum%numeric_kept _.
  destruct (pie_series_numeric df Hp He Hnum) as (agg & Hagg & Htotal).
  destruct (plot_protocol_pie_pies df out_path w agg Hagg) as (new & Htrace & Hpies).
  by exists new, agg.*2, agg.*1.
Qed.

Lemma pie_slices_add_up_witness :
  exists (new : list event) (x labels : list value),
    trace (plot_protocol_pie twelve_protocols None (mkWorld ∅ [])).2
    = ([] ++ new)%list /\
    pies new = [(x, labels)] /\
    total x = total ((fun p => cell p.2 "event_count") <$> kept twelve_protocols).
Proof.
  apply (pie_slices_add_up twelve_protocols None (mkWorld ∅ [])).
  - apply (bool_decide_unpack _). vm_compute. exact I.
  - apply (bool_decide_unpack _). vm_compute. exact I.
  - apply Forall_forall. apply (bool_decide_unpack _). vm_compute. exact I.
  - vm_compute. discriminate.
Defined.

(** *** Few protocols *)

Lemma plotted_few s :
  (length s ≤ 8)%nat -> plotted s = Ok (sort_values_desc s).
Proof.
  intros Hlen. unfold plotted. cbv zeta. rewrite decide_False; [done|].
  rewrite (Permutation_length (sort_values_desc_perm s)). unfold top_n. lia.
Qed.

(** X12. On a dataset with the two columns whose counted records have
    at most 8 distinct protocols, and whose [event_count] cells are
    missing or whole numbers, those of the counted records of at most
    2^53 in magnitude together, nothing is merged: [plt.pie] is called once, with one value and one label per
    protocol, the value being its summed [event_count], the larger
    values first, and no label is added. *)
Theorem few_protocols_are_all_drawn df out_path w :
  "unified_protocol" ∈ columns df -> "event_count" ∈ columns df ->
  (forall p, p ∈ rows df -> numeric (cell p.2 "event_count")) ->
  magnitude ((fun p => cell p.2 "event_count") <$> kept df) ≤ 2 ^ 53 ->
  (length (protocols df) ≤ 8)%nat ->
  exists (agg : Series) (new : list event),
    agg ≡ₚ grouped df /\
    StronglySorted (fun a b => as_num b.2 ≤ as_num a.2) agg /\
    trace (plot_protocol_pie df out_path w).2 = (trace w ++ new)%list /\
    pies new = [(agg.*2, agg.*1)].
Proof.
  intros Hp He Hnum%numeric_kept _ Hlen.
  assert (pie_series df = Ok (sort_values_desc (agg_of df))) as Hagg.
  { rewrite pie_series_drop_excluded. unfold has_column.
    rewrite bool_decide_eq_true_2 by done.
    rewrite groupby_sum_kept, bind_Ok by done.
    by rewrite plotted_few by (by rewrite length_agg_of). }
  destruct (plot_protocol_pie_pies df out_path w _ Hagg) as (new & Htrace & Hpies).
  exists (sort_values_desc (agg_of df)), new.
  split; [by rewrite sort_values_desc_perm, agg_of_grouped|].
  split; [apply (StronglySorted_merge_sort value_ge)|]. done.
Qed.

Lemma few_protocols_are_all_drawn_witness :
  exists (agg : Series) (new : list event),
    agg ≡ₚ grouped (frame ["unified_protocol"; "event_count"]
                      [[Str "dns"; Num 1]; [Str "http"; Num 1]; [Str "tcp"; Num 1];
                       [Str "http"; Num 1]]) /\
    StronglySorted (fun a b => as_num b.2 ≤ as_num a.2) agg /\
    trace (plot_protocol_pie
             (frame ["unified_protocol"; "event_count"]
                [[Str "dns"; Num 1]; [Str "http"; Num 1]; [Str "tcp"; Num 1];
                 [Str "http"; Num 1]])
             None (mkWorld ∅ [])).2
    = ([] ++ new)%list /\
    pies new = [(agg.*2, agg.*1)].
Proof.
  apply (few_protocols_are_all_drawn
           (frame ["unified_protocol"; "event_count"]
              [[Str "dns"; Num 1]; [Str "http"; Num 1]; [Str "tcp"; Num 1];
               [Str "http"; Num 1]])
           None (mkWorld ∅ [])).
  - apply (bool_decide_unpack _). vm_compute. exact I.
  - apply (bool_decide_unpack _). vm_compute. exact I.
  - apply Forall_forall. apply (bool_decide_unpack _). vm_compute. exact I.
  - vm_compute. discriminate.
  - apply (bool_decide_unpack _). vm_compute. exact I.
Defined.

(** *** The chart of a directory of logs *)

Lemma total_ones {A} (f : A -> value) (l : list A) :
  (forall x, x ∈ l -> f x = Num 1) -> total (f <$> l) = Z.of_nat (length l).
Proof.
  unfold total. induction l as [|x l IH]; [done|]. intros H.
  cbn [fmap list_fmap foldr length]. rewrite (H x) by (by left).
  rewrite IH by (intros y Hy; apply H; by right). cbn [as_num]. lia.
Qed.

(** X13. On what [load_all_csvs] returns, whatever the files of the
    directory hold, [plot_protocol_pie] calls [plt.pie] once, and since
    every record counts one event the values it is given add up to the
    number of records that are not excluded. *)
Theorem pie_of_loaded_logs_counts_records parse csv_dir out_path w :
  exists df (new : list event) (x labels : list value),
    load_all_csvs parse csv_dir = Ok df /\
    trace (plot_protocol_pie df out_path w).2 = (trace w ++ new)%list /\
    pies new = [(x, labels)] /\
    total x = Z.of_nat (length (kept df)).
Proof.
  rewrite load_all_csvs_spec.
  set (df := {| columns := _; rows := _ |}). exists df.
  assert (forall p, p ∈ rows df -> cell p.2 "event_count" = Num 1) as Hone.
  { intros p Hp.
    destruct (concat_frames_records csv_dir p.2) as (d & u & t & -> & _).
    { by apply list_elem_of_fmap_2. }
    apply cell_record. }
  assert (forall p, p ∈ kept df -> cell p.2 "event_count" = Num 1) as Hkept.
  { intros p [_ Hp]%list_elem_of_filter. by apply Hone. }
  destruct (pie_series_numeric df) as (agg & Hagg & Htotal).
  - apply (bool_decide_unpack _). vm_compute. exact I.
  - apply (bool_decide_unpack _). vm_compute. exact I.
  - apply Forall_fmap, Forall_forall. intros p Hp. cbn. by rewrite Hkept.
  - destruct (plot_protocol_pie_pies df out_path w agg Hagg)
      as (new & Htrace & Hpies).
    exists new, agg.*2, agg.*1. split; [done|]. split; [done|]. split; [done|].
    unfold values in Htotal. rewrite Htotal. by apply total_ones.
Qed.

(** ** Placeholders and the chart *)

Lemma protocol_rule_placeholder file_name cols r u :
  u ∈ protocol_rule file_name cols r ->
  (file_name = "conn.log.csv" /\ "service" ∈ cols -> cell r "service" = NaN ->
   u = Str "unknown_service") /\
  (~ (file_name = "conn.log.csv" /\ "service" ∈ cols) -> "proto" ∈ cols ->
   cell r "proto" = NaN -> u = Str "unknown_protocol") /\
  (~ (file_name = "conn.log.csv" /\ "service" ∈ cols) -> "proto" ∉ cols ->
   py.replace ".log.csv" "" file_name = "" -> u = Str "unknown_log_type").
Proof.
  intros Hu. split; [|split].
  - intros [-> Hs] Hnan. rewrite protocol_rule_conn, Hnan in Hu by done.
    by apply list_elem_of_singleton in Hu.
  - intros Hc Hp Hnan. rewrite protocol_rule_single in Hu by done.
    apply list_elem_of_singleton in Hu as ->.
    by rewrite bool_decide_eq_true_2, Hnan by done.
  - intros Hc Hp Hname. rewrite protocol_rule_single in Hu by done.
    apply list_elem_of_singleton in Hu as ->.
    by rewrite bool_decide_eq_false_2, Hname by done.
Qed.

(** X22. The labels normalisation makes up are labels the pie chart leaves
    out.  A record of a row without a service (in the connection log with
    a [service] column), of a row without a protocol (in a file read by its
    [proto] column), and of a file whose name is nothing but [.log.csv] is
    labelled [unknown_service], [unknown_protocol] and [unknown_log_type],
    and [plot_protocol_pie] excludes each of the three. *)
Theorem placeholder_labels_are_excluded file_name df out :
  load_and_standardize_log (mkPath file_name (Ok df)) = Some out ->
  rows out = rows df ≫= normalize_row file_name (columns df) /\
  forall p q, q ∈ normalize_row file_name (columns df) p ->
    (file_name = "conn.log.csv" /\ "service" ∈ columns df ->
     cell p.2 "service" = NaN ->
     cell q.2 "unified_protocol" = Str "unknown_service" /\
     is_excluded (cell q.2 "unified_protocol") = true) /\
    (~ (file_name = "conn.log.csv" /\ "service" ∈ columns df) ->
     "proto" ∈ columns df -> cell p.2 "proto" = NaN ->
     cell q.2 "unified_protocol" = Str "unknown_protocol" /\
     is_excluded (cell q.2 "unified_protocol") = true) /\
    (~ (file_name = "conn.log.csv" /\ "service" ∈ columns df) ->
     "proto" ∉ columns df -> py.replace ".log.csv" "" file_name = "" ->
     cell q.2 "unified_protocol" = Str "unknown_log_type" /\
     is_excluded (cell q.2 "unified_protocol") = true).
Proof.
  intros Hout. split; [by apply load_rows|].
  intros p q (_ & _ & Hu & _)%elem_of_normalize_row.
  destruct (protocol_rule_placeholder _ _ _ _ Hu) as (H1 & H2 & H3).
  split; [|split].
  - intros Hc Hnan. by rewrite (H1 Hc Hnan).
  - intros Hc Hp Hnan. by rewrite (H2 Hc Hp Hnan).
  - intros Hc Hp Hname. by rewrite (H3 Hc Hp Hname).
Qed.

Lemma placeholder_labels_are_excluded_witness :
  rows {| columns := ["datetime"; "unified_protocol"; "total_bytes"; "event_count"];
          rows := [(Num 0, record NaN (Str "unknown_service") (Num 0));
                   (Num 1, record NaN (Str "dns") (Num 0))] |}
  = rows (frame ["service"] [[NaN]; [Str "DNS"]])
      ≫= normalize_row "conn.log.csv" ["service"].
Proof.
  refine (proj1 (placeholder_labels_are_excluded "conn.log.csv"
                   (frame ["service"] [[NaN]; [Str "DNS"]]) _ _)).
  vm_compute. reflexivity.
Defined.

(** ** Further properties of the line chart *)

(** *** Errors *)

Lemma plot_connections_over_time_no_datetime parse l freq out_path w df :
  heap w !! l = Some df -> "datetime" ∉ columns df ->
  plot_connections_over_time parse l freq out_path w
  = (Raise (KeyError "datetime"),
     {| heap := <[fresh (dom (heap w)) := df]> (heap w); trace := trace w |}).
Proof.
  intros Hl Hc. unfold plot_connections_over_time.
  rewrite (run_copy l df) by done.
  rewrite (run_getitem_ref _ df) by apply lookup_insert_eq.
  by rewrite getitem_missing.
Qed.

(** X14. A dataset without a datetime column makes
    [plot_connections_over_time] raise the [KeyError] of that name on
    line 11, before anything is printed or drawn. *)
Theorem line_chart_needs_the_datetime_column parse l freq out_path w df :
  heap w !! l = Some df -> "datetime" ∉ columns df ->
  (plot_connections_over_time parse l freq out_path w).1
  = Raise (KeyError "datetime")
  /\ trace (plot_connections_over_time parse l freq out_path w).2 = trace w.
Proof.
  intros Hl Hc. by rewrite (plot_connections_over_time_no_datetime _ _ _ _ _ df).
Qed.

Lemma line_chart_needs_the_datetime_column_witness :
  (plot_connections_over_time (fun _ => None) 0%nat "30s" None
     (mkWorld {[ 0%nat := frame ["ts"; "event_count"] [[Num 5; Num 1]] ]} [])).1
  = Raise (KeyError "datetime")
  /\ trace (plot_connections_over_time (fun _ => None) 0%nat "30s" None
              (mkWorld {[ 0%nat := frame ["ts"; "event_count"] [[Num 5; Num 1]] ]}
                 [])).2
     = trace (mkWorld {[ 0%nat := frame ["ts"; "event_count"] [[Num 5; Num 1]] ]} []).
Proof.
  apply (line_chart_needs_the_datetime_column (fun _ => None) 0%nat "30s" None
           (mkWorld {[ 0%nat := frame ["ts"; "event_count"] [[Num 5; Num 1]] ]} [])
           (frame ["ts"; "event_count"] [[Num 5; Num 1]])).
  - vm_compute. reflexivity.
  - apply (bool_decide_unpack _). vm_compute. exact I.
Defined.

Lemma empty_valid_frame parse df :
  "datetime" ∈ columns df ->
  empty (valid_frame parse df) = true <-> forall p, p ∈ rows df -> ~ has_timestamp parse p.
Proof.
  intros Hc. unfold empty. rewrite rows_valid_frame.
  cbn [columns valid_frame getitem_mask coerced].
  destruct (columns df) as [|c cs]; [by apply elem_of_nil in Hc|].
  destruct (filter (has_timestamp parse) (rows df)) as [|q qs] eqn:E.
  - cbn. split; [|done]. intros _ p Hp Hts.
    assert (p ∈ filter (has_timestamp parse) (rows df)) as Hin
      by (by apply list_elem_of_filter).
    rewrite E in Hin. by apply elem_of_nil in Hin.
  - cbn. split; [done|]. intros H.
    assert (q ∈ filter (has_timestamp parse) (rows df)) as Hin
      by (rewrite E; by left).
    apply list_elem_of_filter in Hin as [Hts Hq]. by destruct (H q Hq).
Qed.

Lemma columns_indexed parse df c :
  c ∈ columns (indexed parse df) <-> c ≠ "datetime" /\ c ∈ columns df.
Proof.
  unfold indexed, sort_index. cbn [columns]. by rewrite list_elem_of_filter.
Qed.

(** X15. A dataset with timestamps but without an [event_count] column gives
    no chart and no exception: the [KeyError] of line 21 is caught, the
    function prints [Resample failed: 'event_count'] and returns. *)
Theorem missing_event_count_is_reported parse l freq out_path w df :
  heap w !! l = Some df ->
  "datetime" ∈ columns df -> "event_count" ∉ columns df ->
  (exists p, p ∈ rows df /\ has_timestamp parse p) ->
  (plot_connections_over_time parse l freq out_path w).1 = Ok tt /\
  trace (plot_connections_over_time parse l freq out_path w).2
  = (trace w ++ [print "Resample failed: 'event_count'"])%list.
Proof.
  intros Hl Hc He (p & Hp & Hts).
  destruct (plot_connections_over_time_run parse l freq out_path w df Hl Hc)
    as (h & _ & ->).
  split; [done|]. cbn [snd trace]. f_equal. unfold line_events.
  destruct (empty (valid_frame parse df)) eqn:Hempty.
  { by destruct (proj1 (empty_valid_frame parse df Hc) Hempty p Hp). }
  rewrite getitem_missing; [done|].
  rewrite columns_indexed. tauto.
Qed.

Lemma missing_event_count_is_reported_witness :
  (plot_connections_over_time (fun _ => None) 0%nat "30S" None
     (mkWorld {[ 0%nat := frame ["datetime"] [[Timestamp 5000000000]] ]} [])).1
  = Ok tt /\
  trace (plot_connections_over_time (fun _ => None) 0%nat "30S" None
           (mkWorld {[ 0%nat := frame ["datetime"] [[Timestamp 5000000000]] ]} [])).2
  = (trace (mkWorld {[ 0%nat := frame ["datetime"] [[Timestamp 5000000000]] ]} [])
     ++ [print "Resample failed: 'event_count'"])%list.
Proof.
  apply (missing_event_count_is_reported (fun _ => None) 0%nat "30S" None
           (mkWorld {[ 0%nat := frame ["datetime"] [[Timestamp 5000000000]] ]} [])
           (frame ["datetime"] [[Timestamp 5000000000]])).
  - vm_compute. reflexivity.
  - apply (bool_decide_unpack _). vm_compute. exact I.
  - apply (bool_decide_unpack _). vm_compute. exact I.
  - exists (Num 0, make_row ["datetime"] [Timestamp 5000000000]). split.
    + apply (bool_decide_unpack _). vm_compute. exact I.
    + vm_compute. reflexivity.
Defined.

(** *** The guard of line 26 *)

Lemma datetime_index_length l ts :
  datetime_index l = Ok ts -> length ts = length l.
Proof.
  revert ts. induction l as [|v l IH]; intros ts; cbn.
  - by intros <-%Ok_inj.
  - destruct v; try done. destruct (datetime_index l) as [ts'|e]; [|done].
    rewrite bind_Ok. intros <-%Ok_inj. cbn. by rewrite (IH ts').
Qed.

Lemma bin_sums_length w ts vs bs r :
  bin_sums w ts vs bs = Ok r -> length r = length bs.
Proof.
  revert r. induction bs as [|b bs IH]; intros r; cbn [bin_sums].
  - by intros <-%Ok_inj.
  - destruct (sum_cells _) as [n|e]; [rewrite bind_Ok|done].
    destruct (bin_sums w ts vs bs) as [r'|e]; [rewrite bind_Ok|done].
    intros <-%Ok_inj. cbn. by rewrite (IH r').
Qed.

Lemma resample_sum_nonempty (s : Series) freq r :
  s ≠ [] -> resample_sum s freq = Ok r -> r ≠ [].
Proof.
  intros Hs. unfold resample_sum.
  destruct (to_offset freq) as [w|e] eqn:Hw; [rewrite bind_Ok|done].
  apply to_offset_pos in Hw.
  destruct (datetime_index (index s)) as [ts|e] eqn:Hts; [rewrite bind_Ok|done].
  apply datetime_index_length in Hts. unfold index in Hts. rewrite length_fmap in Hts.
  destruct ts as [|t ts]; [by destruct s|].
  set (first := foldr Z.min t ts). set (last := foldr Z.max t ts).
  assert (first ≤ last) as Hfl.
  { pose proof (foldr_min_le t ts t ltac:(by left)).
    pose proof (foldr_max_ge t ts t ltac:(by left)). unfold first, last. lia. }
  destruct (timestamp_range_edges_spec first last w Hw Hfl)
    as (n & Hn & Hedges & Hlabels & _).
  cbv zeta in Hedges, Hlabels. rewrite Hedges, Hlabels.
  intros Hr%bin_sums_length. rewrite length_fmap, length_seq in Hr.
  destruct r; [cbn in Hr; lia|done].
Qed.

Lemma getitem_length df c s : getitem df c = Ok s -> length s = length (rows df).
Proof.
  unfold getitem. destruct (has_column df c); [|done].
  intros <-%Ok_inj. by rewrite length_fmap.
Qed.

Lemma length_rows_indexed parse df :
  length (rows (indexed parse df)) = length (rows (valid_frame parse df)).
Proof.
  unfold indexed, sort_index. cbn [rows].
  rewrite (Permutation_length (merge_sort_Permutation _ _)). by rewrite length_fmap.
Qed.

Lemma line_events_never_no_data parse df freq out_path :
  print "No data after resampling for the selected frequency."
    ∉ line_events parse df freq out_path.
Proof.
  unfold line_events. destruct (empty (valid_frame parse df)) eqn:Hempty.
  { by intros [=]%list_elem_of_singleton. }
  destruct (getitem (indexed parse df) "event_count") as [s|e] eqn:Hs.
  - rewrite bind_Ok. destruct (resample_sum s freq) as [[|c cs]|e] eqn:Hr.
    + apply resample_sum_nonempty in Hr; [done|].
      apply getitem_length in Hs. rewrite length_rows_indexed in Hs.
      unfold empty in Hempty. intros ->.
      by destruct (rows (valid_frame parse df)).
    + unfold line_chart. intros H.
      destruct out_path; cbn [app] in H;
        repeat (apply elem_of_cons in H as [H|H]; [discriminate H|]);
        by apply elem_of_nil in H.
    + intros H%list_elem_of_singleton. cbn in H. discriminate H.
  - intros H%list_elem_of_singleton. cbn in H. discriminate H.
Qed.

(** X16. The message of line 27 is never printed: once the rows without a
    timestamp are gone and one is left, resampling that succeeds yields at
    least one bucket, so the series tested on line 26 is never empty. *)
Theorem no_data_message_is_never_printed parse l freq out_path w :
  exists new : list event,
    trace (plot_connections_over_time parse l freq out_path w).2
    = (trace w ++ new)%list /\
    print "No data after resampling for the selected frequency." ∉ new.
Proof.
  destruct (heap w !! l) as [df|] eqn:Hl.
  - destruct (decide ("datetime" ∈ columns df)) as [Hc|Hc].
    + destruct (plot_connections_over_time_run parse l freq out_path w df Hl Hc)
        as (h & _ & ->).
      exists (line_events parse df freq out_path). split; [done|].
      apply line_events_never_no_data.
    + rewrite (plot_connections_over_time_no_datetime _ _ _ _ _ df) by done.
      exists []. split; [by rewrite app_nil_r|]. apply not_elem_of_nil.
  - unfold plot_connections_over_time. rewrite run_copy_missing by done.
    exists []. split; [by rewrite app_nil_r|]. apply not_elem_of_nil.
Qed.

(** *** Every event is in one bucket *)

Lemma total_bucket_indicator w x0 t c n :
  0 < w ->
  total ((fun k => Num (if decide (x0 + Z.of_nat k * w ≤ t < x0 + Z.of_nat k * w + w)
                        then c else 0)) <$> seq 0 n)
  = if decide (x0 ≤ t < x0 + Z.of_nat n * w) then c else 0.
Proof.
  intros Hw. induction n as [|n IH].
  - cbn. rewrite decide_False by lia. done.
  - rewrite seq_S, fmap_app, total_app, IH. cbn [fmap list_fmap plus].
    change (total [?v]) with (as_num v + 0). cbn [as_num].
    rewrite Nat2Z.inj_succ, Z.mul_succ_l.
    clear IH. assert (0 ≤ Z.of_nat n * w) as Ha by nia.
    revert Ha. generalize (Z.of_nat n * w). intros a Ha.
    repeat case_decide; lia.
Qed.

Lemma total_buckets w (evs : list (Z * value)) x0 n :
  0 < w ->
  (forall tv, tv ∈ evs -> x0 ≤ tv.1 < x0 + Z.of_nat n * w) ->
  total (values (buckets w evs x0 n)) = total evs.*2.
Proof.
  intros Hw. unfold buckets, values. rewrite <- list_fmap_compose. unfold compose.
  cbn [snd]. induction evs as [|[t v] evs IH]; intros Hin.
  - cbn. apply total_zero.
  - transitivity
      (total ((fun k => Num ((if decide (x0 + Z.of_nat k * w ≤ t
                                         < x0 + Z.of_nat k * w + w)
                              then as_num v else 0)
                             + bucket_total w evs (x0 + Z.of_nat k * w))) <$> seq 0 n)).
    { f_equal. apply list_fmap_ext. intros _ k _. f_equal. unfold bucket_total.
      rewrite filter_cons. cbn [fst]. by destruct (decide _). }
    rewrite total_add, total_bucket_indicator, IH
      by (try done; intros tv Htv; apply Hin; by right).
    rewrite decide_True by (apply (Hin (t, v)); by left). done.
Qed.

(** X17. No event is lost or counted twice between the dataset and the
    line: for a dataset with the datetime and event_count columns and at
    least one timestamp, a frequency that is a count of seconds ([s]),
    minutes ([min]) or hours ([h]), [event_count] cells that are missing
    or whole numbers, those of the events of at most 2^53 in magnitude
    together, and timestamps between 1824 and 2116 that span at most a
    million buckets, [plt.plot] is called once, and the values it is
    given add up to the summed [event_count] of the records that have a
    timestamp. *)
Theorem bucket_counts_add_up parse l freq out_path w df width :
  heap w !! l = Some df ->
  "datetime" ∈ columns df -> "event_count" ∈ columns df ->
  fixed_width freq = Some width ->
  (forall p, p ∈ rows df -> numeric (cell p.2 "event_count")) ->
  magnitude (events parse df).*2 ≤ 2 ^ 53 ->
  (forall tv, tv ∈ events parse df -> fits width tv.1) ->
  span (events parse df).*1 ≤ 10 ^ 6 * width ->
  events parse df ≠ [] ->
  exists (new : list event) (x y : list value),
    trace (plot_connections_over_time parse l freq out_path w).2
    = (trace w ++ new)%list /\
    plots new = [(x, y)] /\
    total y = total (events parse df).*2.
Proof.
  intros Hl Hc He Hfreq%fixed_width_to_offset Hnum%(numeric_events parse) _ _ _ Hne.
  destruct (plot_connections_over_time_plots parse l freq out_path w df width
              Hl Hc He Hfreq Hnum Hne)
    as (tmin & n & new & _ & _ & _ & Htrace & Hplots & Hcover & _).
  eexists new, _, _. split; [done|]. split; [exact Hplots|].
  rewrite <- buckets_snd. apply (total_buckets width (events parse df));
    [by eapply to_offset_pos|done].
Qed.

Lemma bucket_counts_add_up_witness :
  exists (new : list event) (x y : list value),
    trace (plot_connections_over_time (fun _ => None) 0%nat "30s" None
             (mkWorld {[ 0%nat := two_events_apart ]} [])).2
    = ([] ++ new)%list /\
    plots new = [(x, y)] /\
    total y = total (events (fun _ => None) two_events_apart).*2.
Proof.
  apply (bucket_counts_add_up (fun _ => None) 0%nat "30s" None
           (mkWorld {[ 0%nat := two_events_apart ]} []) two_events_apart
           (30 * 10 ^ 9)).
  - vm_compute. reflexivity.
  - apply (bool_decide_unpack _). vm_compute. exact I.
  - apply (bool_decide_unpack _). vm_compute. exact I.
  - vm_compute. reflexivity.
  - apply Forall_forall. apply (bool_decide_unpack _). vm_compute. exact I.
  - vm_compute. discriminate.
  - apply Forall_forall. apply (bool_decide_unpack _). vm_compute. exact I.
  - vm_compute. discriminate.
  - vm_compute. discriminate.
Defined.

(** *** The line chart of a normalised log *)

Lemma events_nil parse df :
  events parse df = [] ->
  forall p, p ∈ rows df -> to_datetime1 parse (cell p.2 "datetime") = NaN.
Proof.
  intros Hnil p Hp.
  destruct (to_datetime1_cases parse (cell p.2 "datetime")) as [E|[t E]]; [done|].
  assert ((t, cell p.2 "event_count") ∈ events parse df) as Hin.
  { unfold events. apply list_elem_of_omap. exists p. split; [done|].
    unfold stamp. by rewrite E. }
  rewrite Hnil in Hin. by apply elem_of_nil in Hin.
Qed.

Lemma events_count_one parse df :
  (forall p, p ∈ rows df -> cell p.2 "event_count" = Num 1) ->
  forall tv, tv ∈ events parse df -> tv.2 = Num 1.
Proof.
  intros Hone tv (p & Hp & Htv)%list_elem_of_omap.
  destruct (stamp parse p) as [t|]; [|done]. cbn in Htv.
  apply (inj Some) in Htv as <-. by apply Hone.
Qed.

Lemma loaded_event_count file_name content out p :
  load_and_standardize_log (mkPath file_name content) = Some out ->
  p ∈ rows out -> cell p.2 "event_count" = Num 1.
Proof.
  intros Hout Hp.
  destruct (load_record_shape _ _ _ _ Hout Hp) as (d & u & t & -> & _).
  apply cell_record.
Qed.

(** X18. On a frame that [load_and_standardize_log] returned, with a
    frequency that is a count of s, min or h and timestamps
    between 1824 and 2116 that span at most a million buckets,
    [plot_connections_over_time] either finds no record with a timestamp and prints the message of
    line 14 and nothing else, or calls [plt.plot] once, with values that
    add up to the number of records with a timestamp. *)
Theorem line_chart_of_a_normalised_log parse file_name content out l freq width
  out_path w :
  load_and_standardize_log (mkPath file_name content) = Some out ->
  heap w !! l = Some out ->
  fixed_width freq = Some width ->
  (forall tv, tv ∈ events parse out -> fits width tv.1) ->
  span (events parse out).*1 ≤ 10 ^ 6 * width ->
  exists new : list event,
    trace (plot_connections_over_time parse l freq out_path w).2
    = (trace w ++ new)%list /\
    ((events parse out = [] /\
      new = [print "No valid timestamps found for line chart."])
     \/ (exists x y : list value,
           plots new = [(x, y)] /\
           total y = Z.of_nat (length (events parse out)))).
Proof.
  intros Hout Hl Hfreq%fixed_width_to_offset _ _.
  pose proof Hout as (df & _ & _ & Hcols & _)%load_some.
  assert ("datetime" ∈ columns out) as Hc
    by (rewrite Hcols; apply (bool_decide_unpack _); vm_compute; exact I).
  assert ("event_count" ∈ columns out) as He
    by (rewrite Hcols; apply (bool_decide_unpack _); vm_compute; exact I).
  pose proof (events_count_one parse out
                (fun p Hp => loaded_event_count _ _ _ p Hout Hp)) as Hone.
  destruct (decide (events parse out = [])) as [Hnil|Hne].
  - destruct (plot_connections_over_time_run parse l freq out_path w out Hl Hc)
      as (h & _ & ->).
    eexists. split; [done|]. left. split; [done|].
    by rewrite line_events_no_timestamp by by apply events_nil.
  - destruct (plot_connections_over_time_plots parse l freq out_path w out width
                Hl Hc He Hfreq)
      as (tmin & n & new & _ & _ & _ & Htrace & Hplots & Hcover & _); [|done|].
    { apply Forall_forall. intros tv Htv. by rewrite (Hone tv Htv). }
    exists new. split; [done|]. right. eexists _, _. split; [exact Hplots|].
    rewrite <- buckets_snd.
    rewrite (total_buckets width (events parse out))
      by (by eapply to_offset_pos || done).
    by apply total_ones.
Qed.

Lemma line_chart_of_a_normalised_log_witness :
  exists new : list event,
    trace (plot_connections_over_time (fun _ => None) 0%nat "30s" None
             (mkWorld {[ 0%nat :=
                   {| columns := ["datetime"; "unified_protocol"; "total_bytes";
                                  "event_count"];
                      rows := [(Num 0, record (Timestamp 1641600005000000000)
                                         (Str "http") (Num 0));
                               (Num 0, record (Timestamp 1641600005000000000)
                                         (Str "ssl") (Num 0));
                               (Num 1, record NaN (Str "dns") (Num 0))] |} ]} [])).2
    = ([] ++ new)%list /\
    ((events (fun _ => None)
        {| columns := ["datetime"; "unified_protocol"; "total_bytes"; "event_count"];
           rows := [(Num 0, record (Timestamp 1641600005000000000)
                              (Str "http") (Num 0));
                    (Num 0, record (Timestamp 1641600005000000000)
                              (Str "ssl") (Num 0));
                    (Num 1, record NaN (Str "dns") (Num 0))] |} = [] /\
      new = [print "No valid timestamps found for line chart."])
     \/ (exists x y : list value,
           plots new = [(x, y)] /\
           total y
           = Z.of_nat
               (length
                  (events (fun _ => None)
                     {| columns := ["datetime"; "unified_protocol"; "total_bytes";
                                    "event_count"];
                        rows := [(Num 0, record (Timestamp 1641600005000000000)
                                           (Str "http") (Num 0));
                                 (Num 0, record (Timestamp 1641600005000000000)
                                           (Str "ssl") (Num 0));
                                 (Num 1, record NaN (Str "dns") (Num 0))] |})))).
Proof.
  apply (line_chart_of_a_normalised_log (fun _ => None) "conn.log.csv"
           (Ok (frame ["ts"; "service"]
                  [[Num 1641600005; Str "http,ssl"]; [NaN; Str "dns"]]))
           _ 0%nat "30s" (30 * 10 ^ 9) None).
  - vm_compute. reflexivity.
  - vm_compute. reflexivity.
  - vm_compute. reflexivity.
  - apply Forall_forall. apply (bool_decide_unpack _). vm_compute. exact I.
  - vm_compute. discriminate.
Defined.

(** X19. A log without a [ts] column has no timestamps after normalisation,
    so its line chart is the message of line 14 and nothing else. *)
Theorem log_without_ts_has_no_line_chart parse file_name df out l freq out_path w :
  load_and_standardize_log (mkPath file_name (Ok df)) = Some out ->
  "ts" ∉ columns df ->
  heap w !! l = Some out ->
  (forall q, q ∈ rows out -> cell q.2 "datetime" = NaN) /\
  (plot_connections_over_time parse l freq out_path w).1 = Ok tt /\
  trace (plot_connections_over_time parse l freq out_path w).2
  = (trace w ++ [print "No valid timestamps found for line chart."])%list.
Proof.
  intros Hout Hts Hl.
  assert (forall q, q ∈ rows out -> cell q.2 "datetime" = NaN) as Hnat.
  { intros q Hq. rewrite (load_rows _ _ _ Hout) in Hq.
    apply list_elem_of_bind in Hq as (p & Hq & _).
    apply elem_of_normalize_row in Hq as (_ & -> & _).
    unfold datetime_rule. by rewrite bool_decide_eq_false_2. }
  split; [done|].
  pose proof Hout as (df' & _ & _ & Hcols & _)%load_some.
  assert ("datetime" ∈ columns out) as Hc
    by (rewrite Hcols; apply (bool_decide_unpack _); vm_compute; exact I).
  destruct (plot_connections_over_time_run parse l freq out_path w out Hl Hc)
    as (h & _ & ->).
  split; [done|]. cbn [snd trace].
  rewrite line_events_no_timestamp; [done|].
  intros p Hp. by rewrite (Hnat p Hp).
Qed.

Lemma log_without_ts_has_no_line_chart_witness :
  (forall q,
     q ∈ rows {| columns := ["datetime"; "unified_protocol"; "total_bytes";
                             "event_count"];
                 rows := [(Num 0, record NaN (Str "http") (Num 0))] |} ->
     cell q.2 "datetime" = NaN) /\
  (plot_connections_over_time (fun _ => None) 0%nat "30S" None
     (mkWorld {[ 0%nat :=
                   {| columns := ["datetime"; "unified_protocol"; "total_bytes";
                                  "event_count"];
                      rows := [(Num 0, record NaN (Str "http") (Num 0))] |} ]} [])).1
  = Ok tt /\
  trace (plot_connections_over_time (fun _ => None) 0%nat "30S" None
           (mkWorld {[ 0%nat :=
                         {| columns := ["datetime"; "unified_protocol"; "total_bytes";
                                        "event_count"];
                            rows := [(Num 0, record NaN (Str "http") (Num 0))] |} ]}
              [])).2
  = ([] ++ [print "No valid timestamps found for line chart."])%list.
Proof.
  apply (log_without_ts_has_no_line_chart (fun _ => None) "conn.log.csv"
           (frame ["service"] [[Str "http"]])).
  - vm_compute. reflexivity.
  - apply (bool_decide_unpack _). vm_compute. exact I.
  - vm_compute. reflexivity.
Defined.

(** *** The order of the records *)

Lemma line_events_Permutation parse df df' freq out_path width :
  columns df = columns df' -> rows df ≡ₚ rows df' ->
  "datetime" ∈ columns df -> "event_count" ∈ columns df ->
  to_offset freq = Ok width ->
  Forall (fun tv => numeric tv.2) (events parse df) ->
  line_events parse df freq out_path = line_events parse df' freq out_path.
Proof.
  intros Hcols Hrows Hc He Hfreq Hnum.
  assert (events parse df ≡ₚ events parse df') as Hperm
    by (unfold events; by rewrite Hrows).
  pose proof (to_offset_pos _ _ Hfreq) as Hw.
  destruct (decide (events parse df = [])) as [Hnil|Hne].
  - assert (events parse df' = []) as Hnil'
      by (rewrite Hnil in Hperm; by apply Permutation_nil_l in Hperm).
    by rewrite !line_events_no_timestamp by by apply events_nil.
  - assert (events parse df' ≠ []) as Hne'.
    { intros Hnil'. rewrite Hnil' in Hperm. by apply Permutation_nil_r in Hperm. }
    destruct (line_events_buckets parse df freq out_path width Hc He Hfreq Hnum Hne)
      as (t1 & n1 & _ & [v1 Hin1] & Hmin1 & -> & Hcover1 & (l1 & Hl1 & Hlast1)).
    destruct (line_events_buckets parse df' freq out_path width)
      as (t2 & n2 & _ & [v2 Hin2] & Hmin2 & -> & Hcover2 & (l2 & Hl2 & Hlast2));
      [by rewrite <- Hcols..|done|by rewrite <- Hperm|done|].
    assert (t1 = t2) as <-.
    { rewrite Hperm in Hin1. rewrite <- Hperm in Hin2.
      specialize (Hmin1 _ Hin2). specialize (Hmin2 _ Hin1). cbn in *. lia. }
    assert (n1 = n2) as <-.
    { rewrite Hperm in Hl1. rewrite <- Hperm in Hl2.
      specialize (Hcover1 _ Hl2). specialize (Hcover2 _ Hl1).
      generalize dependent (first_edge width t1). intros x0 **.
      assert (Z.of_nat n1 - 1 < Z.of_nat n2) by nia.
      assert (Z.of_nat n2 - 1 < Z.of_nat n1) by nia. lia. }
    by rewrite (buckets_Permutation _ _ _ _ _ Hperm).
Qed.

(** X20. The chart does not depend on the order of the records: with a
    fixed-width frequency, two datasets with the same columns (datetime and
    event_count among them) and the same records in any order, their
    [event_count] cells numeric, are printed and drawn alike. *)
Theorem line_chart_ignores_record_order parse l l' freq out_path w w' df df' width :
  heap w !! l = Some df -> heap w' !! l' = Some df' ->
  columns df = columns df' -> rows df ≡ₚ rows df' ->
  "datetime" ∈ columns df -> "event_count" ∈ columns df ->
  to_offset freq = Ok width ->
  Forall (fun tv => numeric tv.2) (events parse df) ->
  exists new : list event,
    trace (plot_connections_over_time parse l freq out_path w).2
    = (trace w ++ new)%list /\
    trace (plot_connections_over_time parse l' freq out_path w').2
    = (trace w' ++ new)%list.
Proof.
  intros Hl Hl' Hcols Hrows Hc He Hfreq Hnum.
  destruct (plot_connections_over_time_run parse l freq out_path w df Hl Hc)
    as (h & _ & ->).
  destruct (plot_connections_over_time_run parse l' freq out_path w' df' Hl')
    as (h' & _ & ->); [by rewrite <- Hcols|].
  exists (line_events parse df freq out_path). split; [done|]. cbn [snd trace].
  by rewrite (line_events_Permutation parse df df' freq out_path width).
Qed.

Lemma line_chart_ignores_record_order_witness :
  exists new : list event,
    trace (plot_connections_over_time (fun _ => None) 0%nat "30S" None
             (mkWorld {[ 0%nat := two_events_apart ]} [])).2
    = ([] ++ new)%list /\
    trace (plot_connections_over_time (fun _ => None) 0%nat "30S" None
             (mkWorld {[ 0%nat := {| columns := columns two_events_apart;
                                     rows := reverse (rows two_events_apart) |} ]}
                [])).2
    = ([] ++ new)%list.
Proof.
  apply (line_chart_ignores_record_order (fun _ => None) 0%nat 0%nat "30S" None
           (mkWorld {[ 0%nat := two_events_apart ]} [])
           (mkWorld {[ 0%nat := {| columns := columns two_events_apart;
                                   rows := reverse (rows two_events_apart) |} ]} [])
           two_events_apart
           {| columns := columns two_events_apart;
              rows := reverse (rows two_events_apart) |}
           (30 * 10 ^ 9)).
  - vm_compute. reflexivity.
  - vm_compute. reflexivity.
  - reflexivity.
  - apply (bool_decide_unpack _). vm_compute. exact I.
  - apply (bool_decide_unpack _). vm_compute. exact I.
  - apply (bool_decide_unpack _). vm_compute. exact I.
  - vm_compute. reflexivity.
  - apply (bool_decide_unpack _). vm_compute. exact I.
Defined.

(** *** The date parser *)

(** X21. On a frame that [load_and_standardize_log] returned, line 11
    converts nothing: every datetime cell is a timestamp or NaT already, so
    the run is the same whatever the date parser makes of a text. *)
Theorem normalised_log_needs_no_date_parser parse parse' file_name content out l
  freq out_path w :
  load_and_standardize_log (mkPath file_name content) = Some out ->
  heap w !! l = Some out ->
  plot_connections_over_time parse l freq out_path w
  = plot_connections_over_time parse' l freq out_path w.
Proof.
  intros Hout Hl.
  pose proof Hout as (df & _ & _ & Hcols & _)%load_some.
  assert ("datetime" ∈ columns out) as Hc
    by (rewrite Hcols; apply (bool_decide_unpack _); vm_compute; exact I).
  assert (forall f, to_datetime f (column_of (fun r => cell r "datetime") (rows out))
                    = column_of (fun r => cell r "datetime") (rows out)) as Hsame.
  { intros f. unfold to_datetime. rewrite smap_column_of. apply column_of_ext.
    intros p Hp.
    destruct (load_record_shape _ _ _ _ Hout Hp) as (d & u & t & -> & Hd & _).
    destruct (cell_record d u t) as (-> & _).
    by destruct Hd as [->|(ts & -> & _)]. }
  unfold plot_connections_over_time.
  rewrite !(run_copy l out) by done.
  rewrite !(run_getitem_ref _ out) by apply lookup_insert_eq.
  rewrite getitem_column by done. by rewrite !Hsame.
Qed.

Lemma normalised_log_needs_no_date_parser_witness :
  plot_connections_over_time (fun _ => None) 0%nat "30S" None
    (mkWorld {[ 0%nat :=
                  {| columns := ["datetime"; "unified_protocol"; "total_bytes";
                                 "event_count"];
                     rows := [(Num 0, record (Timestamp 5000000000) (Str "dns")
                                        (Num 0))] |} ]} [])
  = plot_connections_over_time (fun _ => Some 0) 0%nat "30S" None
      (mkWorld {[ 0%nat :=
                    {| columns := ["datetime"; "unified_protocol"; "total_bytes";
                                   "event_count"];
                       rows := [(Num 0, record (Timestamp 5000000000) (Str "dns")
                                          (Num 0))] |} ]} []).
Proof.
  apply (normalised_log_needs_no_date_parser (fun _ => None) (fun _ => Some 0)
           "dns.log.csv" (Ok (frame ["ts"] [[Num 5]]))
           {| columns := ["datetime"; "unified_protocol"; "total_bytes";
                          "event_count"];
              rows := [(Num 0, record (Timestamp 5000000000) (Str "dns") (Num 0))] |}).
  - vm_compute. reflexivity.
  - vm_compute. reflexivity.
Defined.
